(** * refah / 1_csv_updates: the two CSV mapping scripts

    A shallow embedding of [9_code_optimized.py] (the chunked, in-memory
    pandas join, module [Chunked]) and of [code_5.py] (the SQLite-driven
    join, module [Sql]), together with the text helpers and the mapping
    loader they share.

    Conventions of the embedding.
    - A cell is [option string]: [None] is pandas' NaN / SQL NULL, [Some s]
      is the text of the field.  Numbers read from the mapping sheet are
      represented by the text [astype(str)] gives them; the text a script
      leaves in a cell for such a number is given by a [Rendering].
    - A [DataFrame] is its list of column labels and its rows, each row a
      list of cells in column order.  A field missing at the end of a row
      reads as NaN, as [read_csv] pads it.  Two columns of a frame can bear
      one label once the labels are cleaned: the key columns of the sheet
      and the target columns of a batch cannot be read through such a
      label, and the model raises where the scripts do; the identifier of
      a row is read from the first column that bears the identifier's
      label.  The scratch labels [composite_key] and [avg_value] the script
      adds to its temporary frames are taken not to be labels of the main
      data.
    - Exceptions are values of [error]; code under [try ... except: raise]
      is written in the [result] monad. *)

From Stdlib Require Import Ascii String.
From stdpp Require Import gmap strings list sorting.

Open Scope string_scope.
Open Scope list_scope.

(** ** Text helpers: the [str] methods and the regular expression used *)

Module Text.

(** The character class [0-9a-zA-Z_] of the pattern [[^0-9a-zA-Z_]+]. *)
Definition is_word_char (c : ascii) : bool :=
  let n := nat_of_ascii c in
  (((48 <=? n) && (n <=? 57)) || ((65 <=? n) && (n <=? 90))
   || ((97 <=? n) && (n <=? 122)) || (n =? 95))%nat.

(** [str.replace('[^0-9a-zA-Z_]+', '_', regex=True)]: every maximal run of
    characters outside the class becomes one underscore.  [in_run] tells
    whether the previous character was already part of such a run. *)
Fixpoint replace_runs (in_run : bool) (s : string) : string :=
  match s with
  | EmptyString => EmptyString
  | String c r =>
      if is_word_char c then String c (replace_runs false r)
      else if in_run then replace_runs true r
      else String "_" (replace_runs true r)
  end.

(** [str.replace('__', '_', regex=False)]: one left-to-right pass over the
    non-overlapping occurrences of two underscores. *)
Fixpoint replace_double (s : string) : string :=
  match s with
  | EmptyString => EmptyString
  | String c r =>
      match r with
      | String d r' =>
          if (Ascii.eqb c "_" && Ascii.eqb d "_")%bool
          then String "_" (replace_double r')
          else String c (replace_double r)
      | EmptyString => String c EmptyString
      end
  end.

(** [str.lstrip('_')], [str.rstrip('_')] and [str.strip('_')]. *)
Fixpoint lstrip (s : string) : string :=
  match s with
  | String c r => if Ascii.eqb c "_" then lstrip r else s
  | EmptyString => EmptyString
  end.

Fixpoint rstrip (s : string) : string :=
  match s with
  | EmptyString => EmptyString
  | String c r =>
      match rstrip r with
      | EmptyString => if Ascii.eqb c "_" then EmptyString else String c EmptyString
      | r' => String c r'
      end
  end.

Definition strip (s : string) : string := rstrip (lstrip s).

(** The cleaning chain applied to every column label (mapping sheet lines
    42-44, header line 99, identifier line 105, each chunk line 128; the
    same three calls in [code_5.py] lines 49-51 and 115-117). *)
Definition sanitize (s : string) : string :=
  strip (replace_double (replace_runs false s)).

(** [str.lower()] on the ASCII letters. *)
Definition lower_char (c : ascii) : ascii :=
  let n := nat_of_ascii c in
  if ((65 <=? n) && (n <=? 90))%nat then ascii_of_nat (n + 32) else c.

Fixpoint lower (s : string) : string :=
  match s with
  | EmptyString => EmptyString
  | String c r => String (lower_char c) (lower r)
  end.

(** [s.replace('_', '')]. *)
Fixpoint remove_underscores (s : string) : string :=
  match s with
  | EmptyString => EmptyString
  | String c r =>
      if Ascii.eqb c "_" then remove_underscores r
      else String c (remove_underscores r)
  end.

(** [s.startswith(p)] and [p in s]. *)
Fixpoint startswith (p s : string) : bool :=
  match p, s with
  | EmptyString, _ => true
  | String a p', String b s' => Ascii.eqb a b && startswith p' s'
  | String _ _, EmptyString => false
  end.

Fixpoint contains (p s : string) : bool :=
  startswith p s
  || match s with
     | EmptyString => false
     | String _ s' => contains p s'
     end.

End Text.

(** ** Frames, files and errors *)

(** A cell: the text of a field, or [None] for NaN / NULL. *)
Abbreviation cell := (option string).

Record DataFrame : Type := { columns : list string; rows : list (list cell) }.

(** The exceptions the two scripts can meet. *)
Inductive error : Type :=
  | FileNotFoundError | ValueError | IndexError | AttributeError | OSError.

Inductive result (A : Type) : Type :=
  | Ok (a : A)
  | Err (e : error).
Arguments Ok {A} a.
Arguments Err {A} e.

#[global] Instance result_bind : MBind result :=
  fun A B k m =>
    match m with
    | Ok a => k a
    | Err e => Err e
    end.

(** A [for] loop whose body may raise: the first exception ends it. *)
Fixpoint for_each {A S : Type} (body : S -> A -> result S) (s : S) (l : list A)
  : result S :=
  match l with
  | [] => Ok s
  | a :: l' => s' ← body s a; for_each body s' l'
  end.

(** A line of a delimited text file: the header line or a data line. *)
Inductive line : Type :=
  | HeaderLine (names : list string)
  | DataLine (fields : list cell).

Abbreviation file := (list line).

Definition data_lines (f : file) : list (list cell) :=
  flat_map (fun l => match l with DataLine r => [r] | HeaderLine _ => [] end) f.

Definition header_lines (f : file) : list (list string) :=
  flat_map (fun l => match l with HeaderLine h => [h] | DataLine _ => [] end) f.

(** The main data file as [read_csv] hands it out: the labels of its header
    line, and the batches [chunksize] cuts it into. *)
Record CsvFile : Type := { header : list string; batches : list DataFrame }.

Module Frame.

(** [x in l] on labels. *)
Definition mem (x : string) (l : list string) : bool := existsb (String.eqb x) l.

(** How many columns bear a label. *)
Definition count (c : string) (cols : list string) : nat :=
  length (List.filter (String.eqb c) cols).

(** Position of the first column bearing a label. *)
Fixpoint position (c : string) (cols : list string) : option nat :=
  match cols with
  | [] => None
  | x :: xs => if String.eqb x c then Some 0 else S <$> position c xs
  end.

(** Positions of all the columns bearing a label, in column order. *)
Fixpoint positions (c : string) (cols : list string) : list nat :=
  match cols with
  | [] => []
  | x :: xs => (if String.eqb x c then [0] else []) ++ map S (positions c xs)
  end.

(** Field [j] of a row; a field missing at the end of the row is NaN. *)
Definition field (row : list cell) (j : nat) : cell := default None (row !! j).

Definition put (j : nat) (v : cell) (row : list cell) : list cell :=
  <[j := v]> (row ++ replicate (S j - length row) None).

(** [row[c]] and [row[c] = v] through the label. *)
Definition get (cols : list string) (row : list cell) (c : string) : cell :=
  match position c cols with
  | Some j => field row j
  | None => None
  end.

Definition set (cols : list string) (c : string) (v : cell) (row : list cell)
  : list cell :=
  match position c cols with
  | Some j => put j v row
  | None => row
  end.

(** [df.columns = df.columns.str.replace(...)...]: relabel, data untouched. *)
Definition clean_columns (df : DataFrame) : DataFrame :=
  {| columns := map Text.sanitize (columns df); rows := rows df |}.

(** [df[cols]]: for each label of [cols] in turn, every column of [df]
    that bears it.  (pandas raises on a label no column bears; the script
    selects by labels of the frame only.) *)
Definition select (cols : list string) (df : DataFrame) : DataFrame :=
  {| columns := flat_map (fun c => map (fun _ => c) (positions c (columns df))) cols;
     rows := map (fun r => flat_map (fun c => map (field r) (positions c (columns df)))
                             cols)
                 (rows df) |}.

(** The fields [to_csv] writes for a row: one per column. *)
Definition csv_row (df : DataFrame) (r : list cell) : list cell :=
  map (field r) (seq 0 (length (columns df))).

(** [df.to_csv(f, index=False, mode='w')]: header line, then the rows. *)
Definition to_csv_w (df : DataFrame) : file :=
  HeaderLine (columns df) :: map (fun r => DataLine (csv_row df r)) (rows df).

(** [df.to_csv(f, index=False, mode='a', header=False)]. *)
Definition to_csv_a (old : option file) (df : DataFrame) : file :=
  default [] old ++ map (fun r => DataLine (csv_row df r)) (rows df).

End Frame.

(** ** Step 1 of both scripts: the mapping sheet and its composite key *)

Module Mapping.

Definition is_amt_senf (col : string) : bool :=
  String.eqb (Text.remove_underscores (Text.lower col)) "amtsenf"
  || Text.contains "amtsenf" (Text.lower col).

Definition is_cat_no (col : string) : bool :=
  String.eqb (Text.remove_underscores (Text.lower col)) "catno"
  || Text.contains "cat_no" (Text.lower col).

Definition is_avg (col : string) : bool := Text.contains "avg" (Text.lower col).

(** Truth value of an element of the list given to [all]. *)
Definition truthy (o : option string) : bool :=
  match o with
  | Some s => negb (String.eqb s "")
  | None => false
  end.

(** [.fillna('').astype(str)] on a key component. *)
Definition fillna (v : cell) : string := default "" v.

Definition composite_key (amt_senf cat_no : cell) : string :=
  fillna amt_senf +:+ "_" +:+ fillna cat_no.

(** The lookup frame: one (composite_key, avg_value) entry per row of the
    sheet, in sheet order.  Nothing is dropped and nothing is merged. *)
Definition df_mapping_lookup (df_mapping : DataFrame)
    (amt_senf_col_mapping cat_no_col_mapping avg_value_col_mapping : string)
  : list (string * cell) :=
  let cols := columns df_mapping in
  map (fun r => (composite_key (Frame.get cols r amt_senf_col_mapping)
                               (Frame.get cols r cat_no_col_mapping),
                 Frame.get cols r avg_value_col_mapping))
      (rows df_mapping).

(** [None] stands for a sheet that is not there.  When the label found for
    the sender code or for the category number is borne by two columns,
    [df_mapping[label]] is a frame, not a column, and the assignment of
    line 58 raises ValueError.  (A label of the average borne by two columns
    passes step 1 of [9_code_optimized.py] and makes the first merge raise;
    here the first of the two is read, so what is stated of a run that
    returns assumes the cleaned labels of the sheet distinct.) *)
Definition load (mapping_file : option DataFrame) : result (list (string * cell)) :=
  match mapping_file with
  | None => Err FileNotFoundError
  | Some sheet =>
      let df_mapping := Frame.clean_columns sheet in
      let mapping_cols := columns df_mapping in
      let amt_senf_col_mapping := find is_amt_senf mapping_cols in
      let cat_no_col_mapping := find is_cat_no mapping_cols in
      let avg_value_col_mapping := find is_avg mapping_cols in
      if forallb truthy
           [amt_senf_col_mapping; cat_no_col_mapping; avg_value_col_mapping]
      then
        match amt_senf_col_mapping, cat_no_col_mapping, avg_value_col_mapping with
        | Some a, Some c, Some v =>
            if ((1 <? Frame.count a mapping_cols)
                || (1 <? Frame.count c mapping_cols))%nat
            then Err ValueError
            else Ok (df_mapping_lookup df_mapping a c v)
        | _, _, _ => Err ValueError
        end
      else Err ValueError
  end.

End Mapping.

(** ** Column resolver, shared shape of both scripts *)

Module Resolver.

Definition is_amt (col : string) : bool := Text.startswith "amt_" (Text.lower col).

(** ['id' if 'id' in cols else ('head_id' if 'head_id' in cols else cols[0])] *)
Definition pick_id (cols : list string) : result string :=
  if Frame.mem "id" cols then Ok "id"
  else if Frame.mem "head_id" cols then Ok "head_id"
  else match cols with
       | c :: _ => Ok c
       | [] => Err IndexError
       end.

End Resolver.

(** ** A number of the sheet, written back into a cell

    An average is a number of the sheet, kept in the lookup structure as the
    text [str] gives it.  The text a script leaves in a cell for it is not
    that text in general.  In [9_code_optimized.py] the merged [avg_value]
    column is a column of floats as soon as it holds a NaN, whatever it was
    in the sheet, so that the integer 10 is written [10.0] when a row of
    the column at hand has no average, and [10] otherwise.  In [code_5.py]
    the number is stored in a TEXT column and SQLite keeps its own text of
    it, with 15 significant digits for a REAL.  Both texts are functions of
    the number; they are left open. *)
Class Rendering : Type := {
  (** the text [to_csv] writes; the flag tells whether the merged column
      holds a NaN *)
  merged_text : bool -> string -> string;
  (** the text SQLite stores in a TEXT column *)
  sqlite_text : string -> string }.

(** ** [9_code_optimized.py]: the chunked in-memory join *)

Module Chunked.

(** The two files the script writes. *)
Inductive Sink : Type := Primary | Report.

(** What the script finds on disk, and what Python leaves open.
    [can_write s i] tells whether the [to_csv] call on sink [s] made while
    batch [i] is current succeeds; the closing write of the report is asked
    with [i] the number of batches.  [set_order i] ranks the identifiers:
    [list(unmapped_row_ids_in_chunk)] for batch [i] lists the members of
    the set by increasing rank (the order of iteration over a set depends
    on the hashes of the run, any order can come out). *)
Record World : Type := {
  mapping_file : option DataFrame;
  main_file : option CsvFile;
  can_write : Sink -> nat -> bool;
  set_order : nat -> cell -> nat }.

(** The diagnostics that matter here, among the messages printed. *)
Inductive message : Type :=
  | WarnNoAmtColumns
  | WarnIdNotInHeader (id : string)
  | ErrorIdNotInChunk (id : string) (batch : nat).

(** The variables that live across the loop, and the two output files
    ([None]: the file does not exist). *)
Record State : Type := {
  is_first_chunk : bool;
  is_first_unmapped_chunk : bool;
  output_file : option file;
  nans_file : option file;
  printed : list message }.

(** [s.isna() | (s == '')] *)
Definition isna_or_empty (v : cell) : bool :=
  match v with
  | None => true
  | Some s => String.eqb s ""
  end.

(** A row of [temp_df_col]: its index label, identifier and value. *)
Record entry : Type := { label : nat; ident : cell; value : cell }.

Definition temp_df_col (id_column_data col_name : string) (chunk_df : DataFrame)
  : list entry :=
  map (fun ir => {| label := ir.1;
                    ident := Frame.get (columns chunk_df) ir.2 id_column_data;
                    value := Frame.get (columns chunk_df) ir.2 col_name |})
      (zip (seq 0 (length (rows chunk_df))) (rows chunk_df)).

(** The [avg_value] of every row of the lookup frame indexed by [key]. *)
Definition lookup_rows (df_mapping_lookup : list (string * cell)) (key : string)
  : list cell :=
  map snd (List.filter (fun e => String.eqb e.1 key) df_mapping_lookup).

(** [pd.merge(left, df_mapping_lookup, left_on='composite_key',
    right_index=True, how='left')], as (identifier, avg_value) rows: a left
    row comes out once per lookup row with its key, and once with NaN when
    there is none. *)
Definition merge (df_mapping_lookup : list (string * cell))
    (left : list (entry * string)) : list (cell * cell) :=
  flat_map (fun tk =>
              match lookup_rows df_mapping_lookup tk.2 with
              | [] => [(ident tk.1, None)]
              | avgs => map (fun a => (ident tk.1, a)) avgs
              end) left.

(** [chunk_df.loc[idxs, col_name] = values], idxs and values of one length. *)
Definition loc_assign (cols : list string) (col_name : string)
    (idxs : list nat) (values : list cell) (rs : list (list cell))
  : list (list cell) :=
  fold_left (fun acc iv => alter (Frame.set cols col_name iv.2) iv.1 acc)
            (zip idxs values) rs.

(** Body of [for col_name in amt_columns_chunk] (lines 145-210).
    - When the identifier column is the column at hand, [chunk_df[[id, col]]]
      carries the label twice, [blank_entries[id]] is a frame and
      [.tolist()] raises as soon as the chunk has a row.
    - When two columns of the chunk bear the label at hand,
      [temp_df_col[col_name]] is a frame and the selection of line 151
      raises ValueError.
    - The series assignment of line 205 raises when the merge returned more
      rows than it was given.
    - A cell that is given a number of the lookup frame holds, in the
      model, the text [to_csv] writes for it.
    The test of line 173 cannot fail, [df_mapping_lookup] being bound once
    step 1 has not raised, and is left out. *)
Definition process_column `{Rendering} (df_mapping_lookup : list (string * cell))
    (id_column_data : string) (acc : DataFrame * gset cell) (col_name : string)
  : result (DataFrame * gset cell) :=
  let chunk_df := acc.1 in
  let unmapped_row_ids_in_chunk := acc.2 in
  if String.eqb id_column_data col_name then
    match rows chunk_df with
    | [] => Ok acc
    | _ :: _ => Err AttributeError
    end
  else if (1 <? Frame.count col_name (columns chunk_df))%nat then Err ValueError
  else
    let temp := temp_df_col id_column_data col_name chunk_df in
    let blank_entries := List.filter (fun t => isna_or_empty (value t)) temp in
    let unmapped_row_ids_in_chunk :=
      unmapped_row_ids_in_chunk ∪ list_to_set (map ident blank_entries) in
    let temp_df_col_clean :=
      List.filter (fun t => negb (isna_or_empty (value t))) temp in
    match temp_df_col_clean with
    | [] => Ok (chunk_df, unmapped_row_ids_in_chunk)
    | _ :: _ =>
        let keyed :=
          map (fun t => (t, col_name +:+ "_" +:+ Mapping.fillna (value t)))
              temp_df_col_clean in
        let merged_df := merge df_mapping_lookup keyed in
        let unmapped_entries_lookup_fail :=
          List.filter (fun m => bool_decide (m.2 = None)) merged_df in
        let unmapped_row_ids_in_chunk :=
          unmapped_row_ids_in_chunk
          ∪ list_to_set (map fst unmapped_entries_lookup_fail) in
        let has_nan := negb (bool_decide (unmapped_entries_lookup_fail = [])) in
        let mapped_values_for_update :=
          map (fun m => merged_text has_nan <$> m.2) merged_df in
        let original_indices_for_update := map label temp_df_col_clean in
        if Nat.eqb (length original_indices_for_update)
                   (length mapped_values_for_update)
        then Ok ({| columns := columns chunk_df;
                    rows := loc_assign (columns chunk_df) col_name
                              original_indices_for_update
                              mapped_values_for_update (rows chunk_df) |},
                 unmapped_row_ids_in_chunk)
        else Err ValueError
    end.

(** Row-wise reading of the column loop body, used to state what
    [process_column] computes when it goes through: the composite key of a
    row, the value the merge finds for it, whether the merged column of a
    batch holds a NaN, the row after the update, and whether the row's
    identifier joins the set. *)
Definition composite_key (col_name : string) (v : cell) : string :=
  col_name +:+ "_" +:+ Mapping.fillna v.

Definition found (df_mapping_lookup : list (string * cell)) (col_name : string)
    (v : cell) : cell :=
  hd None (lookup_rows df_mapping_lookup (composite_key col_name v)).

Definition is_unmapped (df_mapping_lookup : list (string * cell))
    (cols : list string) (col_name : string) (r : list cell) : bool :=
  let v := Frame.get cols r col_name in
  isna_or_empty v || bool_decide (found df_mapping_lookup col_name v = None).

Definition has_nan (df_mapping_lookup : list (string * cell))
    (cols : list string) (col_name : string) (rs : list (list cell)) : bool :=
  existsb (fun r =>
             let v := Frame.get cols r col_name in
             negb (isna_or_empty v)
             && bool_decide (found df_mapping_lookup col_name v = None)) rs.

Definition mapped_row `{Rendering} (df_mapping_lookup : list (string * cell))
    (cols : list string) (col_name : string) (nan : bool) (r : list cell)
  : list cell :=
  let v := Frame.get cols r col_name in
  if isna_or_empty v then r
  else Frame.set cols col_name
         (merged_text nan <$> found df_mapping_lookup col_name v) r.

(** The identifiers one column adds to the set of the batch. *)
Definition joins (df_mapping_lookup : list (string * cell))
    (id_column_data col_name : string) (cols : list string)
    (rs : list (list cell)) (x : cell) : Prop :=
  exists r, r ∈ rs /\ is_unmapped df_mapping_lookup cols col_name r = true
            /\ Frame.get cols r id_column_data = x.

(** What the loop over the columns leaves in one cell: [rs] are the rows
    the batch came with, [r] one of them, [r'] that row after the loop,
    [um'] the set after it. *)
Definition cell_outcome `{Rendering} (df_mapping_lookup : list (string * cell))
    (id_column_data : string) (cols : list string) (rs : list (list cell))
    (um' : gset cell) (r r' : list cell) (col_name : string) : Prop :=
  (isna_or_empty (Frame.get cols r col_name) = true ->
     Frame.get cols r' col_name = Frame.get cols r col_name
     /\ Frame.get cols r id_column_data ∈ um')
  /\ (isna_or_empty (Frame.get cols r col_name) = false ->
        length (lookup_rows df_mapping_lookup
                  (composite_key col_name (Frame.get cols r col_name))) <= 1
        /\ Frame.get cols r' col_name
           = (merged_text (has_nan df_mapping_lookup cols col_name rs)
              <$> found df_mapping_lookup col_name (Frame.get cols r col_name))
        /\ (found df_mapping_lookup col_name (Frame.get cols r col_name) = None ->
              Frame.get cols r id_column_data ∈ um')).

(** Lines 137-210: the columns to map, a fresh set, the loop over columns. *)
Definition process_chunk `{Rendering} (df_mapping_lookup : list (string * cell))
    (amt_columns_header : list string) (id_column_data : string)
    (chunk_df : DataFrame) : result (DataFrame * gset cell) :=
  let amt_columns_chunk :=
    List.filter (fun col => Frame.mem col (columns chunk_df)) amt_columns_header in
  for_each (process_column df_mapping_lookup id_column_data)
           (chunk_df, ∅) amt_columns_chunk.

(** [list(unmapped_row_ids_in_chunk)]: the members of the set, in the
    order the world gives for the batch. *)
Definition ranked (rank : cell -> nat) (x y : cell) : Prop := rank x <= rank y.

#[global] Instance ranked_dec (rank : cell -> nat) (x y : cell)
  : Decision (ranked rank x y).
Proof. unfold ranked. apply _. Defined.

Definition list_of_set (w : World) (i : nat) (unmapped : gset cell) : list cell :=
  merge_sort (ranked (set_order w i)) (elements unmapped).

(** [pd.DataFrame({id_column_data: list(unmapped_row_ids_in_chunk)})] *)
Definition chunk_unmapped_df (w : World) (i : nat) (id_column_data : string)
    (unmapped : gset cell) : DataFrame :=
  {| columns := [id_column_data];
     rows := map (fun x => [x]) (list_of_set w i unmapped) |}.

(** Lines 240-243: the identifier column is moved to the front. *)
Definition id_first (id_column_data : string) (chunk_df : DataFrame) : DataFrame :=
  if Frame.mem id_column_data (columns chunk_df)
     && negb (bool_decide (head (columns chunk_df) = Some id_column_data))
  then Frame.select
         (id_column_data
          :: List.filter (fun col => negb (String.eqb col id_column_data))
               (columns chunk_df))
         chunk_df
  else chunk_df.

Definition write (w : World) (s : Sink) (i : nat) (f : file) : result (option file) :=
  if can_write w s i then Ok (Some f) else Err OSError.

(** Lines 217-234: the set of the batch goes to the report, if not empty. *)
Definition flush_unmapped (w : World) (id_column_data : string) (i : nat)
    (unmapped : gset cell) (st : State) : result State :=
  if bool_decide (unmapped = ∅) then Ok st
  else
    let df := chunk_unmapped_df w i id_column_data unmapped in
    f ← write w Report i
          (if is_first_unmapped_chunk st then Frame.to_csv_w df
           else Frame.to_csv_a (nans_file st) df);
    Ok {| is_first_chunk := is_first_chunk st;
          is_first_unmapped_chunk := false;
          output_file := output_file st;
          nans_file := f;
          printed := printed st |}.

(** Lines 238-252: the batch goes to the primary output. *)
Definition write_chunk (w : World) (id_column_data : string) (i : nat)
    (chunk_df : DataFrame) (st : State) : result State :=
  let chunk_df := id_first id_column_data chunk_df in
  f ← write w Primary i
        (if is_first_chunk st then Frame.to_csv_w chunk_df
         else Frame.to_csv_a (output_file st) chunk_df);
  Ok {| is_first_chunk := false;
        is_first_unmapped_chunk := is_first_unmapped_chunk st;
        output_file := f;
        nans_file := nans_file st;
        printed := printed st |}.

Definition say (m : message) (st : State) : State :=
  {| is_first_chunk := is_first_chunk st;
     is_first_unmapped_chunk := is_first_unmapped_chunk st;
     output_file := output_file st;
     nans_file := nans_file st;
     printed := printed st ++ [m] |}.

(** Body of [for i, chunk_df in enumerate(csv_reader)] (lines 124-252). *)
Definition body `{Rendering} (w : World) (df_mapping_lookup : list (string * cell))
    (amt_columns_header : list string) (id_column_data : string)
    (st : State) (ic : nat * DataFrame) : result State :=
  let i := ic.1 in
  let chunk_df := Frame.clean_columns ic.2 in
  if negb (Frame.mem id_column_data (columns chunk_df))
  then Ok (say (ErrorIdNotInChunk id_column_data (i + 1)) st)
  else
    '(chunk_df, unmapped_row_ids_in_chunk) ←
        process_chunk df_mapping_lookup amt_columns_header id_column_data chunk_df;
    st ← flush_unmapped w id_column_data i unmapped_row_ids_in_chunk st;
    write_chunk w id_column_data i chunk_df st.

Definition enumerate {A : Type} (l : list A) : list (nat * A) :=
  zip (seq 0 (length l)) l.

(** Lines 24-31: both output files are removed before anything is read. *)
Definition initial : State :=
  {| is_first_chunk := true;
     is_first_unmapped_chunk := true;
     output_file := None;
     nans_file := None;
     printed := [] |}.

(** Lines 95-112: the header probe. *)
Definition all_data_cols (main : CsvFile) : list string :=
  map Text.sanitize (header main).

Definition amt_columns_header (main : CsvFile) : list string :=
  List.filter Resolver.is_amt (all_data_cols main).

Definition id_column_data (main : CsvFile) : result string :=
  choice ← Resolver.pick_id (all_data_cols main);
  Ok (Text.sanitize choice).

Definition header_warnings (main : CsvFile) (id : string) : list message :=
  (if amt_columns_header main is [] then [WarnNoAmtColumns] else [])
  ++ (if Frame.mem id (all_data_cols main) then [] else [WarnIdNotInHeader id]).

(** Lines 272-280: the report with its header alone, when nothing was flushed. *)
Definition final_check (w : World) (id : string) (n : nat) (st : State)
  : result State :=
  if is_first_unmapped_chunk st then
    f ← write w Report n (Frame.to_csv_w {| columns := [id]; rows := [] |});
    Ok {| is_first_chunk := is_first_chunk st;
          is_first_unmapped_chunk := is_first_unmapped_chunk st;
          output_file := output_file st;
          nans_file := f;
          printed := printed st |}
  else Ok st.

(** The script from top to bottom. *)
Definition run `{Rendering} (w : World) : result State :=
  df_mapping_lookup ← Mapping.load (mapping_file w);
  main ← match main_file w with
         | Some m => Ok m
         | None => Err FileNotFoundError
         end;
  id ← id_column_data main;
  let st := fold_left (fun s m => say m s) (header_warnings main id) initial in
  st ← for_each (body w df_mapping_lookup (amt_columns_header main) id) st
         (enumerate (batches main));
  final_check w id (length (batches main)) st.

(** Notions used to state what a run leaves in its files: whether a batch
    has the identifier column, the identifiers of the rows of the batches
    that have it, in file order, and the data lines of an output file. *)
Definition kept (id : string) (chunk_df : DataFrame) : bool :=
  Frame.mem id (columns (Frame.clean_columns chunk_df)).

Definition kept_ids (id : string) (chunks : list DataFrame) : list cell :=
  flat_map (fun chunk_df =>
              map (fun r => Frame.get (columns (Frame.clean_columns chunk_df)) r id)
                  (rows chunk_df))
           (List.filter (kept id) chunks).

Definition written (f : option file) : list (list cell) :=
  data_lines (default [] f).

(** The set a batch ends the column loop with. *)
Definition batch_set `{Rendering} (df_mapping_lookup : list (string * cell))
    (amt_columns_header : list string) (id : string) (chunk_df : DataFrame)
  : gset cell :=
  match process_chunk df_mapping_lookup amt_columns_header id
          (Frame.clean_columns chunk_df) with
  | Ok res => res.2
  | Err _ => ∅
  end.

(** The data lines a batch gives when it is written as it came, and those
    of all the batches that have the identifier column. *)
Definition lines_as_read (id : string) (chunks : list DataFrame)
  : list (list cell) :=
  flat_map (fun chunk_df =>
              let df := id_first id (Frame.clean_columns chunk_df) in
              map (Frame.csv_row df) (rows df))
           (List.filter (kept id) chunks).

(** The identifiers the numbered batches send to the report: those of the
    batches that have the identifier column, batch after batch. *)
Definition reported `{Rendering} (w : World)
    (df_mapping_lookup : list (string * cell))
    (amt_columns_header : list string) (id : string)
    (ics : list (nat * DataFrame)) : list cell :=
  flat_map (fun ic =>
              list_of_set w ic.1
                (batch_set df_mapping_lookup amt_columns_header id ic.2))
           (List.filter (fun ic => kept id ic.2) ics).

End Chunked.

(** ** [code_5.py]: the join driven through SQLite tables *)

Module Sql.

(** A row of [temp_unmapped_values]. *)
Record unmapped_row : Type := {
  original_id : cell;
  original_value : cell;
  column_name : string }.

(** Step 2: every chunk is appended to [main_data_table], whose columns are
    the cleaned labels of the first chunk. *)
Definition import (main : CsvFile) : DataFrame :=
  {| columns := match batches main with
                | [] => []
                | chunk_df :: _ => columns (Frame.clean_columns chunk_df)
                end;
     rows := flat_map rows (batches main) |}.

(** ['col' || '_' || "col"]: NULL when the field is NULL. *)
Definition key (col_name : string) (v : cell) : option string :=
  (fun s => col_name +:+ "_" +:+ s) <$> v.

(** The [avg_value] of the rows of [mapping_midtable] a key selects, in
    table order; a NULL key selects none. *)
Definition selected (mapping_midtable : list (string * cell)) (k : option string)
  : list cell :=
  match k with
  | Some k => map snd (List.filter (fun e => String.eqb e.1 k) mapping_midtable)
  | None => []
  end.

(** [EXISTS (SELECT 1 FROM mapping_midtable WHERE key = composite_key)] *)
Definition exists_match (mapping_midtable : list (string * cell))
    (k : option string) : bool :=
  match selected mapping_midtable k with
  | [] => false
  | _ :: _ => true
  end.

(** [(SELECT mm.avg_value FROM mapping_midtable WHERE key = composite_key)]
    used as a value: the first selected row, NULL when there is none. *)
Definition scalar_subquery (mapping_midtable : list (string * cell))
    (k : option string) : cell :=
  match selected mapping_midtable k with
  | [] => None
  | a :: _ => a
  end.

(** The [WHERE] clause of [insert_unmapped_sql]: the field is neither NULL
    nor empty, and no row of the mapping table has its key. *)
Definition is_unmapped (mapping_midtable : list (string * cell))
    (col_name : string) (v : cell) : bool :=
  match v with
  | Some s => negb (String.eqb s "")
  | None => false
  end
  && negb (exists_match mapping_midtable (key col_name v)).

(** [insert_unmapped_sql] (lines 191-205): the rows it adds for a column. *)
Definition insert_unmapped (mapping_midtable : list (string * cell))
    (id_column_data col_name : string) (main_data_table : DataFrame)
  : list unmapped_row :=
  flat_map (fun r =>
              let v := Frame.get (columns main_data_table) r col_name in
              if is_unmapped mapping_midtable col_name v
              then [{| original_id :=
                         Frame.get (columns main_data_table) r id_column_data;
                       original_value := v;
                       column_name := col_name |}]
              else [])
           (rows main_data_table).

(** [update_sql] (lines 215-228), on one row and on the table.  The columns
    of [main_data_table] are TEXT columns: the number the subquery returns
    is stored as SQLite's text of it. *)
Definition update_row `{Rendering} (mapping_midtable : list (string * cell))
    (cols : list string) (col_name : string) (r : list cell) : list cell :=
  let k := key col_name (Frame.get cols r col_name) in
  if exists_match mapping_midtable k
  then Frame.set cols col_name (sqlite_text <$> scalar_subquery mapping_midtable k) r
  else r.

Definition update `{Rendering} (mapping_midtable : list (string * cell))
    (col_name : string)
    (main_data_table : DataFrame) : DataFrame :=
  {| columns := columns main_data_table;
     rows := map (update_row mapping_midtable (columns main_data_table) col_name)
                 (rows main_data_table) |}.

(** What the loop over the columns leaves in one cell and in the table of
    unmapped values: [r] is the row as imported, [r'] the row after the
    loop, [U'] the table after it. *)
Definition cell_outcome `{Rendering} (mapping_midtable : list (string * cell))
    (id_column_data : string) (cols : list string) (U' : list unmapped_row)
    (r r' : list cell) (col_name : string) : Prop :=
  let v := Frame.get cols r col_name in
  (exists_match mapping_midtable (key col_name v) = true ->
     Frame.get cols r' col_name
     = (sqlite_text <$> scalar_subquery mapping_midtable (key col_name v)))
  /\ (exists_match mapping_midtable (key col_name v) = false ->
        Frame.get cols r' col_name = v)
  /\ (is_unmapped mapping_midtable col_name v = true ->
        {| original_id := Frame.get cols r id_column_data;
           original_value := v;
           column_name := col_name |} ∈ U').

(** Body of [for i, col_name in enumerate(amt_columns)] (lines 185-230). *)
Definition update_column `{Rendering} (mapping_midtable : list (string * cell))
    (id_column_data : string) (db : DataFrame * list unmapped_row)
    (col_name : string) : DataFrame * list unmapped_row :=
  (update mapping_midtable col_name db.1,
   db.2 ++ insert_unmapped mapping_midtable id_column_data col_name db.1).

(** Step 5: [original_id], if it is a column and not the identifier, takes
    the identifier's name; then the table is written out. *)
Definition export_final (id_column_data : string) (main_data_table : DataFrame)
  : file :=
  Frame.to_csv_w
    {| columns :=
         if Frame.mem "original_id" (columns main_data_table)
            && negb (String.eqb id_column_data "original_id")
         then map (fun c => if String.eqb c "original_id" then id_column_data else c)
                  (columns main_data_table)
         else columns main_data_table;
       rows := rows main_data_table |}.

(** Step 6: the report is written when the temporary table has rows.  When
    there was no column to map the table was never created, the query
    raises and the handler goes on; in both cases the file is left as it
    was ([old_report], since this script does not remove it). *)
Definition export_unmapped (amt_columns : list string)
    (temp_unmapped_values : list unmapped_row) (old_report : option file)
  : option file :=
  match amt_columns, temp_unmapped_values with
  | _ :: _, _ :: _ =>
      Some (HeaderLine ["original_id"; "original_value"; "column_name"]
            :: map (fun u => DataLine [original_id u; original_value u;
                                       Some (column_name u)])
                   temp_unmapped_values)
  | _, _ => old_report
  end.

(** The outcome: the table before export, the two files. *)
Record Outcome : Type := {
  final_table : DataFrame;
  unmapped_table : list unmapped_row;
  output_file : file;
  nans_file : option file }.

(** The script from top to bottom. *)
Definition run `{Rendering} (mapping_file : option DataFrame)
    (main_file : option CsvFile) (old_report : option file) : result Outcome :=
  mapping_midtable ← Mapping.load mapping_file;
  main ← match main_file with
         | Some m => Ok m
         | None => Err FileNotFoundError
         end;
  let main_data_table := import main in
  let main_data_cols := columns main_data_table in
  let amt_columns := List.filter Resolver.is_amt main_data_cols in
  id_column_data ← Resolver.pick_id main_data_cols;
  let db := fold_left (update_column mapping_midtable id_column_data)
                      amt_columns (main_data_table, []) in
  Ok {| final_table := db.1;
        unmapped_table := db.2;
        output_file := export_final id_column_data db.1;
        nans_file := export_unmapped amt_columns db.2 old_report |}.

End Sql.

(** ** Sample inputs, for the worked examples below *)

Module Samples.

(** The averages of the sample sheets are floats with a short decimal
    expansion (10.2, 3.5, 9.0, ...): pandas writes such a float, and SQLite
    stores it, as the text it was read with. *)
#[global] Instance rendering : Rendering :=
  {| merged_text := fun _ s => s; sqlite_text := fun s => s |}.

(** In the samples every identifier has the same rank. *)
Definition set_order : nat -> cell -> nat := fun _ _ => 0.

(** A mapping sheet with one entry per key. *)
Definition sheet : DataFrame :=
  {| columns := ["AMT SENF"; "Cat No"; "Avg Value"];
     rows := [ [Some "amt_x"; Some "5"; Some "10.2"];
               [Some "amt_y"; Some "5"; Some "3.5"] ] |}.

(** A main file of two batches; identifier 7 misses in both target columns,
    identifier 2 is blank in both. *)
Definition main : CsvFile :=
  {| header := ["id"; "amt_x"; "amt_y"; "note"];
     batches :=
       [ {| columns := ["id"; "amt_x"; "amt_y"; "note"];
            rows := [ [Some "1"; Some "5"; Some "5"; Some "a"];
                      [Some "7"; Some "zz"; Some "zz"; Some "b"];
                      [Some "2"; None; Some ""; Some "c"] ] |};
         {| columns := ["id"; "amt_x"; "amt_y"; "note"];
            rows := [ [Some "8"; Some "5"; Some "5"; Some "d"] ] |} ] |}.

(** A main file in which every target cell is mapped. *)
Definition main_all_mapped : CsvFile :=
  {| header := ["id"; "amt_x"];
     batches := [ {| columns := ["id"; "amt_x"];
                     rows := [ [Some "1"; Some "5"]; [Some "8"; Some "5"] ] |} ] |}.

(** The lookup frame the sheet loads to, the first batch, and the target
    columns of the header. *)
Definition lookup : list (string * cell) :=
  [("amt_x_5", Some "10.2"); ("amt_y_5", Some "3.5")].

Definition batch0 : DataFrame :=
  {| columns := ["id"; "amt_x"; "amt_y"; "note"];
     rows := [ [Some "1"; Some "5"; Some "5"; Some "a"];
               [Some "7"; Some "zz"; Some "zz"; Some "b"];
               [Some "2"; None; Some ""; Some "c"] ] |}.

Definition amts : list string := ["amt_x"; "amt_y"].

(** The first batch after the column loop of the chunked script. *)
Definition batch0_after : DataFrame :=
  {| columns := ["id"; "amt_x"; "amt_y"; "note"];
     rows := [ [Some "1"; Some "10.2"; Some "3.5"; Some "a"];
               [Some "7"; None; None; Some "b"];
               [Some "2"; None; Some ""; Some "c"] ] |}.

Definition batch0_unmapped : gset cell := {[ Some "7"; Some "2" ]}.

(** The first batch after the column loop when the only entry of the lookup
    frame is keyed by [amt_y_]: nothing is mapped, and the empty cell of
    identifier 2 is not looked up. *)
Definition batch0_after_blank_key : DataFrame :=
  {| columns := ["id"; "amt_x"; "amt_y"; "note"];
     rows := [ [Some "1"; None; None; Some "a"];
               [Some "7"; None; None; Some "b"];
               [Some "2"; None; Some ""; Some "c"] ] |}.

Definition batch0_unmapped_blank_key : gset cell :=
  {[ Some "1"; Some "7"; Some "2" ]}.

(** A mapping sheet whose second row has no category number, and a batch
    with a value that ends in an underscore. *)
Definition sheet_degenerate : DataFrame :=
  {| columns := ["AMT SENF"; "Cat No"; "Avg Value"];
     rows := [ [None; Some "CAT1"; Some "1.5"];
               [Some "amt_x_5"; None; Some "9.0"];
               [None; None; Some "0.5"] ] |}.

Definition main_degenerate : CsvFile :=
  {| header := ["id"; "amt_x"];
     batches := [ {| columns := ["id"; "amt_x"];
                     rows := [ [Some "1"; Some "5_"] ] |} ] |}.

(** A header whose first label has three underscores in a row, and neither
    [id] nor [head_id]. *)
Definition main_triple : CsvFile :=
  {| header := ["a___b"; "amt_x"];
     batches := [ {| columns := ["a___b"; "amt_x"];
                     rows := [ [Some "1"; Some "5"] ] |} ] |}.

(** A mapping sheet without a column for the average. *)
Definition sheet_no_avg : DataFrame :=
  {| columns := ["AMT SENF"; "Cat No"; "Value"];
     rows := [ [Some "amt_x"; Some "5"; Some "10.2"] ] |}.

(** What is on disk when the sheet, or the main file, is not there. *)
Definition world_no_sheet : Chunked.World :=
  {| Chunked.mapping_file := None;
     Chunked.main_file := Some main_all_mapped;
     Chunked.can_write := fun _ _ => true;
     Chunked.set_order := set_order |}.

Definition world_no_main (sheet : DataFrame) : Chunked.World :=
  {| Chunked.mapping_file := Some sheet;
     Chunked.main_file := None;
     Chunked.can_write := fun _ _ => true;
     Chunked.set_order := set_order |}.

(** A mapping sheet in which two rows bear the key [amt_x_5]. *)
Definition sheet_dup : DataFrame :=
  {| columns := ["AMT SENF"; "Cat No"; "Avg Value"];
     rows := [ [Some "amt_x"; Some "5"; Some "1.0"];
               [Some "amt_x"; Some "5"; Some "2.0"] ] |}.

(** The same with the closing write of the report refused. *)
Definition world_report_refused (sheet : DataFrame) (main : CsvFile)
  : Chunked.World :=
  {| Chunked.mapping_file := Some sheet;
     Chunked.main_file := Some main;
     Chunked.can_write :=
       fun s i => match s with
                  | Chunked.Report => negb (Nat.eqb i (length (batches main)))
                  | Chunked.Primary => true
                  end;
     Chunked.set_order := set_order |}.

Definition world (sheet : DataFrame) (main : CsvFile) : Chunked.World :=
  {| Chunked.mapping_file := Some sheet;
     Chunked.main_file := Some main;
     Chunked.can_write := fun _ _ => true;
     Chunked.set_order := set_order |}.

End Samples.

(** * Facts *)

(** ** Cleaning a label *)

Section TextFacts.

(** Every character is in the class [0-9a-zA-Z_]. *)
Let word (s : string) : Prop :=
  forall c, In c (list_ascii_of_string s) -> Text.is_word_char c = true.

Lemma word_cons (c : ascii) (s : string) :
  word (String c s) <-> Text.is_word_char c = true /\ word s.
Proof.
  unfold word. simpl. split.
  - intros H. split; [apply H; by left | intros d Hd; apply H; by right].
  - intros [Hc Hs] d [<-|Hd]; [done | by apply Hs].
Qed.

Lemma replace_runs_word (b : bool) (s : string) : word (Text.replace_runs b s).
Proof.
  revert b. induction s as [|c s IH]; intros b; simpl; [by intros c []|].
  destruct (Text.is_word_char c) eqn:Hc.
  - apply word_cons. split; [done | apply IH].
  - destruct b; [apply IH|]. apply word_cons. split; [done | apply IH].
Qed.

Lemma replace_runs_fixed (b : bool) (s : string) :
  word s -> Text.replace_runs b s = s.
Proof.
  revert b. induction s as [|c s IH]; intros b Hw; simpl; [done|].
  apply word_cons in Hw as [-> Hw]. f_equal. by apply IH.
Qed.

(** Facts on [replace_double] are proved for a string and for the string
    with one more character in front at once, as the function looks two
    characters ahead. *)
Lemma replace_double_word_both (s : string) :
  (word s -> word (Text.replace_double s))
  /\ (forall c, word (String c s) -> word (Text.replace_double (String c s))).
Proof.
  induction s as [|d s [IH1 IH2]].
  - split; [done|]. intros c Hc. exact Hc.
  - split; [apply IH2|]. intros c Hc.
    apply word_cons in Hc as [Hc Hds].
    change (Text.replace_double (String c (String d s)))
      with (if (Ascii.eqb c "_" && Ascii.eqb d "_")%bool
            then String "_" (Text.replace_double s)
            else String c (Text.replace_double (String d s))).
    destruct (Ascii.eqb c "_" && Ascii.eqb d "_")%bool.
    + apply word_cons. split; [done|]. apply IH1.
      by apply word_cons in Hds as [_ Hs].
    + apply word_cons. split; [done|]. by apply IH2.
Qed.

Lemma replace_double_fixed_both (s : string) :
  (Text.contains "__" s = false -> Text.replace_double s = s)
  /\ (forall c, Text.contains "__" (String c s) = false ->
        Text.replace_double (String c s) = String c s).
Proof.
  induction s as [|d s [IH1 IH2]].
  - split; [done|]. intros c _. done.
  - split; [apply IH2|]. intros c Hc.
    change (Text.replace_double (String c (String d s)))
      with (if (Ascii.eqb c "_" && Ascii.eqb d "_")%bool
            then String "_" (Text.replace_double s)
            else String c (Text.replace_double (String d s))).
    change (Text.contains "__" (String c (String d s)))
      with ((Ascii.eqb "_" c && (Ascii.eqb "_" d && true)
             || Text.contains "__" (String d s))%bool) in Hc.
    apply orb_false_iff in Hc as [Hcd Hrest].
    rewrite andb_true_r, (Ascii.eqb_sym "_" c), (Ascii.eqb_sym "_" d) in Hcd.
    rewrite Hcd. f_equal. by apply IH2.
Qed.

Lemma replace_double_length_both (s : string) :
  (String.length (Text.replace_double s) <= String.length s
   /\ (Text.contains "__" s = true ->
       String.length (Text.replace_double s) < String.length s))
  /\ (forall c,
        String.length (Text.replace_double (String c s)) <= String.length (String c s)
        /\ (Text.contains "__" (String c s) = true ->
            String.length (Text.replace_double (String c s))
            < String.length (String c s))).
Proof.
  induction s as [|d s [[IH1 IH1'] IH2]].
  - split; [split; [done|done]|]. intros c. split; [done|]. simpl.
    rewrite andb_false_r. done.
  - split; [apply IH2|]. intros c.
    change (Text.replace_double (String c (String d s)))
      with (if (Ascii.eqb c "_" && Ascii.eqb d "_")%bool
            then String "_" (Text.replace_double s)
            else String c (Text.replace_double (String d s))).
    change (Text.contains "__" (String c (String d s)))
      with ((Ascii.eqb "_" c && (Ascii.eqb "_" d && true)
             || Text.contains "__" (String d s))%bool).
    rewrite andb_true_r, (Ascii.eqb_sym "_" c), (Ascii.eqb_sym "_" d).
    destruct (IH2 d) as [Hle Hlt].
    destruct (Ascii.eqb c "_" && Ascii.eqb d "_")%bool; simpl in *.
    + split; [lia | intros _; lia].
    + split; [lia | intros H; specialize (Hlt H); lia].
Qed.

Lemma lstrip_word (s : string) : word s -> word (Text.lstrip s).
Proof.
  induction s as [|c s IH]; intros Hw; simpl; [done|].
  destruct (Ascii.eqb c "_"); [|done]. apply IH. by apply word_cons in Hw as [_ Hw].
Qed.

Lemma rstrip_word (s : string) : word s -> word (Text.rstrip s).
Proof.
  induction s as [|c s IH]; intros Hw; simpl; [done|].
  apply word_cons in Hw as [Hc Hw]. specialize (IH Hw).
  destruct (Text.rstrip s) as [|d r].
  - destruct (Ascii.eqb c "_"); [done|]. by apply word_cons.
  - by apply word_cons.
Qed.

Lemma lstrip_length (s : string) : String.length (Text.lstrip s) <= String.length s.
Proof.
  induction s as [|c s IH]; simpl; [done|].
  destruct (Ascii.eqb c "_"); simpl; lia.
Qed.

Lemma rstrip_length (s : string) : String.length (Text.rstrip s) <= String.length s.
Proof.
  induction s as [|c s IH]; simpl; [done|].
  destruct (Text.rstrip s) as [|d r]; [destruct (Ascii.eqb c "_")|]; simpl in *; lia.
Qed.

(** What [strip] returns begins and ends with no underscore. *)
Lemma rstrip_rstrip (s : string) : Text.rstrip (Text.rstrip s) = Text.rstrip s.
Proof.
  induction s as [|c s IH]; simpl; [done|].
  destruct (Text.rstrip s) as [|d r] eqn:E.
  - destruct (Ascii.eqb c "_") eqn:Hc; [done|]. simpl. by rewrite Hc.
  - simpl in *. rewrite IH. done.
Qed.

Lemma lstrip_rstrip_lstrip (s : string) :
  Text.lstrip (Text.rstrip (Text.lstrip s)) = Text.rstrip (Text.lstrip s).
Proof.
  induction s as [|c s IH]; simpl; [done|].
  destruct (Ascii.eqb c "_") eqn:Hc; [done|]. simpl.
  destruct (Text.rstrip s) as [|d r]; rewrite ?Hc; simpl; rewrite ?Hc; done.
Qed.

Lemma strip_fixed (s : string) : Text.strip (Text.strip s) = Text.strip s.
Proof.
  unfold Text.strip. rewrite lstrip_rstrip_lstrip. apply rstrip_rstrip.
Qed.

Lemma sanitize_word (s : string) : word (Text.sanitize s).
Proof.
  unfold Text.sanitize, Text.strip.
  apply rstrip_word, lstrip_word, replace_double_word_both, replace_runs_word.
Qed.

(** Cleaning a cleaned label changes it exactly when two underscores in a
    row are left in it. *)
Lemma sanitize_twice (s : string) :
  Text.sanitize (Text.sanitize s) = Text.sanitize s
  <-> Text.contains "__" (Text.sanitize s) = false.
Proof.
  pose proof (sanitize_word s) as Hw.
  assert (Hstrip : Text.strip (Text.sanitize s) = Text.sanitize s).
  { unfold Text.sanitize at 1 2. apply strip_fixed. }
  unfold Text.sanitize at 1.
  rewrite (replace_runs_fixed false _ Hw).
  split.
  - intros Heq. destruct (Text.contains "__" (Text.sanitize s)) eqn:Hd; [|done].
    exfalso.
    destruct (replace_double_length_both (Text.sanitize s)) as [[_ Hlt] _].
    specialize (Hlt Hd).
    pose proof (lstrip_length (Text.replace_double (Text.sanitize s))) as H1.
    pose proof (rstrip_length (Text.lstrip (Text.replace_double (Text.sanitize s))))
      as H2.
    unfold Text.strip in Heq. rewrite Heq in H2. lia.
  - intros Hd.
    rewrite (proj1 (replace_double_fixed_both (Text.sanitize s)) Hd). exact Hstrip.
Qed.

End TextFacts.

(** ** Frames *)

Section FrameFacts.

Lemma mem_true (x : string) (l : list string) : Frame.mem x l = true <-> x ∈ l.
Proof.
  unfold Frame.mem. rewrite existsb_exists. split.
  - intros (y & Hy & Heq). apply String.eqb_eq in Heq. subst y.
    by apply list_elem_of_In.
  - intros Hx. exists x. split; [by apply list_elem_of_In | apply String.eqb_refl].
Qed.

Lemma position_Some (c : string) (cols : list string) (j : nat) :
  Frame.position c cols = Some j -> cols !! j = Some c.
Proof.
  revert j. induction cols as [|x xs IH]; intros j; simpl; [done|].
  destruct (String.eqb_spec x c) as [->|Hne].
  - by intros [= <-].
  - destruct (Frame.position c xs) as [k|]; simpl; [|done].
    intros [= <-]. simpl. by apply IH.
Qed.

Lemma position_None (c : string) (cols : list string) :
  Frame.position c cols = None <-> c ∉ cols.
Proof.
  induction cols as [|x xs IH]; simpl.
  - split; [intros _ H; inversion H | done].
  - destruct (String.eqb_spec x c) as [->|Hne].
    + split; [done | intros H; exfalso; apply H; left].
    + destruct (Frame.position c xs) as [k|] eqn:E; simpl.
      * split; [done|]. intros H. exfalso. apply H. right.
        destruct (decide (c ∈ xs)) as [|Hn]; [done|].
        apply IH in Hn. done.
      * split; [|done]. intros _ Hin. apply elem_of_cons in Hin as [->|Hin]; [done|].
        by apply IH in Hin.
Qed.

Lemma position_mem (c : string) (cols : list string) :
  Frame.mem c cols = true -> exists j, Frame.position c cols = Some j.
Proof.
  intros H. apply mem_true in H.
  destruct (Frame.position c cols) as [j|] eqn:E; [by exists j|].
  by apply position_None in E.
Qed.

Lemma field_put_eq (j : nat) (v : cell) (row : list cell) :
  Frame.field (Frame.put j v row) j = v.
Proof.
  unfold Frame.field, Frame.put.
  rewrite list_lookup_insert_eq; [done|].
  rewrite length_app, length_replicate. lia.
Qed.

Lemma field_put_ne (j j' : nat) (v : cell) (row : list cell) :
  j <> j' -> Frame.field (Frame.put j v row) j' = Frame.field row j'.
Proof.
  intros Hne. unfold Frame.field, Frame.put.
  rewrite list_lookup_insert_ne by done.
  destruct (decide (j' < length row)) as [Hlt|Hge].
  - by rewrite lookup_app_l.
  - rewrite lookup_app_r by lia.
    rewrite (lookup_ge_None_2 row j') by lia.
    destruct (replicate _ _ !! _) as [x|] eqn:E; [|done].
    apply lookup_replicate in E as [-> _]. done.
Qed.

Lemma get_set_eq (cols : list string) (c : string) (v : cell) (row : list cell) :
  Frame.mem c cols = true -> Frame.get cols (Frame.set cols c v row) c = v.
Proof.
  intros H. apply position_mem in H as [j Hj].
  unfold Frame.get, Frame.set. rewrite Hj. apply field_put_eq.
Qed.

Lemma get_set_ne (cols : list string) (c c' : string) (v : cell) (row : list cell) :
  c <> c' -> Frame.get cols (Frame.set cols c v row) c' = Frame.get cols row c'.
Proof.
  intros Hne. unfold Frame.get, Frame.set.
  destruct (Frame.position c cols) as [j|] eqn:Ej; [|done].
  destruct (Frame.position c' cols) as [j'|] eqn:Ej'; [|done].
  apply field_put_ne. intros ->.
  apply position_Some in Ej, Ej'. congruence.
Qed.

(** The first column bearing a label is the first of its positions. *)
Lemma position_positions (c : string) (cols : list string) :
  Frame.position c cols = head (Frame.positions c cols).
Proof.
  induction cols as [|x xs IH]; [done|]. simpl.
  destruct (String.eqb x c); [done|]. simpl. rewrite IH.
  by destruct (Frame.positions c xs).
Qed.

Lemma positions_member (c : string) (cols : list string) :
  c ∈ cols -> exists j js, Frame.positions c cols = j :: js
                           /\ Frame.position c cols = Some j.
Proof.
  intros Hc. apply mem_true, position_mem in Hc as [j Hj].
  pose proof (position_positions c cols) as Hp. rewrite Hj in Hp.
  destruct (Frame.positions c cols) as [|j' js]; [done|].
  injection Hp as ->. by exists j', js.
Qed.

(** Reading a label past columns that do not bear it. *)
Lemma get_skip (l1 l2 : list string) (f1 f2 : list cell) (c : string) :
  c ∉ l1 -> length f1 = length l1 ->
  Frame.get (l1 ++ l2) (f1 ++ f2) c = Frame.get l2 f2 c.
Proof.
  revert f1. induction l1 as [|x l1 IH]; intros f1 Hc Hlen.
  - by destruct f1.
  - destruct f1 as [|v f1]; [done|]. simpl in Hlen.
    apply not_elem_of_cons in Hc as [Hne Hc].
    specialize (IH f1 Hc ltac:(lia)).
    unfold Frame.get in *. simpl.
    destruct (String.eqb_spec x c) as [->|_]; [done|].
    destruct (Frame.position c (l1 ++ l2)) as [j|]; simpl;
      destruct (Frame.position c l2) as [j'|]; simpl in *; done.
Qed.

(** [df[newcols]], read through a label that is selected. *)
Lemma get_select (cols newcols : list string) (r : list cell) (c : string) :
  c ∈ newcols -> c ∈ cols ->
  Frame.get
    (flat_map (fun c => map (fun _ => c) (Frame.positions c cols)) newcols)
    (flat_map (fun c => map (Frame.field r) (Frame.positions c cols)) newcols) c
  = Frame.get cols r c.
Proof.
  intros Hn Hc. induction newcols as [|x xs IH]; [inversion Hn|].
  cbn [flat_map].
  destruct (decide (x = c)) as [->|Hne].
  - destruct (positions_member c cols Hc) as (j & js & -> & Hj).
    unfold Frame.get. rewrite Hj. simpl. by rewrite String.eqb_refl.
  - apply elem_of_cons in Hn as [->|Hn]; [done|].
    rewrite get_skip; [by apply IH| |by rewrite !length_map].
    intros Hin. apply list_elem_of_In, in_map_iff in Hin as (? & ? & _). done.
Qed.

Lemma elem_of_select_columns (cols newcols : list string) (c : string) :
  c ∈ flat_map (fun c => map (fun _ => c) (Frame.positions c cols)) newcols
  <-> c ∈ newcols /\ c ∈ cols.
Proof.
  rewrite list_elem_of_In, in_flat_map. split.
  - intros (x & Hx & Hin). apply in_map_iff in Hin as (j & -> & Hj).
    split; [by apply list_elem_of_In|].
    destruct (decide (c ∈ cols)) as [|Hn]; [done|].
    apply position_None in Hn. rewrite position_positions in Hn.
    by destruct (Frame.positions c cols).
  - intros [Hn Hc]. exists c. split; [by apply list_elem_of_In|].
    destruct (positions_member c cols Hc) as (j & js & -> & _). by left.
Qed.

Lemma csv_row_length (df : DataFrame) (r : list cell) :
  length (Frame.csv_row df r) = length (columns df).
Proof. unfold Frame.csv_row. by rewrite length_map, length_seq. Qed.

(** The first field written for a row of [df[c :: rest]]. *)
Lemma select_first_field (cols rest : list string) (rs : list (list cell))
    (c : string) (r : list cell) :
  c ∈ cols ->
  hd None
    (Frame.csv_row
       (Frame.select (c :: rest) {| columns := cols; rows := rs |})
       (flat_map (fun c => map (Frame.field r) (Frame.positions c cols)) (c :: rest)))
  = Frame.get cols r c.
Proof.
  intros Hc. unfold Frame.csv_row, Frame.select. cbn [columns flat_map].
  destruct (positions_member c cols Hc) as (j & js & -> & Hj).
  unfold Frame.get. rewrite Hj. done.
Qed.

End FrameFacts.

(** ** Lists *)

Section ListFacts.
Context {A B : Type}.

Lemma flat_map_length_ge (f : A -> list B) (l : list A) :
  (forall x, x ∈ l -> 1 <= length (f x)) -> length l <= length (flat_map f l).
Proof.
  induction l as [|a l IH]; intros Hf; simpl; [lia|].
  rewrite length_app.
  specialize (Hf a (list_elem_of_here _ _)) as Ha.
  assert (length l <= length (flat_map f l)).
  { apply IH. intros x Hx. apply Hf. by right. }
  lia.
Qed.

Lemma flat_map_length_tight (f : A -> list B) (l : list A) :
  (forall x, x ∈ l -> 1 <= length (f x)) ->
  length (flat_map f l) = length l ->
  forall x, x ∈ l -> length (f x) = 1.
Proof.
  induction l as [|a l IH]; intros Hf Hlen x Hx; [inversion Hx|].
  simpl in Hlen. rewrite length_app in Hlen.
  specialize (Hf a (list_elem_of_here _ _)) as Ha.
  assert (Hl : length l <= length (flat_map f l)).
  { apply flat_map_length_ge. intros y Hy. apply Hf. by right. }
  apply elem_of_cons in Hx as [->|Hx]; [lia|].
  apply IH; [intros y Hy; apply Hf; by right | lia | done].
Qed.

Lemma flat_map_singletons (f : A -> list B) (g : A -> B) (l : list A) :
  (forall x, x ∈ l -> f x = [g x]) -> flat_map f l = map g l.
Proof.
  induction l as [|a l IH]; intros Hf; simpl; [done|].
  rewrite (Hf a) by left. simpl. f_equal. apply IH. intros x Hx. apply Hf. by right.
Qed.

Lemma flat_map_after_map {C : Type} (f : B -> list C) (g : A -> B) (l : list A) :
  flat_map f (map g l) = flat_map (fun x => f (g x)) l.
Proof. induction l as [|a l IH]; simpl; [done | by rewrite IH]. Qed.

End ListFacts.

(** ** The column loop body of the chunked script *)

Section ColumnStep.
Variables (L : list (string * cell)) (idc col : string) (cols : list string).

Let mk (ir : nat * list cell) : Chunked.entry :=
  {| Chunked.label := ir.1;
     Chunked.ident := Frame.get cols ir.2 idc;
     Chunked.value := Frame.get cols ir.2 col |}.

Let entries (k : nat) (rs : list (list cell)) : list Chunked.entry :=
  map mk (zip (seq k (length rs)) rs).

Lemma filter_entries {X : Type} (p : cell -> bool) (h : cell -> cell -> X)
    (k : nat) (rs : list (list cell)) :
  map (fun t => h (Chunked.ident t) (Chunked.value t))
      (List.filter (fun t => p (Chunked.value t)) (entries k rs))
  = map (fun r => h (Frame.get cols r idc) (Frame.get cols r col))
        (List.filter (fun r => p (Frame.get cols r col)) rs).
Proof.
  revert k. induction rs as [|r rs IH]; intros k; [done|].
  unfold entries in *. simpl.
  destruct (p (Frame.get cols r col)); simpl; [f_equal|]; apply IH.
Qed.

(** The indexed assignment, read row by row. *)
Lemma loc_assign_entries (g : cell -> cell) (k : nat)
    (pre rs : list (list cell)) :
  length pre = k ->
  Chunked.loc_assign cols col
    (map Chunked.label
       (List.filter (fun t => negb (Chunked.isna_or_empty (Chunked.value t)))
          (entries k rs)))
    (map (fun t => g (Chunked.value t))
       (List.filter (fun t => negb (Chunked.isna_or_empty (Chunked.value t)))
          (entries k rs)))
    (pre ++ rs)
  = pre ++ map (fun r => if Chunked.isna_or_empty (Frame.get cols r col) then r
                         else Frame.set cols col (g (Frame.get cols r col)) r) rs.
Proof.
  revert k pre. induction rs as [|r rs IH]; intros k pre Hk; [done|].
  unfold entries, Chunked.loc_assign in *. simpl.
  destruct (Chunked.isna_or_empty (Frame.get cols r col)) eqn:Hb; simpl.
  - specialize (IH (S k) (pre ++ [r])).
    rewrite <- !app_assoc in IH. simpl in IH. apply IH.
    rewrite length_app. simpl. lia.
  - rewrite alter_app_r_alt by lia.
    replace (k - length pre) with 0 by lia. simpl.
    specialize (IH (S k) (pre ++ [Frame.set cols col (g (Frame.get cols r col)) r])).
    rewrite <- !app_assoc in IH. simpl in IH. apply IH.
    rewrite length_app. simpl. lia.
Qed.

End ColumnStep.

Section ColumnOutcome.
Context {RD : Rendering}.
Variables (L : list (string * cell)) (idc col : string).

Lemma filter_of_map {X Y : Type} (p : Y -> bool) (g : X -> Y) (l : list X) :
  List.filter p (map g l) = map g (List.filter (fun x => p (g x)) l).
Proof.
  induction l as [|a l IH]; simpl; [done|].
  destruct (p (g a)); simpl; by rewrite IH.
Qed.

Lemma elem_of_set_of_filtered {X : Type} (f : X -> cell) (p : X -> bool)
    (l : list X) (x : cell) :
  x ∈ (list_to_set (map f (List.filter p l)) : gset cell)
  <-> exists r, r ∈ l /\ p r = true /\ f r = x.
Proof.
  rewrite elem_of_list_to_set, list_elem_of_In, in_map_iff. split.
  - intros (r & Hf & Hr). apply filter_In in Hr as [Hr Hp].
    exists r. by rewrite list_elem_of_In.
  - intros (r & Hr & Hp & Hf). exists r. split; [done|].
    apply filter_In. by rewrite <- list_elem_of_In.
Qed.

(** The merged column holds a NaN exactly when a row with a value has no
    average. *)
Lemma has_nan_merged (cols : list string) (rs : list (list cell)) :
  negb (bool_decide
          (List.filter (fun m : cell * cell => bool_decide (m.2 = None))
             (map (fun r => (Frame.get cols r idc,
                             Chunked.found L col (Frame.get cols r col)))
                (List.filter
                   (fun r => negb (Chunked.isna_or_empty (Frame.get cols r col)))
                   rs))
           = []))
  = Chunked.has_nan L cols col rs.
Proof.
  induction rs as [|r rs IH]; simpl; [done|].
  destruct (Chunked.isna_or_empty (Frame.get cols r col)); simpl; [done|].
  by destruct (bool_decide (Chunked.found L col (Frame.get cols r col) = None)).
Qed.

(** What one pass of the column loop body does when it does not raise. *)
Lemma process_column_Ok (df df' : DataFrame) (um um' : gset cell) :
  Chunked.process_column L idc (df, um) col = Ok (df', um') ->
  (rows df <> [] -> idc <> col)
  /\ columns df' = columns df
  /\ rows df'
     = map (Chunked.mapped_row L (columns df) col
              (Chunked.has_nan L (columns df) col (rows df)))
           (rows df)
  /\ (forall r, r ∈ rows df ->
        Chunked.isna_or_empty (Frame.get (columns df) r col) = false ->
        length (Chunked.lookup_rows L
                  (Chunked.composite_key col (Frame.get (columns df) r col))) <= 1)
  /\ (forall x, x ∈ um' <-> x ∈ um \/ (idc <> col /\ Chunked.joins L idc col (columns df) (rows df) x)).
Proof.
  destruct df as [cols rs]. unfold Chunked.process_column.
  cbn [fst snd columns rows].
  destruct (String.eqb_spec idc col) as [Heq|Hne].
  { destruct rs as [|r rs]; [|done]. intros [= <- <-]. simpl.
    repeat split; try done.
    - intros r Hr. inversion Hr.
    - by left.
    - intros [?|[? _]]; done. }
  destruct (1 <? Frame.count col cols)%nat; [done|].
  unfold Chunked.temp_df_col. cbn [columns rows].
  set (mk := fun ir : nat * list cell =>
               {| Chunked.label := ir.1;
                  Chunked.ident := Frame.get cols ir.2 idc;
                  Chunked.value := Frame.get cols ir.2 col |}).
  set (temp := map mk (zip (seq 0 (length rs)) rs)).
  set (blank := List.filter (fun t => Chunked.isna_or_empty (Chunked.value t)) temp).
  set (clean := List.filter
                  (fun t => negb (Chunked.isna_or_empty (Chunked.value t))) temp).
  set (rsnb := List.filter
                 (fun r => negb (Chunked.isna_or_empty (Frame.get cols r col))) rs).
  (* the rows, whatever the values assigned *)
  assert (Hassign : forall g : cell -> cell,
    Chunked.loc_assign cols col (map Chunked.label clean)
      (map (fun t => g (Chunked.value t)) clean) rs
    = map (fun r => if Chunked.isna_or_empty (Frame.get cols r col) then r
                    else Frame.set cols col (g (Frame.get cols r col)) r) rs).
  { intros g. apply (loc_assign_entries idc col cols g 0 [] rs eq_refl). }
  (* the identifiers of the blank rows *)
  assert (Hblank : map Chunked.ident blank
                   = map (fun r => Frame.get cols r idc)
                         (List.filter
                            (fun r => Chunked.isna_or_empty (Frame.get cols r col)) rs)).
  { apply (filter_entries idc col cols Chunked.isna_or_empty (fun i _ => i) 0 rs). }
  rewrite Hblank.
  (* the rows that go into the merge are the rows with a value *)
  assert (Hclean : forall (Y : Type) (h : cell -> cell -> Y),
    map (fun t => h (Chunked.ident t) (Chunked.value t)) clean
    = map (fun r => h (Frame.get cols r idc) (Frame.get cols r col)) rsnb).
  { intros Y h.
    apply (filter_entries idc col cols (fun v => negb (Chunked.isna_or_empty v)) h 0 rs). }
  (* the merge, row by row *)
  set (G := fun r : list cell =>
              match Chunked.lookup_rows L
                      (Chunked.composite_key col (Frame.get cols r col)) with
              | [] => [(Frame.get cols r idc, None)]
              | a :: avgs => map (fun a => (Frame.get cols r idc, a)) (a :: avgs)
              end).
  assert (Hmerge :
    Chunked.merge L (map (fun t => (t, col +:+ "_" +:+ Mapping.fillna (Chunked.value t))) clean)
    = flat_map G rsnb).
  { unfold Chunked.merge. rewrite flat_map_after_map. simpl.
    pose (F2 := fun iv : cell * cell =>
              match Chunked.lookup_rows L (Chunked.composite_key col iv.2) with
              | [] => [(iv.1, None)]
              | a :: avgs => map (fun a => (iv.1, a)) (a :: avgs)
              end).
    transitivity (flat_map F2 (map (fun t => (Chunked.ident t, Chunked.value t)) clean)).
    { rewrite flat_map_after_map. done. }
    rewrite (Hclean _ (fun i v => (i, v))). rewrite flat_map_after_map. done. }
  assert (HG1 : forall r, r ∈ rsnb -> 1 <= length (G r)).
  { intros r _. unfold G. destruct (Chunked.lookup_rows _ _); simpl; lia. }
  assert (Htight : length (flat_map G rsnb) = length rsnb ->
    (forall r, r ∈ rsnb ->
       length (Chunked.lookup_rows L
                 (Chunked.composite_key col (Frame.get cols r col))) <= 1)
    /\ flat_map G rsnb
       = map (fun r => (Frame.get cols r idc,
                        Chunked.found L col (Frame.get cols r col))) rsnb).
  { intros Hlen.
    pose proof (flat_map_length_tight G rsnb HG1 Hlen) as H1.
    split.
    - intros r Hr. specialize (H1 r Hr). unfold G in H1.
      destruct (Chunked.lookup_rows _ _) as [|a [|b l]]; simpl in *; lia.
    - apply flat_map_singletons. intros r Hr. specialize (H1 r Hr).
      unfold G in *. unfold Chunked.found.
      destruct (Chunked.lookup_rows _ _) as [|a [|b l]]; simpl in *; done. }
  assert (Hnb : forall r, r ∈ rsnb <->
            r ∈ rs /\ Chunked.isna_or_empty (Frame.get cols r col) = false).
  { intros r. unfold rsnb. rewrite !list_elem_of_In, filter_In, negb_true_iff. done. }
  assert (Hlenc : length clean = length rsnb).
  { rewrite <- (length_map (fun t => (Chunked.ident t, Chunked.value t)) clean).
    rewrite (Hclean _ (fun i v => (i, v))). apply length_map. }
  rewrite Hmerge.
  destruct clean as [|t0 clean'] eqn:Eclean.
  - (* every row is blank *)
    intros [= <- <-]. cbn [columns rows].
    assert (Hall : forall r, r ∈ rs ->
              Chunked.isna_or_empty (Frame.get cols r col) = true).
    { intros r Hr.
      destruct (Chunked.isna_or_empty (Frame.get cols r col)) eqn:E; [done|].
      assert (Hin : r ∈ rsnb) by by apply Hnb.
      destruct rsnb; [inversion Hin | simpl in Hlenc; lia]. }
    split; [done|]. split; [done|]. split; [|split].
    + transitivity (map (fun r : list cell => r) rs); [by rewrite map_id|].
      apply map_ext_in. intros r Hr.
      unfold Chunked.mapped_row. rewrite Hall; [done|]. by apply list_elem_of_In.
    + intros r Hr E. rewrite Hall in E; done.
    + intros x. rewrite elem_of_union, elem_of_set_of_filtered. split.
      * intros [?|(r & Hr & Hp & Hf)]; [by left|right]. split; [done|].
        exists r. unfold Chunked.is_unmapped. by rewrite Hp.
      * intros [?|[_ (r & Hr & Hp & Hf)]]; [by left|right].
        exists r. by rewrite Hall.
  - (* some rows go through the merge *)
    rewrite !length_map. rewrite Hlenc.
    destruct (Nat.eqb_spec (length rsnb) (length (flat_map G rsnb))) as [Hlen|]; [|done].
    symmetry in Hlen. destruct (Htight Hlen) as [Hone Hvals].
    rewrite Hvals.
    pose proof (has_nan_merged cols rs) as Hnan. fold rsnb in Hnan. rewrite Hnan.
    rewrite !filter_of_map, !map_map. cbn [fst snd].
    rewrite <- (Hclean _ (fun _ v => merged_text (Chunked.has_nan L cols col rs)
                                      <$> Chunked.found L col v)).
    rewrite (Hassign (fun v => merged_text (Chunked.has_nan L cols col rs)
                               <$> Chunked.found L col v)).
    intros [= <- <-]. cbn [columns rows].
    split; [done|]. split; [done|]. split; [done|]. split.
    + intros r Hr E. apply Hone. by apply Hnb.
    + intros x. rewrite !elem_of_union, !elem_of_set_of_filtered. split.
      * intros [[?|(r & Hr & Hp & Hf)]|(r & Hr & Hp & Hf)]; [by left|right|right].
        -- split; [done|]. exists r. unfold Chunked.is_unmapped. by rewrite Hp.
        -- split; [done|]. apply Hnb in Hr as [Hr Hv]. exists r.
           unfold Chunked.is_unmapped. rewrite Hp. by rewrite orb_true_r.
      * intros [?|[_ (r & Hr & Hp & Hf)]]; [by left; left|].
        unfold Chunked.is_unmapped in Hp.
        destruct (Chunked.isna_or_empty (Frame.get cols r col)) eqn:E.
        -- left; right. by exists r.
        -- right. exists r. split; [by apply Hnb|]. done.
Qed.

End ColumnOutcome.

(** ** The loop over the columns of one batch *)

Lemma map_fmap {X Y : Type} (f : X -> Y) (l : list X) : map f l = f <$> l.
Proof. induction l as [|a l IH]; simpl; [done | by rewrite IH]. Qed.

Lemma mapped_row_other {RD : Rendering} (L : list (string * cell))
    (cols : list string) (c c' : string) (nan : bool) (r : list cell) :
  c <> c' ->
  Frame.get cols (Chunked.mapped_row L cols c nan r) c' = Frame.get cols r c'.
Proof.
  intros Hne. unfold Chunked.mapped_row.
  destruct (Chunked.isna_or_empty _); [done|]. by apply get_set_ne.
Qed.

Lemma mapped_row_blank {RD : Rendering} (L : list (string * cell))
    (cols : list string) (c : string) (nan : bool) (r : list cell) :
  Chunked.isna_or_empty (Frame.get cols r c) = true ->
  Chunked.mapped_row L cols c nan r = r.
Proof. intros Hb. unfold Chunked.mapped_row. by rewrite Hb. Qed.

Lemma mapped_row_value {RD : Rendering} (L : list (string * cell))
    (cols : list string) (c : string) (nan : bool) (r : list cell) :
  Frame.mem c cols = true ->
  Chunked.isna_or_empty (Frame.get cols r c) = false ->
  Frame.get cols (Chunked.mapped_row L cols c nan r) c
  = (merged_text nan <$> Chunked.found L c (Frame.get cols r c)).
Proof.
  intros Hc Hb. unfold Chunked.mapped_row. rewrite Hb. by apply get_set_eq.
Qed.

(** Whether the merged column of [c'] holds a NaN is read off the values of
    [c'] alone: mapping another column does not change it. *)
Lemma has_nan_mapped_other {RD : Rendering} (L : list (string * cell))
    (cols : list string) (c c' : string) (nan : bool) (rs : list (list cell)) :
  c <> c' ->
  Chunked.has_nan L cols c' (map (Chunked.mapped_row L cols c nan) rs)
  = Chunked.has_nan L cols c' rs.
Proof.
  intros Hne. unfold Chunked.has_nan.
  induction rs as [|r rs IH]; [done|].
  cbn [map existsb]. rewrite IH. by rewrite mapped_row_other.
Qed.

Lemma for_each_columns_Ok {RD : Rendering} (L : list (string * cell)) (idc : string)
    (cs : list string) :
  forall (df df' : DataFrame) (um um' : gset cell),
  for_each (Chunked.process_column L idc) (df, um) cs = Ok (df', um') ->
  NoDup cs ->
  (forall c, c ∈ cs -> Frame.mem c (columns df) = true) ->
  columns df' = columns df
  /\ length (rows df') = length (rows df)
  /\ um ⊆ um'
  /\ (rows df <> [] -> idc ∉ cs)
  /\ forall i r, rows df !! i = Some r ->
       exists r', rows df' !! i = Some r'
         /\ (forall c, c ∉ cs -> Frame.get (columns df) r' c = Frame.get (columns df) r c)
         /\ (forall c, c ∈ cs ->
               Chunked.cell_outcome L idc (columns df) (rows df) um' r r' c).
Proof.
  induction cs as [|c cs IH]; intros df df' um um' Hrun Hnd Hmem.
  - simpl in Hrun. injection Hrun as <- <-.
    repeat split; try done.
    + intros _ Hin. inversion Hin.
    + intros i r Hr. exists r. split; [done|]. split; [done|].
      intros c Hc. inversion Hc.
  - simpl in Hrun. unfold mbind, result_bind in Hrun.
    destruct (Chunked.process_column L idc (df, um) c) as [[df1 um1]|e] eqn:Hstep;
      [|done].
    apply process_column_Ok in Hstep
      as (Hid & Hcols1 & Hrows1 & Hone & Hum1).
    set (nan := Chunked.has_nan L (columns df) c (rows df)) in *.
    apply NoDup_cons in Hnd as [Hc Hnd].
    apply IH in Hrun as (Hcols' & Hlen' & Hsub & Hid' & Hrow'); [|done|].
    2:{ intros c' Hc'. rewrite Hcols1. apply Hmem. by right. }
    assert (Hsub1 : um ⊆ um1).
    { intros x Hx. apply Hum1. by left. }
    assert (Hlen1 : length (rows df1) = length (rows df)).
    { rewrite Hrows1. apply length_map. }
    split; [congruence|]. split; [congruence|].
    split; [by transitivity um1|]. split.
    + intros Hne Hin. apply elem_of_cons in Hin as [->|Hin]; [by apply Hid|].
      apply Hid'; [|done]. intros E. apply Hne.
      destruct (rows df); [done|]. rewrite E in Hlen1. done.
    + intros i r Hr.
      assert (Hne : rows df <> []) by (intros E; rewrite E in Hr; done).
      specialize (Hid Hne).
      assert (Hr1 : rows df1 !! i = Some (Chunked.mapped_row L (columns df) c nan r)).
      { rewrite Hrows1, map_fmap, list_lookup_fmap, Hr. done. }
      destruct (Hrow' i _ Hr1) as (r' & Hr' & Hout & Hin).
      rewrite Hcols1 in Hout, Hin.
      assert (Hidr : Frame.get (columns df) (Chunked.mapped_row L (columns df) c nan r) idc
                     = Frame.get (columns df) r idc).
      { apply mapped_row_other. congruence. }
      exists r'. split; [done|]. split.
      * intros c' Hc'. apply not_elem_of_cons in Hc' as [Hcc Hc'].
        rewrite Hout by done. by apply mapped_row_other.
      * intros c' Hc'. apply elem_of_cons in Hc' as [->|Hc'].
        -- (* the column just done: later columns leave it alone *)
           assert (Hri : r ∈ rows df) by (apply list_elem_of_lookup; eauto).
           unfold Chunked.cell_outcome. rewrite (Hout c Hc). split.
           ++ intros Hb. rewrite mapped_row_blank by done. split; [done|].
              apply Hsub, Hum1. right. split; [done|]. exists r.
              unfold Chunked.is_unmapped. by rewrite Hb.
           ++ intros Hb. split; [by apply Hone|]. split.
              ** apply mapped_row_value; [|done]. apply Hmem. left.
              ** intros Hf. apply Hsub, Hum1. right. split; [done|]. exists r.
                 unfold Chunked.is_unmapped. rewrite Hf.
                 split; [done|]. split; [|done].
                 rewrite bool_decide_eq_true_2 by done. apply orb_true_r.
        -- (* a later column: it saw the value the batch came with *)
           assert (Hcc : c <> c') by (intros ->; done).
           specialize (Hin c' Hc'). unfold Chunked.cell_outcome in *.
           rewrite Hidr in Hin. rewrite (mapped_row_other L _ c c') in Hin by done.
           rewrite Hrows1 in Hin.
           rewrite (has_nan_mapped_other L _ c c') in Hin by done.
           done.
Qed.

(** ** The loop over the columns in the SQL script *)

Lemma sql_update_row_other {RD : Rendering}
    (M : list (string * cell)) (cols : list string)
    (c c' : string) (r : list cell) :
  c <> c' -> Frame.get cols (Sql.update_row M cols c r) c' = Frame.get cols r c'.
Proof.
  intros Hne. unfold Sql.update_row.
  destruct (Sql.exists_match _ _); [by apply get_set_ne | done].
Qed.

Lemma elem_of_insert_unmapped (M : list (string * cell)) (idc c : string)
    (T : DataFrame) (u : Sql.unmapped_row) :
  u ∈ Sql.insert_unmapped M idc c T
  <-> exists r, r ∈ rows T
        /\ Sql.is_unmapped M c (Frame.get (columns T) r c) = true
        /\ u = {| Sql.original_id := Frame.get (columns T) r idc;
                  Sql.original_value := Frame.get (columns T) r c;
                  Sql.column_name := c |}.
Proof.
  unfold Sql.insert_unmapped. rewrite list_elem_of_In, in_flat_map. split.
  - intros (r & Hr & Hu). exists r. rewrite list_elem_of_In. split; [done|].
    destruct (Sql.is_unmapped _ _ _); simpl in Hu; [|done].
    destruct Hu as [<-|[]]. done.
  - intros (r & Hr & Hp & ->). exists r. rewrite <- list_elem_of_In.
    split; [done|]. rewrite Hp. by left.
Qed.

Lemma sql_columns_loop {RD : Rendering}
    (M : list (string * cell)) (idc : string) (cs : list string) :
  forall (T T' : DataFrame) (U U' : list Sql.unmapped_row),
  fold_left (Sql.update_column M idc) cs (T, U) = (T', U') ->
  NoDup cs ->
  (forall c, c ∈ cs -> Frame.mem c (columns T) = true) ->
  idc ∉ cs ->
  columns T' = columns T
  /\ (exists V, U' = U ++ V
        /\ forall u, u ∈ V ->
             Sql.column_name u ∈ cs
             /\ Sql.is_unmapped M (Sql.column_name u) (Sql.original_value u) = true)
  /\ forall i r, rows T !! i = Some r ->
       exists r', rows T' !! i = Some r'
         /\ (forall c, c ∉ cs -> Frame.get (columns T) r' c = Frame.get (columns T) r c)
         /\ (forall c, c ∈ cs -> Sql.cell_outcome M idc (columns T) U' r r' c).
Proof.
  induction cs as [|c cs IH]; intros T T' U U' Hrun Hnd Hmem Hid.
  - simpl in Hrun. injection Hrun as <- <-. split; [done|]. split.
    + exists []. split; [by rewrite app_nil_r|]. intros u Hu. inversion Hu.
    + intros i r Hr. exists r. split; [done|]. split; [done|].
      intros c Hc. inversion Hc.
  - simpl in Hrun. unfold Sql.update_column at 2 in Hrun. simpl in Hrun.
    apply NoDup_cons in Hnd as [Hc Hnd].
    apply not_elem_of_cons in Hid as [Hidc Hid].
    apply IH in Hrun as (Hcols & (V & HU' & HV) & Hrow); [|done| |done].
    2:{ intros c' Hc'. simpl. apply Hmem. by right. }
    simpl in Hcols. split; [done|]. split.
    + exists (Sql.insert_unmapped M idc c T ++ V). split.
      * by rewrite HU', app_assoc.
      * intros u Hu. apply elem_of_app in Hu as [Hu|Hu].
        -- apply elem_of_insert_unmapped in Hu as (r & Hr & Hp & ->). simpl.
           split; [left | done].
        -- destruct (HV u Hu) as [H1 H2]. split; [by right | done].
    + intros i r Hr.
      assert (Hr1 : rows (Sql.update M c T) !! i
                    = Some (Sql.update_row M (columns T) c r)).
      { simpl. rewrite map_fmap, list_lookup_fmap, Hr. done. }
      destruct (Hrow i _ Hr1) as (r' & Hr' & Hout & Hin). simpl in Hout, Hin.
      exists r'. split; [done|]. split.
      * intros c' Hc'. apply not_elem_of_cons in Hc' as [Hcc Hc'].
        rewrite Hout by done. by apply sql_update_row_other.
      * intros c' Hc'. apply elem_of_cons in Hc' as [->|Hc'].
        -- unfold Sql.cell_outcome. simpl. rewrite (Hout c Hc).
           unfold Sql.update_row. split; [|split].
           ++ intros He. rewrite He. apply get_set_eq. apply Hmem. left.
           ++ intros He. by rewrite He.
           ++ intros Hp. rewrite HU'. apply elem_of_app. left. apply elem_of_app. right.
              apply elem_of_insert_unmapped. exists r. split; [|done].
              apply list_elem_of_lookup. eauto.
        -- assert (Hcc : c <> c') by (intros ->; done).
           specialize (Hin c' Hc'). unfold Sql.cell_outcome in *. simpl in *.
           rewrite (sql_update_row_other M _ c c') in Hin by done.
           rewrite (sql_update_row_other M _ c idc) in Hin by congruence.
           done.
Qed.

(** ** One batch through the column loop *)

Lemma NoDup_List_filter {X : Type} (p : X -> bool) (l : list X) :
  NoDup l -> NoDup (List.filter p l).
Proof. rewrite !NoDup_ListNoDup. apply List.NoDup_filter. Qed.

Lemma elem_of_List_filter {X : Type} (p : X -> bool) (l : list X) (x : X) :
  x ∈ List.filter p l <-> x ∈ l /\ p x = true.
Proof. rewrite !list_elem_of_In. apply filter_In. Qed.

Lemma process_chunk_Ok {RD : Rendering} (L : list (string * cell)) (amts : list string)
    (idc : string) (df df' : DataFrame) (um : gset cell) :
  Chunked.process_chunk L amts idc df = Ok (df', um) ->
  NoDup amts ->
  columns df' = columns df
  /\ length (rows df') = length (rows df)
  /\ forall i r, rows df !! i = Some r ->
       exists r', rows df' !! i = Some r'
         /\ Frame.get (columns df) r' idc = Frame.get (columns df) r idc
         /\ (forall c, c ∈ amts -> Frame.mem c (columns df) = true ->
               Chunked.cell_outcome L idc (columns df) (rows df) um r r' c)
         /\ (forall c, ~ (c ∈ amts /\ Frame.mem c (columns df) = true) ->
               Frame.get (columns df) r' c = Frame.get (columns df) r c).
Proof.
  unfold Chunked.process_chunk. intros Hrun Hnd.
  apply for_each_columns_Ok in Hrun as (Hcols & Hlen & _ & Hid & Hrow).
  2:{ by apply NoDup_List_filter. }
  2:{ intros c Hc. by apply elem_of_List_filter in Hc as [_ Hc]. }
  split; [done|]. split; [done|]. intros i r Hr.
  destruct (Hrow i r Hr) as (r' & Hr' & Hout & Hin).
  exists r'. split; [done|]. split; [|split].
  - apply Hout, Hid. intros E. rewrite E in Hr. done.
  - intros c Hc Hm. apply Hin. by apply elem_of_List_filter.
  - intros c Hc. apply Hout. intros H. apply Hc.
    by apply elem_of_List_filter in H.
Qed.

(** ** The loop over the batches *)

Lemma for_each_columns_shape {RD : Rendering} (L : list (string * cell)) (idc : string)
    (cs : list string) :
  forall (df df' : DataFrame) (um um' : gset cell),
  for_each (Chunked.process_column L idc) (df, um) cs = Ok (df', um') ->
  columns df' = columns df
  /\ length (rows df') = length (rows df)
  /\ forall i r, rows df !! i = Some r ->
       exists r', rows df' !! i = Some r'
         /\ Frame.get (columns df) r' idc = Frame.get (columns df) r idc.
Proof.
  induction cs as [|c cs IH]; intros df df' um um' Hrun.
  - simpl in Hrun. injection Hrun as <- <-. eauto.
  - simpl in Hrun. unfold mbind, result_bind in Hrun.
    destruct (Chunked.process_column L idc (df, um) c) as [[df1 um1]|e] eqn:Hstep;
      [|done].
    apply process_column_Ok in Hstep as (Hid & Hcols1 & Hrows1 & _ & _).
    apply IH in Hrun as (Hcols' & Hlen' & Hrow').
    split; [congruence|]. split.
    { rewrite Hlen', Hrows1. apply length_map. }
    intros i r Hr.
    assert (Hne : rows df <> []) by (intros E; rewrite E in Hr; done).
    assert (Hr1 : rows df1 !! i = Some (Chunked.mapped_row L (columns df) c
                                     (Chunked.has_nan L (columns df) c (rows df)) r)).
    { rewrite Hrows1, map_fmap, list_lookup_fmap, Hr. done. }
    destruct (Hrow' i _ Hr1) as (r' & Hr' & Hget).
    exists r'. split; [done|]. rewrite Hcols1 in Hget. rewrite Hget.
    apply mapped_row_other. intros ->. by apply Hid.
Qed.

(** Whatever the order, the list made of a set holds its members, once
    each. *)
Lemma list_of_set_perm (w : Chunked.World) (i : nat) (um : gset cell) :
  Chunked.list_of_set w i um ≡ₚ elements um.
Proof. apply merge_sort_Permutation. Qed.

Lemma NoDup_list_of_set (w : Chunked.World) (i : nat) (um : gset cell) :
  NoDup (Chunked.list_of_set w i um).
Proof. rewrite list_of_set_perm. apply NoDup_elements. Qed.

Lemma elem_of_list_of_set (w : Chunked.World) (i : nat) (um : gset cell) (x : cell) :
  x ∈ Chunked.list_of_set w i um <-> x ∈ um.
Proof. rewrite list_of_set_perm. apply elem_of_elements. Qed.

Lemma list_of_set_nil (w : Chunked.World) (i : nat) (um : gset cell) :
  Chunked.list_of_set w i um = [] <-> um = ∅.
Proof.
  split.
  - intros E. apply leibniz_equiv, elements_empty_inv.
    apply Permutation_nil_r. by rewrite <- list_of_set_perm, E.
  - intros ->. apply Permutation_nil_r. symmetry.
    by rewrite list_of_set_perm, elements_empty.
Qed.

Lemma flush_unmapped_Ok (w : Chunked.World) (id : string) (i : nat)
    (um : gset cell) (st st1 : Chunked.State) :
  Chunked.flush_unmapped w id i um st = Ok st1 ->
  Chunked.is_first_chunk st1 = Chunked.is_first_chunk st
  /\ Chunked.output_file st1 = Chunked.output_file st
  /\ Chunked.printed st1 = Chunked.printed st
  /\ ((um = ∅ /\ st1 = st)
      \/ (um <> ∅ /\ Chunked.can_write w Chunked.Report i = true
          /\ Chunked.is_first_unmapped_chunk st1 = false
          /\ Chunked.nans_file st1
             = Some ((if Chunked.is_first_unmapped_chunk st
                      then [HeaderLine [id]]
                      else default [] (Chunked.nans_file st))
                     ++ map (fun x => DataLine [x]) (Chunked.list_of_set w i um)))).
Proof.
  unfold Chunked.flush_unmapped, Chunked.write. case_bool_decide as Hum.
  - intros [= <-]. repeat split; try done. by left.
  - destruct (Chunked.can_write w Chunked.Report i); [|done].
    unfold mbind, result_bind. intros [= <-]. simpl.
    repeat split; try done. right. repeat split; try done. f_equal.
    unfold Frame.to_csv_w, Frame.to_csv_a, Chunked.chunk_unmapped_df. simpl.
    rewrite !map_map. simpl.
    by destruct (Chunked.is_first_unmapped_chunk st).
Qed.

Lemma write_chunk_Ok (w : Chunked.World) (id : string) (i : nat)
    (df : DataFrame) (st st' : Chunked.State) :
  Chunked.write_chunk w id i df st = Ok st' ->
  Chunked.can_write w Chunked.Primary i = true
  /\ Chunked.is_first_chunk st' = false
  /\ Chunked.is_first_unmapped_chunk st' = Chunked.is_first_unmapped_chunk st
  /\ Chunked.nans_file st' = Chunked.nans_file st
  /\ Chunked.printed st' = Chunked.printed st
  /\ Chunked.output_file st'
     = Some (if Chunked.is_first_chunk st
             then Frame.to_csv_w (Chunked.id_first id df)
             else Frame.to_csv_a (Chunked.output_file st) (Chunked.id_first id df)).
Proof.
  unfold Chunked.write_chunk, Chunked.write.
  destruct (Chunked.can_write w Chunked.Primary i); [|done].
  unfold mbind, result_bind. intros [= <-]. simpl. done.
Qed.

(** The loop body, case by case. *)
Lemma body_Ok {RD : Rendering}
    (w : Chunked.World) (L : list (string * cell)) (amts : list string)
    (id : string) (st st' : Chunked.State) (i : nat) (chunk : DataFrame) :
  Chunked.body w L amts id st (i, chunk) = Ok st' ->
  (Chunked.kept id chunk = false
   /\ st' = Chunked.say (Chunked.ErrorIdNotInChunk id (i + 1)) st)
  \/ (Chunked.kept id chunk = true
      /\ exists df um st1,
           Chunked.process_chunk L amts id (Frame.clean_columns chunk) = Ok (df, um)
           /\ Chunked.flush_unmapped w id i um st = Ok st1
           /\ Chunked.write_chunk w id i df st1 = Ok st').
Proof.
  unfold Chunked.body, Chunked.kept. simpl.
  destruct (Frame.mem id _); simpl.
  - unfold mbind, result_bind.
    destruct (Chunked.process_chunk _ _ _ _) as [[df um]|e]; [|done].
    destruct (Chunked.flush_unmapped _ _ _ _ _) as [st1|e] eqn:Hf; [|done].
    intros Hw. right. split; [done|]. by exists df, um, st1.
  - intros [= <-]. by left.
Qed.

(** ** What the run writes to the primary output *)

Lemma map_eq_by_lookup {X Y : Type} (f : X -> Y) (l l' : list X) :
  length l' = length l ->
  (forall i r, l !! i = Some r -> exists r', l' !! i = Some r' /\ f r' = f r) ->
  map f l' = map f l.
Proof.
  intros Hlen H. rewrite !map_fmap. apply list_eq. intros i.
  rewrite !list_lookup_fmap.
  destruct (l !! i) as [r|] eqn:E.
  - destruct (H i r E) as (r' & -> & Hf). simpl. by rewrite Hf.
  - apply lookup_ge_None in E. rewrite (lookup_ge_None_2 l' i) by lia. done.
Qed.

Lemma data_lines_app (f g : file) : data_lines (f ++ g) = data_lines f ++ data_lines g.
Proof. unfold data_lines. apply flat_map_app. Qed.

Lemma data_lines_DataLine {X : Type} (h : X -> list cell) (l : list X) :
  data_lines (map (fun r => DataLine (h r)) l) = map h l.
Proof. induction l as [|a l IH]; simpl; [done | by rewrite IH]. Qed.

(** The first field of every line written for a batch is the identifier. *)
Lemma id_first_first_field (id : string) (df : DataFrame) :
  Frame.mem id (columns df) = true ->
  map (hd None)
      (map (Frame.csv_row (Chunked.id_first id df)) (rows (Chunked.id_first id df)))
  = map (fun r => Frame.get (columns df) r id) (rows df).
Proof.
  destruct df as [cols rs]. cbn [columns rows].
  intros Hm. unfold Chunked.id_first. cbn [columns]. rewrite Hm. cbn [andb].
  case_bool_decide as Hhd; cbn [negb].
  - destruct cols as [|c cols]; [done|].
    simpl in Hhd. injection Hhd as ->.
    cbn [rows]. rewrite map_map. apply map_ext. intros r. unfold Frame.csv_row. simpl.
    unfold Frame.get. simpl. by rewrite String.eqb_refl.
  - cbn [Frame.select rows columns]. rewrite !map_map. apply map_ext. intros r.
    apply (select_first_field cols _ rs id r). by apply mem_true.
Qed.

Lemma process_chunk_ids {RD : Rendering} (L : list (string * cell)) (amts : list string)
    (id : string) (df df' : DataFrame) (um : gset cell) :
  Chunked.process_chunk L amts id df = Ok (df', um) ->
  columns df' = columns df
  /\ map (fun r => Frame.get (columns df) r id) (rows df')
     = map (fun r => Frame.get (columns df) r id) (rows df).
Proof.
  unfold Chunked.process_chunk. intros Hrun.
  apply for_each_columns_shape in Hrun as (Hcols & Hlen & Hrow).
  split; [done|]. by apply map_eq_by_lookup.
Qed.

Lemma kept_ids_cons (id : string) (chunk : DataFrame) (chunks : list DataFrame) :
  Chunked.kept_ids id (chunk :: chunks)
  = (if Chunked.kept id chunk
     then map (fun r => Frame.get (columns (Frame.clean_columns chunk)) r id)
              (rows chunk)
     else [])
    ++ Chunked.kept_ids id chunks.
Proof.
  unfold Chunked.kept_ids. simpl. by destruct (Chunked.kept id chunk).
Qed.

Lemma loop_written {RD : Rendering} (w : Chunked.World) (L : list (string * cell))
    (amts : list string) (id : string) (ics : list (nat * DataFrame)) :
  forall st st' : Chunked.State,
  for_each (Chunked.body w L amts id) st ics = Ok st' ->
  (Chunked.is_first_chunk st = true -> Chunked.output_file st = None) ->
  map (hd None) (Chunked.written (Chunked.output_file st'))
  = map (hd None) (Chunked.written (Chunked.output_file st))
    ++ Chunked.kept_ids id (map snd ics).
Proof.
  induction ics as [|[i chunk] ics IH]; intros st st' Hrun Hinv.
  - simpl in Hrun. injection Hrun as <-. by rewrite app_nil_r.
  - simpl in Hrun. unfold mbind, result_bind in Hrun.
    destruct (Chunked.body w L amts id st (i, chunk)) as [st1|e] eqn:Hbody; [|done].
    simpl. rewrite kept_ids_cons.
    apply body_Ok in Hbody as [[Hk ->]|(Hk & df & um & st0 & Hproc & Hflush & Hwrite)].
    + rewrite Hk. simpl. by apply IH in Hrun.
    + rewrite Hk.
      apply flush_unmapped_Ok in Hflush as (Hfc & Hof & _ & _).
      apply write_chunk_Ok in Hwrite as (_ & Hfc1 & _ & _ & _ & Hout).
      apply IH in Hrun; [|by rewrite Hfc1].
      rewrite Hrun, Hout, app_assoc. f_equal.
      apply process_chunk_ids in Hproc as [Hcols Hids].
      rewrite Hfc, Hof. unfold Chunked.written. simpl.
      assert (Hlines :
        map (hd None)
            (data_lines (map (fun r => DataLine (Frame.csv_row (Chunked.id_first id df) r))
                             (rows (Chunked.id_first id df))))
        = map (fun r => Frame.get (columns (Frame.clean_columns chunk)) r id)
              (rows chunk)).
      { rewrite data_lines_DataLine, id_first_first_field.
        - by rewrite Hcols, Hids.
        - by rewrite Hcols. }
      destruct (Chunked.is_first_chunk st) eqn:Hfirst.
      * rewrite (Hinv eq_refl). simpl. exact Hlines.
      * unfold Frame.to_csv_a. rewrite data_lines_app, map_app. by rewrite Hlines.
Qed.

Lemma snd_enumerate {X : Type} (l : list X) : map snd (Chunked.enumerate l) = l.
Proof.
  unfold Chunked.enumerate. rewrite map_fmap. apply snd_zip.
  rewrite length_seq. done.
Qed.


Lemma kept_ids_length (id : string) (chunks : list DataFrame) :
  length (Chunked.kept_ids id chunks)
  = length (flat_map rows (List.filter (Chunked.kept id) chunks)).
Proof.
  unfold Chunked.kept_ids.
  induction (List.filter (Chunked.kept id) chunks) as [|c l IH]; simpl; [done|].
  rewrite !length_app, length_map. by f_equal.
Qed.

(** The pieces of a run that returns. *)
Lemma run_Ok {RD : Rendering} (w : Chunked.World) (st : Chunked.State) :
  Chunked.run w = Ok st ->
  exists L main id st0 st1,
    Mapping.load (Chunked.mapping_file w) = Ok L
    /\ Chunked.main_file w = Some main
    /\ Chunked.id_column_data main = Ok id
    /\ st0 = fold_left (fun s m => Chunked.say m s)
                       (Chunked.header_warnings main id) Chunked.initial
    /\ for_each (Chunked.body w L (Chunked.amt_columns_header main) id) st0
                (Chunked.enumerate (batches main)) = Ok st1
    /\ Chunked.final_check w id (length (batches main)) st1 = Ok st.
Proof.
  unfold Chunked.run, mbind, result_bind. intros Hrun.
  destruct (Mapping.load _) as [L|] eqn:HL; [|done].
  destruct (Chunked.main_file w) as [main|] eqn:Hmain; [|done].
  cbv beta iota zeta in Hrun.
  destruct (Chunked.id_column_data main) as [id|] eqn:Hid; [|done].
  cbv beta iota zeta in Hrun.
  destruct (for_each _ _ _) as [st1|] eqn:Hloop; [|done].
  exists L, main, id,
    (fold_left (fun s m => Chunked.say m s)
               (Chunked.header_warnings main id) Chunked.initial), st1.
  done.
Qed.

Lemma say_files (ms : list Chunked.message) (st : Chunked.State) :
  let st' := fold_left (fun s m => Chunked.say m s) ms st in
  Chunked.is_first_chunk st' = Chunked.is_first_chunk st
  /\ Chunked.is_first_unmapped_chunk st' = Chunked.is_first_unmapped_chunk st
  /\ Chunked.output_file st' = Chunked.output_file st
  /\ Chunked.nans_file st' = Chunked.nans_file st.
Proof.
  revert st. induction ms as [|m ms IH]; intros st; simpl; [done|].
  destruct (IH (Chunked.say m st)) as (H1 & H2 & H3 & H4).
  simpl in *. by rewrite H1, H2, H3, H4.
Qed.

Lemma final_check_Ok (w : Chunked.World) (id : string) (n : nat)
    (st1 st : Chunked.State) :
  Chunked.final_check w id n st1 = Ok st ->
  Chunked.output_file st = Chunked.output_file st1
  /\ Chunked.printed st = Chunked.printed st1
  /\ (Chunked.is_first_unmapped_chunk st1 = true ->
        Chunked.can_write w Chunked.Report n = true
        /\ Chunked.nans_file st = Some [HeaderLine [id]])
  /\ (Chunked.is_first_unmapped_chunk st1 = false ->
        Chunked.nans_file st = Chunked.nans_file st1).
Proof.
  unfold Chunked.final_check, Chunked.write.
  destruct (Chunked.is_first_unmapped_chunk st1).
  - destruct (Chunked.can_write w Chunked.Report n); [|done].
    unfold mbind, result_bind. intros [= <-]. simpl. done.
  - intros [= <-]. done.
Qed.

(** ** What the run writes to the report *)

Lemma loop_nothing_unmapped {RD : Rendering}
    (w : Chunked.World) (L : list (string * cell))
    (amts : list string) (id : string) (ics : list (nat * DataFrame)) :
  forall st st' : Chunked.State,
  for_each (Chunked.body w L amts id) st ics = Ok st' ->
  (forall chunk df um,
     chunk ∈ map snd ics ->
     Chunked.kept id chunk = true ->
     Chunked.process_chunk L amts id (Frame.clean_columns chunk) = Ok (df, um) ->
     um = ∅) ->
  Chunked.is_first_unmapped_chunk st' = Chunked.is_first_unmapped_chunk st
  /\ Chunked.nans_file st' = Chunked.nans_file st.
Proof.
  induction ics as [|[i chunk] ics IH]; intros st st' Hrun Hnone.
  - simpl in Hrun. by injection Hrun as <-.
  - simpl in Hrun. unfold mbind, result_bind in Hrun.
    destruct (Chunked.body w L amts id st (i, chunk)) as [st1|e] eqn:Hbody; [|done].
    apply IH in Hrun as [Hf Hn].
    2:{ intros c df um Hc. apply Hnone. simpl. by right. }
    rewrite Hf, Hn.
    apply body_Ok in Hbody as [[Hk ->]|(Hk & df & um & st0 & Hproc & Hflush & Hwrite)];
      [done|].
    apply write_chunk_Ok in Hwrite as (_ & _ & -> & -> & _).
    assert (Hum : um = ∅).
    { apply (Hnone chunk df um); [simpl; left | done | done]. }
    apply flush_unmapped_Ok in Hflush as (_ & _ & _ & [[_ ->]|[Hne _]]); done.
Qed.

(** ** Errors in the run *)

Lemma for_each_app {X S : Type} (body : S -> X -> result S) (l1 l2 : list X)
    (s : S) :
  for_each body s (l1 ++ l2) = (s1 ← for_each body s l1; for_each body s1 l2).
Proof.
  revert s. induction l1 as [|x l1 IH]; intros s; simpl; [done|].
  unfold mbind, result_bind in *. destruct (body s x); [apply IH | done].
Qed.

Lemma body_skip {RD : Rendering} (w : Chunked.World) (L : list (string * cell))
    (amts : list string) (id : string) (st : Chunked.State) (i : nat)
    (chunk : DataFrame) :
  Chunked.kept id chunk = false ->
  Chunked.body w L amts id st (i, chunk)
  = Ok (Chunked.say (Chunked.ErrorIdNotInChunk id (i + 1)) st).
Proof.
  unfold Chunked.kept, Chunked.body. simpl. by intros ->.
Qed.

Lemma body_printed {RD : Rendering} (w : Chunked.World) (L : list (string * cell))
    (amts : list string) (id : string) (st st' : Chunked.State)
    (ic : nat * DataFrame) (m : Chunked.message) :
  Chunked.body w L amts id st ic = Ok st' ->
  m ∈ Chunked.printed st -> m ∈ Chunked.printed st'.
Proof.
  destruct ic as [i chunk]. intros Hbody Hm.
  apply body_Ok in Hbody as [[_ ->]|(_ & df & um & st0 & _ & Hflush & Hwrite)].
  - simpl. apply elem_of_app. by left.
  - apply write_chunk_Ok in Hwrite as (_ & _ & _ & _ & -> & _).
    apply flush_unmapped_Ok in Hflush as (_ & _ & -> & _). done.
Qed.

Lemma loop_printed {RD : Rendering} (w : Chunked.World) (L : list (string * cell))
    (amts : list string) (id : string) (ics : list (nat * DataFrame))
    (m : Chunked.message) :
  forall st st' : Chunked.State,
  for_each (Chunked.body w L amts id) st ics = Ok st' ->
  m ∈ Chunked.printed st -> m ∈ Chunked.printed st'.
Proof.
  induction ics as [|ic ics IH]; intros st st' Hrun Hm.
  - simpl in Hrun. by injection Hrun as <-.
  - simpl in Hrun. unfold mbind, result_bind in Hrun.
    destruct (Chunked.body w L amts id st ic) as [st1|e] eqn:Hbody; [|done].
    apply (IH st1 st' Hrun). by apply (body_printed w L amts id st st1 ic).
Qed.

(** A loop that returns has got through every batch: each was either
    skipped with its diagnostic, or transformed and written. *)
Lemma loop_each_batch {RD : Rendering} (w : Chunked.World) (L : list (string * cell))
    (amts : list string) (id : string) (chunks : list DataFrame) :
  forall (k : nat) (st st' : Chunked.State),
  for_each (Chunked.body w L amts id) st (zip (seq k (length chunks)) chunks)
  = Ok st' ->
  forall j chunk, chunks !! j = Some chunk ->
    (Chunked.kept id chunk = false
     /\ Chunked.ErrorIdNotInChunk id (k + j + 1) ∈ Chunked.printed st')
    \/ (Chunked.kept id chunk = true
        /\ exists df um,
             Chunked.process_chunk L amts id (Frame.clean_columns chunk) = Ok (df, um)
             /\ Chunked.can_write w Chunked.Primary (k + j) = true
             /\ (um <> ∅ -> Chunked.can_write w Chunked.Report (k + j) = true)).
Proof.
  induction chunks as [|c chunks IH]; intros k st st' Hrun j chunk Hj; [done|].
  simpl in Hrun. unfold mbind, result_bind in Hrun.
  destruct (Chunked.body w L amts id st (k, c)) as [st1|e] eqn:Hbody; [|done].
  destruct j as [|j]; simpl in Hj.
  - injection Hj as ->. replace (k + 0) with k by lia.
    apply body_Ok in Hbody as [[Hk ->]|(Hk & df & um & st0 & Hproc & Hflush & Hwrite)].
    + left. split; [done|]. apply (loop_printed _ _ _ _ _ _ _ _ Hrun).
      simpl. apply elem_of_app. right. left.
    + right. split; [done|]. exists df, um. split; [done|].
      apply write_chunk_Ok in Hwrite as (Hw & _). split; [done|].
      intros Hne.
      apply flush_unmapped_Ok in Hflush as (_ & _ & _ & [[? _]|(_ & Hr & _)]); done.
  - replace (k + S j) with (S k + j) by lia. by apply (IH (S k) st1 st').
Qed.

(** ** When the run returns *)

Lemma flat_map_length_exact {X Y : Type} (f : X -> list Y) (l : list X) :
  (forall x, length (f x) = 1) -> length (flat_map f l) = length l.
Proof.
  intros Hf. induction l as [|a l IH]; simpl; [done|].
  rewrite length_app, Hf, IH. done.
Qed.

Lemma count_absent (c : string) (cols : list string) :
  c ∉ cols -> Frame.count c cols = 0.
Proof.
  unfold Frame.count. induction cols as [|x xs IH]; [done|].
  intros Hc. apply not_elem_of_cons in Hc as [Hne Hc]. simpl.
  destruct (String.eqb_spec c x) as [|_]; [done|]. by apply IH.
Qed.

(** In a frame whose labels are distinct no label is borne by two columns. *)
Lemma count_NoDup (c : string) (cols : list string) :
  NoDup cols -> (1 <? Frame.count c cols)%nat = false.
Proof.
  intros Hnd. apply Nat.ltb_ge. induction Hnd as [|x xs Hx Hnd IH]; [unfold Frame.count; simpl; lia|].
  unfold Frame.count in *. simpl.
  destruct (String.eqb_spec c x) as [->|_]; [|done].
  simpl. pose proof (count_absent x xs Hx) as H0. unfold Frame.count in H0. lia.
Qed.

(** With at most one row per key in the lookup frame, distinct labels in
    the batch, and a column that is not the identifier column, the column
    loop body does not raise. *)
Lemma process_column_returns {RD : Rendering} (L : list (string * cell))
    (idc col : string) (df : DataFrame) (um : gset cell) :
  idc <> col ->
  NoDup (columns df) ->
  (forall k, length (Chunked.lookup_rows L k) <= 1) ->
  exists df' um', Chunked.process_column L idc (df, um) col = Ok (df', um').
Proof.
  intros Hne Hnd Hone. unfold Chunked.process_column. cbn [fst snd].
  destruct (String.eqb_spec idc col) as [|_]; [done|].
  rewrite (count_NoDup _ _ Hnd).
  destruct (List.filter _ (Chunked.temp_df_col idc col df)) as [|t clean] eqn:E;
    [eauto|].
  rewrite !length_map. unfold Chunked.merge.
  rewrite flat_map_length_exact, length_map, Nat.eqb_refl; [eauto|].
  intros tk. specialize (Hone tk.2).
  destruct (Chunked.lookup_rows L tk.2) as [|a [|b l]]; simpl in *; [done|done|lia].
Qed.

Lemma for_each_columns_returns {RD : Rendering} (L : list (string * cell))
    (idc : string) (cs : list string) :
  idc ∉ cs ->
  (forall k, length (Chunked.lookup_rows L k) <= 1) ->
  forall (df : DataFrame) (um : gset cell),
  NoDup (columns df) ->
  exists df' um',
    for_each (Chunked.process_column L idc) (df, um) cs = Ok (df', um').
Proof.
  intros Hid Hone. induction cs as [|c cs IH]; intros df um Hnd; simpl; [eauto|].
  apply not_elem_of_cons in Hid as [Hne Hid].
  destruct (process_column_returns L idc c df um Hne Hnd Hone) as (df1 & um1 & Hstep).
  rewrite Hstep. unfold mbind, result_bind.
  apply process_column_Ok in Hstep as (_ & Hcols & _).
  apply IH; [done|]. by rewrite Hcols.
Qed.

(** The run returns when the sheet and the main file are there, the header
    is not empty, the cleaned labels of every batch are distinct, the
    identifier column is not a target column, no key is borne by two
    mapping rows, and every write is granted. *)
Lemma run_returns {RD : Rendering} (w : Chunked.World) (L : list (string * cell))
    (main : CsvFile) (id : string) :
  Mapping.load (Chunked.mapping_file w) = Ok L ->
  Chunked.main_file w = Some main ->
  Chunked.id_column_data main = Ok id ->
  Resolver.is_amt id = false ->
  (forall chunk, chunk ∈ batches main ->
     NoDup (columns (Frame.clean_columns chunk))) ->
  (forall k, length (Chunked.lookup_rows L k) <= 1) ->
  (forall s i, Chunked.can_write w s i = true) ->
  exists st, Chunked.run w = Ok st.
Proof.
  intros HL Hmain Hid Hamt Hnd Hone Hw.
  unfold Chunked.run. rewrite HL, Hmain. unfold mbind at 1 2, result_bind at 1 2.
  rewrite Hid. unfold mbind at 1, result_bind at 1.
  assert (Hloop : forall ics st,
    (forall ic, ic ∈ ics -> NoDup (columns (Frame.clean_columns ic.2))) ->
    exists st', for_each (Chunked.body w L (Chunked.amt_columns_header main) id)
                  st ics = Ok st').
  { induction ics as [|[i chunk] ics IH]; intros st Hics; simpl; [eauto|].
    assert (Hbody : exists st1,
      Chunked.body w L (Chunked.amt_columns_header main) id st (i, chunk) = Ok st1).
    { unfold Chunked.body. simpl. destruct (Frame.mem id _); simpl; [|eauto].
      unfold Chunked.process_chunk.
      destruct (for_each_columns_returns L id
                  (List.filter (fun col => Frame.mem col
                                  (columns (Frame.clean_columns chunk)))
                     (Chunked.amt_columns_header main)))
        with (df := Frame.clean_columns chunk) (um := (∅ : gset cell))
        as (df' & um' & ->); [|done| |].
      { intros Hin. apply elem_of_List_filter in Hin as [Hin _].
        unfold Chunked.amt_columns_header in Hin.
        apply elem_of_List_filter in Hin as [_ Hin]. congruence. }
      { apply (Hics (i, chunk)). left. }
      unfold mbind, result_bind.
      unfold Chunked.flush_unmapped, Chunked.write_chunk, Chunked.write.
      case_bool_decide; rewrite ?Hw; unfold mbind, result_bind; rewrite ?Hw; eauto. }
    destruct Hbody as [st1 ->]. unfold mbind, result_bind. apply IH.
    intros ic Hic. apply Hics. by right. }
  destruct (Hloop (Chunked.enumerate (batches main))
              (fold_left (fun s m => Chunked.say m s)
                 (Chunked.header_warnings main id) Chunked.initial)) as [st1 ->].
  { intros [i chunk] Hic. apply Hnd. simpl.
    apply list_elem_of_In. apply list_elem_of_In in Hic.
    unfold Chunked.enumerate in Hic. by apply in_combine_r in Hic. }
  unfold mbind, result_bind, Chunked.final_check, Chunked.write.
  destruct (Chunked.is_first_unmapped_chunk st1); rewrite ?Hw; eauto.
Qed.

(** * The claims *)

(** ** C1: what a non-blank cell becomes *)




(** ** C2: the report when nothing is unmapped *)

(** C2, as stated, fails on [code_5.py]: with every target cell mapped the
    table of unmapped values is empty, the export is skipped, and after the
    run there is no report file. *)
Lemma C2_sql_no_report_file :
  exists o,
    Sql.run (Some Samples.sheet) (Some Samples.main_all_mapped) None = Ok o
    /\ Sql.unmapped_table o = []
    /\ Sql.nans_file o = None.
Proof. eexists. repeat split; reflexivity. Qed.

(** C2 (amended): in [9_code_optimized.py], when the run returns and no
    batch with the identifier column produced a non-empty set, the report
    file exists and holds the header line naming the identifier column and
    nothing else.  In [code_5.py], when the table of unmapped values ends up
    empty the report file is not written: it is what it was before the run. *)
Theorem C2_report_when_nothing_unmapped {RD : Rendering} :
  (forall (w : Chunked.World) (st : Chunked.State) (L : list (string * cell))
          (main : CsvFile) (id : string),
     Chunked.run w = Ok st ->
     Mapping.load (Chunked.mapping_file w) = Ok L ->
     Chunked.main_file w = Some main ->
     Chunked.id_column_data main = Ok id ->
     (forall chunk df um,
        chunk ∈ batches main ->
        Chunked.kept id chunk = true ->
        Chunked.process_chunk L (Chunked.amt_columns_header main) id
          (Frame.clean_columns chunk) = Ok (df, um) ->
        um = ∅) ->
     Chunked.nans_file st = Some [HeaderLine [id]]
     /\ header_lines (default [] (Chunked.nans_file st)) = [[id]]
     /\ data_lines (default [] (Chunked.nans_file st)) = [])
  /\
  (forall (mapping_file : option DataFrame) (main_file : option CsvFile)
          (old_report : option file) (o : Sql.Outcome),
     Sql.run mapping_file main_file old_report = Ok o ->
     Sql.unmapped_table o = [] ->
     Sql.nans_file o = old_report).
Proof.
  split.
  - intros w st L main id Hrun HL Hmain Hid Hnone.
    apply run_Ok in Hrun
      as (L' & main' & id' & st0 & st1 & HL' & Hmain' & Hid' & Hst0 & Hloop & Hfinal).
    rewrite HL in HL'. injection HL' as <-.
    rewrite Hmain in Hmain'. injection Hmain' as <-.
    rewrite Hid in Hid'. injection Hid' as <-.
    destruct (say_files (Chunked.header_warnings main id) Chunked.initial)
      as (_ & Hf0 & _ & Hn0).
    rewrite <- Hst0 in Hf0, Hn0. simpl in Hf0, Hn0.
    apply loop_nothing_unmapped in Hloop as [Hf Hn].
    2:{ intros chunk df um Hc. apply Hnone. by rewrite snd_enumerate in Hc. }
    apply final_check_Ok in Hfinal as (_ & _ & Hfirst & _).
    destruct Hfirst as [_ ->]; [congruence|]. done.
  - intros mf main old o Hrun Hempty.
    unfold Sql.run, mbind, result_bind in Hrun.
    destruct (Mapping.load mf); [|done].
    destruct main; [|done]. cbv beta iota zeta in Hrun.
    destruct (Resolver.pick_id _); [|done].
    injection Hrun as <-. simpl in *. rewrite Hempty.
    unfold Sql.export_unmapped. by destruct (List.filter _ _).
Qed.

Lemma C2_report_when_nothing_unmapped_witness :
  (Chunked.nans_file
     {| Chunked.is_first_chunk := false;
        Chunked.is_first_unmapped_chunk := true;
        Chunked.output_file :=
          Some [HeaderLine ["id"; "amt_x"];
                DataLine [Some "1"; Some "10.2"];
                DataLine [Some "8"; Some "10.2"]];
        Chunked.nans_file := Some [HeaderLine ["id"]];
        Chunked.printed := [] |}
   = Some [HeaderLine ["id"]]
   /\ header_lines (default [] (Some [HeaderLine ["id"]])) = [["id"]]
   /\ data_lines (default [] (Some [HeaderLine ["id"]])) = [])
  /\ (exists o,
        Sql.run (Some Samples.sheet) (Some Samples.main_all_mapped)
          (Some [HeaderLine ["stale"]]) = Ok o
        /\ Sql.nans_file o = Some [HeaderLine ["stale"]]).
Proof.
  split.
  - apply (proj1 C2_report_when_nothing_unmapped
             (Samples.world Samples.sheet Samples.main_all_mapped)
             {| Chunked.is_first_chunk := false;
                Chunked.is_first_unmapped_chunk := true;
                Chunked.output_file :=
                  Some [HeaderLine ["id"; "amt_x"];
                        DataLine [Some "1"; Some "10.2"];
                        DataLine [Some "8"; Some "10.2"]];
                Chunked.nans_file := Some [HeaderLine ["id"]];
                Chunked.printed := [] |}
             Samples.lookup Samples.main_all_mapped "id").
    + vm_compute. reflexivity.
    + vm_compute. reflexivity.
    + reflexivity.
    + reflexivity.
    + intros chunk df um Hc _. simpl in Hc.
      apply list_elem_of_singleton in Hc. subst chunk.
      vm_compute. intros [= _ <-]. reflexivity.
  - eexists. split; [vm_compute; reflexivity|].
    eapply (proj2 C2_report_when_nothing_unmapped (Some Samples.sheet)
              (Some Samples.main_all_mapped) (Some [HeaderLine ["stale"]])).
    + vm_compute. reflexivity.
    + reflexivity.
Defined.

(** ** C3: a blank cell *)

(** C3, as stated, fails on [code_5.py]: identifier 2 is NULL in [amt_x]
    and empty in [amt_y], and no row of the table of unmapped values, hence
    no line of the report, carries it. *)
Lemma C3_sql_blank_not_recorded :
  exists o,
    Sql.run (Some Samples.sheet) (Some Samples.main) None = Ok o
    /\ map (fun r => (Frame.get (columns (Sql.import Samples.main)) r "id",
                      Frame.get (columns (Sql.import Samples.main)) r "amt_x",
                      Frame.get (columns (Sql.import Samples.main)) r "amt_y"))
           (rows (Sql.import Samples.main))
       = [(Some "1", Some "5", Some "5"); (Some "7", Some "zz", Some "zz");
          (Some "2", None, Some ""); (Some "8", Some "5", Some "5")]
    /\ map Sql.original_id (Sql.unmapped_table o) = [Some "7"; Some "7"]
    /\ Sql.nans_file o
       = Some [HeaderLine ["original_id"; "original_value"; "column_name"];
               DataLine [Some "7"; Some "zz"; Some "amt_x"];
               DataLine [Some "7"; Some "zz"; Some "amt_y"]].
Proof. eexists. repeat split; reflexivity. Qed.

(** C3 (amended): a blank cell in each of the two scripts.  In
    [9_code_optimized.py], for a batch the column loop gets through, a
    target cell that is NaN or empty is left as it was and the identifier of
    its row is in the set of the batch, whatever the lookup frame holds.  In
    [code_5.py] no blank cell is recorded: every row of the table of
    unmapped values carries a value that is neither NULL nor empty; and a
    NULL cell stays NULL. *)
Theorem C3_blank_cell {RD : Rendering} :
  (forall (L : list (string * cell)) (amts : list string) (idc : string)
          (df df' : DataFrame) (um : gset cell) (i : nat) (r : list cell)
          (c : string),
     Chunked.process_chunk L amts idc df = Ok (df', um) ->
     NoDup amts ->
     rows df !! i = Some r ->
     c ∈ amts ->
     Frame.mem c (columns df) = true ->
     Chunked.isna_or_empty (Frame.get (columns df) r c) = true ->
     exists r', rows df' !! i = Some r'
       /\ Frame.get (columns df) r' c = Frame.get (columns df) r c
       /\ Frame.get (columns df) r idc ∈ um)
  /\
  (forall (mapping_file : option DataFrame) (main : CsvFile)
          (old_report : option file) (o : Sql.Outcome) (idc : string),
     Sql.run mapping_file (Some main) old_report = Ok o ->
     Resolver.pick_id (columns (Sql.import main)) = Ok idc ->
     NoDup (columns (Sql.import main)) ->
     Resolver.is_amt idc = false ->
     (forall u, u ∈ Sql.unmapped_table o ->
        exists s, Sql.original_value u = Some s /\ s <> "")
     /\ (forall i r c,
           rows (Sql.import main) !! i = Some r ->
           c ∈ columns (Sql.import main) ->
           Resolver.is_amt c = true ->
           Frame.get (columns (Sql.import main)) r c = None ->
           exists r', rows (Sql.final_table o) !! i = Some r'
             /\ Frame.get (columns (Sql.import main)) r' c = None)).
Proof.
  split.
  - intros L amts idc df df' um i r c Hrun Hnd Hr Hc Hm Hb.
    apply process_chunk_Ok in Hrun as (_ & _ & Hrow); [|done].
    destruct (Hrow i r Hr) as (r' & Hr' & _ & Hin & _).
    exists r'. split; [done|].
    destruct (Hin c Hc Hm) as [Hblank _]. by apply Hblank.
  - intros mf main old o idc Hrun Hpick Hnd Hidc.
    unfold Sql.run, mbind, result_bind in Hrun.
    destruct (Mapping.load mf) as [M|e]; [|done].
    cbv beta iota zeta in Hrun. rewrite Hpick in Hrun.
    remember (Sql.import main) as T eqn:HT. clear HT.
    remember (List.filter Resolver.is_amt (columns T)) as cs eqn:Hcs.
    destruct (fold_left (Sql.update_column M idc) cs (T, [])) as [T' U'] eqn:Hloop.
    injection Hrun as <-. simpl. subst cs.
    apply sql_columns_loop in Hloop as (_ & (V & -> & HV) & Hrow).
    2:{ by apply NoDup_List_filter. }
    2:{ intros c' Hc'. apply elem_of_List_filter in Hc' as [Hc' _]. by rewrite mem_true. }
    2:{ intros Hin. apply elem_of_List_filter in Hin as [_ Hin]. congruence. }
    split.
    + intros u Hu. simpl in Hu. destruct (HV u Hu) as [_ Hp].
      unfold Sql.is_unmapped in Hp. apply andb_true_iff in Hp as [Hp _].
      destruct (Sql.original_value u) as [s|]; [|done].
      exists s. split; [done|]. apply String.eqb_neq. by apply negb_true_iff.
    + intros i r c Hr Hc Hamt Hv.
      destruct (Hrow i r Hr) as (r' & Hr' & _ & Hin).
      exists r'. split; [done|].
      assert (Hcs : c ∈ List.filter Resolver.is_amt (columns T))
        by by apply elem_of_List_filter.
      destruct (Hin c Hcs) as (_ & Hmiss & _). rewrite Hv in Hmiss.
      by apply Hmiss.
Qed.

Lemma C3_blank_cell_witness :
  (Chunked.process_chunk [("amt_y_", Some "9")] Samples.amts "id" Samples.batch0
   = Ok (Samples.batch0_after_blank_key, Samples.batch0_unmapped_blank_key)
   /\ exists r', rows Samples.batch0_after_blank_key !! 2 = Some r'
        /\ Frame.get (columns Samples.batch0) r' "amt_y"
           = Frame.get (columns Samples.batch0)
               [Some "2"; None; Some ""; Some "c"] "amt_y"
        /\ Frame.get (columns Samples.batch0)
             [Some "2"; None; Some ""; Some "c"] "id"
           ∈ Samples.batch0_unmapped_blank_key)
  /\
  (exists o,
     Sql.run (Some Samples.sheet) (Some Samples.main) None = Ok o
     /\ (forall u, u ∈ Sql.unmapped_table o ->
           exists s, Sql.original_value u = Some s /\ s <> "")
     /\ (forall i r c,
           rows (Sql.import Samples.main) !! i = Some r ->
           c ∈ columns (Sql.import Samples.main) ->
           Resolver.is_amt c = true ->
           Frame.get (columns (Sql.import Samples.main)) r c = None ->
           exists r', rows (Sql.final_table o) !! i = Some r'
             /\ Frame.get (columns (Sql.import Samples.main)) r' c = None)).
Proof.
  split.
  - assert (H : Chunked.process_chunk [("amt_y_", Some "9")] Samples.amts "id"
                  Samples.batch0
                = Ok (Samples.batch0_after_blank_key,
                      Samples.batch0_unmapped_blank_key)).
    { vm_compute. reflexivity. }
    split; [exact H|].
    apply (proj1 C3_blank_cell [("amt_y_", Some "9")] Samples.amts "id"
             Samples.batch0 Samples.batch0_after_blank_key
             Samples.batch0_unmapped_blank_key 2
             [Some "2"; None; Some ""; Some "c"] "amt_y" H).
    + apply (bool_decide_unpack _). vm_compute. exact I.
    + reflexivity.
    + right. left.
    + reflexivity.
    + reflexivity.
  - eexists. split; [vm_compute; reflexivity|].
    eapply (proj2 C3_blank_cell (Some Samples.sheet) Samples.main None _ "id").
    + vm_compute. reflexivity.
    + reflexivity.
    + apply (bool_decide_unpack _). vm_compute. exact I.
    + reflexivity.
Defined.

(** ** C4: two mapping rows with one key *)



(** The lookup structure a sheet loads to: one entry per row, in order. *)
Lemma load_Ok (sheet : DataFrame) (M : list (string * cell)) :
  Mapping.load (Some sheet) = Ok M ->
  exists a c v,
    M = map (fun r =>
               (Mapping.composite_key
                  (Frame.get (map Text.sanitize (columns sheet)) r a)
                  (Frame.get (map Text.sanitize (columns sheet)) r c),
                Frame.get (map Text.sanitize (columns sheet)) r v))
            (rows sheet).
Proof.
  intros Hload. unfold Mapping.load in Hload.
  destruct (forallb _ _); [|done].
  destruct (find Mapping.is_amt_senf _) as [a|]; [|done].
  destruct (find Mapping.is_cat_no _) as [c|]; [|done].
  destruct (find Mapping.is_avg _) as [v|]; [|done].
  destruct (_ || _)%bool; [done|].
  injection Hload as <-. by exists a, c, v.
Qed.

(** A sheet in which one of the three columns cannot be found. *)
Lemma load_unresolved (sheet : DataFrame) :
  find Mapping.is_amt_senf (map Text.sanitize (columns sheet)) = None
  \/ find Mapping.is_cat_no (map Text.sanitize (columns sheet)) = None
  \/ find Mapping.is_avg (map Text.sanitize (columns sheet)) = None ->
  Mapping.load (Some sheet) = Err ValueError.
Proof.
  intros Hnone. unfold Mapping.load. cbv zeta.
  change (columns (Frame.clean_columns sheet))
    with (map Text.sanitize (columns sheet)).
  destruct (forallb _ _); [|done].
  destruct (find Mapping.is_amt_senf _) as [a|]; [|done].
  destruct (find Mapping.is_cat_no _) as [c|]; [|done].
  destruct (find Mapping.is_avg _) as [v|]; [|done].
  destruct Hnone as [?|[?|?]]; done.
Qed.





(** ** C5: cleaning a label twice *)

(** C5 fails on the code: cleaning the label [a___b] gives [a__b], and
    cleaning that gives [a_b].  The pass over the doubled underscores does
    not start again on what it has produced, so a run of three or more
    survives as two. *)
Theorem C5_sanitize_not_idempotent :
  Text.replace_double "a___b" = "a__b"
  /\ Text.sanitize "a___b" = "a__b"
  /\ Text.sanitize (Text.sanitize "a___b") = "a_b"
  /\ ~ (forall s, Text.sanitize (Text.sanitize s) = Text.sanitize s).
Proof.
  split; [reflexivity|]. split; [reflexivity|]. split; [reflexivity|].
  intros H. specialize (H "a___b"). vm_compute in H. discriminate.
Qed.

(** ** C6: an identifier in the report of a batch *)

(** C6, as stated, fails on [code_5.py]: identifier 7 misses in [amt_x] and
    in [amt_y], and the report lists it twice. *)
Lemma C6_sql_identifier_twice :
  exists o f,
    Sql.run (Some Samples.sheet) (Some Samples.main) None = Ok o
    /\ Sql.nans_file o = Some f
    /\ map (hd None) (data_lines f) = [Some "7"; Some "7"]
    /\ ~ NoDup (map (hd None) (data_lines f)).
Proof.
  do 2 eexists. split; [reflexivity|]. split; [reflexivity|].
  split; [reflexivity|]. simpl. intros H.
  apply NoDup_cons in H as [H _]. apply H. left.
Qed.

(** C6 (amended): in [9_code_optimized.py] the identifiers a batch adds to
    the report are pairwise distinct, and among them is the identifier of
    every row of the batch that has a blank or unmapped cell in a target
    column, however many such cells the row has.  In [code_5.py] the report
    has a line (identifier, value, column) for each cell with a value that
    misses, so a row missing in two target columns has two lines. *)
Theorem C6_identifier_once_per_batch {RD : Rendering} :
  (forall (w : Chunked.World) (L : list (string * cell)) (amts : list string)
          (id : string) (st st' : Chunked.State) (i : nat) (chunk : DataFrame),
     Chunked.body w L amts id st (i, chunk) = Ok st' ->
     Chunked.kept id chunk = true ->
     NoDup amts ->
     exists ids : list cell,
       NoDup ids
       /\ Chunked.nans_file st'
          = match ids with
            | [] => Chunked.nans_file st
            | _ :: _ =>
                Some ((if Chunked.is_first_unmapped_chunk st
                       then [HeaderLine [id]]
                       else default [] (Chunked.nans_file st))
                      ++ map (fun x => DataLine [x]) ids)
            end
       /\ forall r c,
            r ∈ rows chunk ->
            c ∈ amts ->
            Frame.mem c (columns (Frame.clean_columns chunk)) = true ->
            Chunked.is_unmapped L (columns (Frame.clean_columns chunk)) c r = true ->
            Frame.get (columns (Frame.clean_columns chunk)) r id ∈ ids)
  /\
  (forall (mapping_file : option DataFrame) (main : CsvFile)
          (old_report : option file) (o : Sql.Outcome)
          (M : list (string * cell)) (idc : string) (i : nat) (r : list cell)
          (c1 c2 : string),
     Sql.run mapping_file (Some main) old_report = Ok o ->
     Mapping.load mapping_file = Ok M ->
     Resolver.pick_id (columns (Sql.import main)) = Ok idc ->
     NoDup (columns (Sql.import main)) ->
     Resolver.is_amt idc = false ->
     rows (Sql.import main) !! i = Some r ->
     c1 ∈ columns (Sql.import main) -> Resolver.is_amt c1 = true ->
     c2 ∈ columns (Sql.import main) -> Resolver.is_amt c2 = true ->
     c1 <> c2 ->
     Sql.is_unmapped M c1 (Frame.get (columns (Sql.import main)) r c1) = true ->
     Sql.is_unmapped M c2 (Frame.get (columns (Sql.import main)) r c2) = true ->
     exists f,
       Sql.nans_file o = Some f
       /\ DataLine [Frame.get (columns (Sql.import main)) r idc;
                    Frame.get (columns (Sql.import main)) r c1; Some c1] ∈ f
       /\ DataLine [Frame.get (columns (Sql.import main)) r idc;
                    Frame.get (columns (Sql.import main)) r c2; Some c2] ∈ f).
Proof.
  split.
  - intros w L amts id st st' i chunk Hbody Hk Hnd.
    apply body_Ok in Hbody as [[Hk' _]|(_ & df & um & st0 & Hproc & Hflush & Hwrite)];
      [congruence|].
    exists (Chunked.list_of_set w i um). split; [apply NoDup_list_of_set|]. split.
    + apply write_chunk_Ok in Hwrite as (_ & _ & _ & -> & _).
      apply flush_unmapped_Ok in Hflush as (_ & _ & _ & [[-> ->]|(Hne & _ & _ & ->)]).
      * by rewrite (proj2 (list_of_set_nil w i ∅) eq_refl).
      * destruct (Chunked.list_of_set w i um) eqn:E; [|done].
        apply list_of_set_nil in E. done.
    + intros r c Hr Hc Hm Hun.
      apply process_chunk_Ok in Hproc as (_ & _ & Hrow); [|done].
      apply list_elem_of_lookup in Hr as [j Hj].
      destruct (Hrow j r Hj) as (r' & _ & _ & Hin & _).
      destruct (Hin c Hc Hm) as [Hblank Hval].
      apply elem_of_list_of_set. unfold Chunked.is_unmapped in Hun.
      destruct (Chunked.isna_or_empty _) eqn:Hb.
      * by apply Hblank.
      * simpl in Hun. apply bool_decide_eq_true in Hun.
        by apply Hval.
  - intros mf main old o M idc i r c1 c2 Hrun Hload Hpick Hnd Hidc Hr
      Hc1 Ha1 Hc2 Ha2 Hne Hu1 Hu2.
    unfold Sql.run, mbind, result_bind in Hrun.
    rewrite Hload in Hrun. cbv beta iota zeta in Hrun. rewrite Hpick in Hrun.
    remember (Sql.import main) as T eqn:HT. clear HT.
    remember (List.filter Resolver.is_amt (columns T)) as cs eqn:Hcs.
    destruct (fold_left (Sql.update_column M idc) cs (T, [])) as [T' U'] eqn:Hloop.
    injection Hrun as <-. simpl.
    assert (Hin1 : c1 ∈ cs) by (subst cs; by apply elem_of_List_filter).
    assert (Hin2 : c2 ∈ cs) by (subst cs; by apply elem_of_List_filter).
    apply sql_columns_loop in Hloop as (_ & _ & Hrow).
    2:{ subst cs. by apply NoDup_List_filter. }
    2:{ subst cs. intros c' Hc'. apply elem_of_List_filter in Hc' as [Hc' _].
        by rewrite mem_true. }
    2:{ subst cs. intros Hin. apply elem_of_List_filter in Hin as [_ Hin]. congruence. }
    destruct (Hrow i r Hr) as (r' & _ & _ & Hin).
    destruct (Hin c1 Hin1) as (_ & _ & Hrec1).
    destruct (Hin c2 Hin2) as (_ & _ & Hrec2).
    specialize (Hrec1 Hu1). specialize (Hrec2 Hu2).
    unfold Sql.export_unmapped.
    destruct cs as [|c0 cs]; [inversion Hin1|].
    destruct U' as [|u0 U']; [inversion Hrec1|].
    eexists. split; [done|].
    split; right; rewrite list_elem_of_In;
      [ apply (in_map (fun u => DataLine [Sql.original_id u; Sql.original_value u;
                                         Some (Sql.column_name u)]) _ _
                 (proj1 (list_elem_of_In _ _) Hrec1))
      | apply (in_map (fun u => DataLine [Sql.original_id u; Sql.original_value u;
                                         Some (Sql.column_name u)]) _ _
                 (proj1 (list_elem_of_In _ _) Hrec2)) ].
Qed.

Lemma C6_identifier_once_per_batch_witness :
  (exists st',
     Chunked.body (Samples.world Samples.sheet Samples.main) Samples.lookup
       Samples.amts "id" Chunked.initial (0, Samples.batch0) = Ok st'
     /\ exists ids : list cell,
          NoDup ids
          /\ Chunked.nans_file st'
             = match ids with
               | [] => Chunked.nans_file Chunked.initial
               | _ :: _ =>
                   Some ((if Chunked.is_first_unmapped_chunk Chunked.initial
                          then [HeaderLine ["id"]]
                          else default [] (Chunked.nans_file Chunked.initial))
                         ++ map (fun x => DataLine [x]) ids)
               end
          /\ forall r c,
               r ∈ rows Samples.batch0 ->
               c ∈ Samples.amts ->
               Frame.mem c (columns (Frame.clean_columns Samples.batch0)) = true ->
               Chunked.is_unmapped Samples.lookup
                 (columns (Frame.clean_columns Samples.batch0)) c r = true ->
               Frame.get (columns (Frame.clean_columns Samples.batch0)) r "id" ∈ ids)
  /\
  (exists o f,
     Sql.run (Some Samples.sheet) (Some Samples.main) None = Ok o
     /\ Sql.nans_file o = Some f
     /\ DataLine [Frame.get (columns (Sql.import Samples.main))
                    [Some "7"; Some "zz"; Some "zz"; Some "b"] "id";
                  Frame.get (columns (Sql.import Samples.main))
                    [Some "7"; Some "zz"; Some "zz"; Some "b"] "amt_x";
                  Some "amt_x"] ∈ f
     /\ DataLine [Frame.get (columns (Sql.import Samples.main))
                    [Some "7"; Some "zz"; Some "zz"; Some "b"] "id";
                  Frame.get (columns (Sql.import Samples.main))
                    [Some "7"; Some "zz"; Some "zz"; Some "b"] "amt_y";
                  Some "amt_y"] ∈ f).
Proof.
  split.
  - eexists. split; [vm_compute; reflexivity|].
    eapply (proj1 C6_identifier_once_per_batch
              (Samples.world Samples.sheet Samples.main) Samples.lookup
              Samples.amts "id" Chunked.initial _ 0 Samples.batch0).
    + vm_compute. reflexivity.
    + reflexivity.
    + apply (bool_decide_unpack _). vm_compute. exact I.
  - destruct (Sql.run (Some Samples.sheet) (Some Samples.main) None)
      as [o|e] eqn:Ho; [|vm_compute in Ho; discriminate].
    exists o.
    destruct (proj2 C6_identifier_once_per_batch (Some Samples.sheet) Samples.main
                None o Samples.lookup "id" 1
                [Some "7"; Some "zz"; Some "zz"; Some "b"] "amt_x" "amt_y")
      as (f & Hf & H1 & H2).
    + exact Ho.
    + vm_compute. reflexivity.
    + reflexivity.
    + apply (bool_decide_unpack _). vm_compute. exact I.
    + reflexivity.
    + reflexivity.
    + apply (bool_decide_unpack _). vm_compute. exact I.
    + reflexivity.
    + apply (bool_decide_unpack _). vm_compute. exact I.
    + reflexivity.
    + discriminate.
    + reflexivity.
    + reflexivity.
    + exists f. done.
Defined.

(** ** C7: the rows of the primary output *)



(** ** C8: which errors stop the run *)

(** The closing write leaves the flag of the report as it found it. *)
Lemma final_check_flag (w : Chunked.World) (id : string) (n : nat)
    (st1 st : Chunked.State) :
  Chunked.final_check w id n st1 = Ok st ->
  Chunked.is_first_unmapped_chunk st = Chunked.is_first_unmapped_chunk st1.
Proof.
  unfold Chunked.final_check, Chunked.write.
  destruct (Chunked.is_first_unmapped_chunk st1) eqn:E.
  - destruct (Chunked.can_write w Chunked.Report n); [|done].
    unfold mbind, result_bind. by intros [= <-].
  - by intros [= <-].
Qed.

(** C8: in [9_code_optimized.py] a batch without the identifier column is
    passed over with a diagnostic naming it, nothing else of the state
    changes, and the loop goes on with the next batch; a missing mapping
    sheet, mapping columns that cannot be found, a missing main file, any
    exception raised while a batch is transformed or written, and a
    refused closing write of the report end the run with that exception;
    and a run that returns has met no other error: every batch was either
    skipped for want of the identifier column or transformed and written,
    with every write it asked for granted, the closing write of the
    report included when no batch had sent anything to it. *)
Theorem C8_error_policy {RD : Rendering} :
  (forall (w : Chunked.World) (L : list (string * cell)) (amts : list string)
          (id : string) (st : Chunked.State) (i : nat) (chunk : DataFrame)
          (rest : list (nat * DataFrame)),
     Chunked.kept id chunk = false ->
     for_each (Chunked.body w L amts id) st ((i, chunk) :: rest)
     = for_each (Chunked.body w L amts id)
         (Chunked.say (Chunked.ErrorIdNotInChunk id (i + 1)) st) rest)
  /\ (forall w : Chunked.World,
        Chunked.mapping_file w = None -> Chunked.run w = Err FileNotFoundError)
  /\ (forall (w : Chunked.World) (sheet : DataFrame),
        Chunked.mapping_file w = Some sheet ->
        find Mapping.is_amt_senf (map Text.sanitize (columns sheet)) = None
        \/ find Mapping.is_cat_no (map Text.sanitize (columns sheet)) = None
        \/ find Mapping.is_avg (map Text.sanitize (columns sheet)) = None ->
        Chunked.run w = Err ValueError)
  /\ (forall (w : Chunked.World) (L : list (string * cell)),
        Mapping.load (Chunked.mapping_file w) = Ok L ->
        Chunked.main_file w = None ->
        Chunked.run w = Err FileNotFoundError)
  /\ (forall (w : Chunked.World) (L : list (string * cell)) (main : CsvFile)
             (id : string) (before after : list (nat * DataFrame))
             (ic : nat * DataFrame) (st1 : Chunked.State) (e : error),
        Mapping.load (Chunked.mapping_file w) = Ok L ->
        Chunked.main_file w = Some main ->
        Chunked.id_column_data main = Ok id ->
        Chunked.enumerate (batches main) = before ++ ic :: after ->
        for_each (Chunked.body w L (Chunked.amt_columns_header main) id)
          (fold_left (fun s m => Chunked.say m s)
             (Chunked.header_warnings main id) Chunked.initial) before = Ok st1 ->
        Chunked.body w L (Chunked.amt_columns_header main) id st1 ic = Err e ->
        Chunked.run w = Err e)
  /\ (forall (w : Chunked.World) (L : list (string * cell)) (main : CsvFile)
             (id : string) (st1 : Chunked.State),
        Mapping.load (Chunked.mapping_file w) = Ok L ->
        Chunked.main_file w = Some main ->
        Chunked.id_column_data main = Ok id ->
        for_each (Chunked.body w L (Chunked.amt_columns_header main) id)
          (fold_left (fun s m => Chunked.say m s)
             (Chunked.header_warnings main id) Chunked.initial)
          (Chunked.enumerate (batches main)) = Ok st1 ->
        Chunked.is_first_unmapped_chunk st1 = true ->
        Chunked.can_write w Chunked.Report (length (batches main)) = false ->
        Chunked.run w = Err OSError)
  /\ (forall (w : Chunked.World) (st : Chunked.State),
        Chunked.run w = Ok st ->
        exists L main id,
          Mapping.load (Chunked.mapping_file w) = Ok L
          /\ Chunked.main_file w = Some main
          /\ Chunked.id_column_data main = Ok id
          /\ (forall j chunk, batches main !! j = Some chunk ->
               (Chunked.kept id chunk = false
                /\ Chunked.ErrorIdNotInChunk id (j + 1) ∈ Chunked.printed st)
               \/ (Chunked.kept id chunk = true
                   /\ exists df um,
                        Chunked.process_chunk L (Chunked.amt_columns_header main) id
                          (Frame.clean_columns chunk) = Ok (df, um)
                        /\ Chunked.can_write w Chunked.Primary j = true
                        /\ (um <> ∅ -> Chunked.can_write w Chunked.Report j = true)))
          /\ (Chunked.is_first_unmapped_chunk st = true ->
              Chunked.can_write w Chunked.Report (length (batches main)) = true)).
Proof.
  split; [|split; [|split; [|split; [|split; [|split]]]]].
  - intros w L amts id st i chunk rest Hk.
    change (for_each (Chunked.body w L amts id) st ((i, chunk) :: rest))
      with (s' ← Chunked.body w L amts id st (i, chunk);
            for_each (Chunked.body w L amts id) s' rest).
    by rewrite (body_skip w L amts id st i chunk Hk).
  - intros w Hm. unfold Chunked.run. by rewrite Hm.
  - intros w sheet Hm Hnone. unfold Chunked.run.
    by rewrite Hm, (load_unresolved sheet Hnone).
  - intros w L HL Hmain. unfold Chunked.run. by rewrite HL, Hmain.
  - intros w L main id before after ic st1 e HL Hmain Hid Henum Hbefore Hbody.
    unfold Chunked.run. rewrite HL, Hmain. unfold mbind at 1 2, result_bind at 1 2.
    rewrite Hid. unfold mbind at 1, result_bind at 1.
    rewrite Henum, for_each_app, Hbefore. simpl.
    unfold mbind, result_bind. by rewrite Hbody.
  - intros w L main id st1 HL Hmain Hid Hloop Hfirst Hno.
    unfold Chunked.run. rewrite HL, Hmain. unfold mbind at 1 2, result_bind at 1 2.
    rewrite Hid. unfold mbind at 1, result_bind at 1.
    rewrite Hloop. unfold mbind at 1, result_bind at 1.
    unfold Chunked.final_check, Chunked.write. by rewrite Hfirst, Hno.
  - intros w st Hrun.
    apply run_Ok in Hrun
      as (L & main & id & st0 & st1 & HL & Hmain & Hid & Hst0 & Hloop & Hfinal).
    exists L, main, id. split; [done|]. split; [done|]. split; [done|].
    pose proof (final_check_flag _ _ _ _ _ Hfinal) as Hflag.
    apply final_check_Ok in Hfinal as (_ & Hpr & Hyes & _). split.
    + intros j chunk Hj. rewrite Hpr.
      unfold Chunked.enumerate in Hloop.
      apply (loop_each_batch w L _ id (batches main) 0 st0 st1 Hloop j chunk Hj).
    + intros Hf. rewrite Hflag in Hf. by destruct (Hyes Hf).
Qed.

(** On the samples: a batch whose labels do not hold the identifier, a
    sheet that is not there, a sheet without a column for the average, a
    main file that is not there, a sheet with a key borne twice, a closing
    write that is refused, and a run that returns. *)
Lemma C8_error_policy_witness :
  (for_each (Chunked.body (Samples.world Samples.sheet Samples.main_triple)
               Samples.lookup ["amt_x"] "a_b") Chunked.initial
     [(0, {| columns := ["a___b"; "amt_x"]; rows := [[Some "1"; Some "5"]] |})]
   = for_each (Chunked.body (Samples.world Samples.sheet Samples.main_triple)
                 Samples.lookup ["amt_x"] "a_b")
       (Chunked.say (Chunked.ErrorIdNotInChunk "a_b" (0 + 1)) Chunked.initial) [])
  /\ Chunked.run Samples.world_no_sheet = Err FileNotFoundError
  /\ Chunked.run (Samples.world Samples.sheet_no_avg Samples.main) = Err ValueError
  /\ Chunked.run (Samples.world_no_main Samples.sheet) = Err FileNotFoundError
  /\ Chunked.run (Samples.world Samples.sheet_dup Samples.main_all_mapped)
     = Err ValueError
  /\ Chunked.run (Samples.world_report_refused Samples.sheet Samples.main_all_mapped)
     = Err OSError
  /\ (exists st L main id,
        Chunked.run (Samples.world Samples.sheet Samples.main) = Ok st
        /\ Mapping.load (Chunked.mapping_file (Samples.world Samples.sheet Samples.main))
           = Ok L
        /\ Chunked.main_file (Samples.world Samples.sheet Samples.main) = Some main
        /\ Chunked.id_column_data main = Ok id
        /\ (forall j chunk, batches main !! j = Some chunk ->
             (Chunked.kept id chunk = false
              /\ Chunked.ErrorIdNotInChunk id (j + 1) ∈ Chunked.printed st)
             \/ (Chunked.kept id chunk = true
                 /\ exists df um,
                      Chunked.process_chunk L (Chunked.amt_columns_header main) id
                        (Frame.clean_columns chunk) = Ok (df, um)
                      /\ Chunked.can_write (Samples.world Samples.sheet Samples.main)
                           Chunked.Primary j = true
                      /\ (um <> ∅ ->
                          Chunked.can_write (Samples.world Samples.sheet Samples.main)
                            Chunked.Report j = true)))
        /\ (Chunked.is_first_unmapped_chunk st = true ->
            Chunked.can_write (Samples.world Samples.sheet Samples.main)
              Chunked.Report (length (batches main)) = true)).
Proof.
  destruct C8_error_policy as (Hskip & Hsheet & Hcols & Hmain & Hloop & Hlast & Hok).
  split; [|split; [|split; [|split; [|split; [|split]]]]].
  - apply (Hskip (Samples.world Samples.sheet Samples.main_triple) Samples.lookup
             ["amt_x"] "a_b" Chunked.initial 0
             {| columns := ["a___b"; "amt_x"]; rows := [[Some "1"; Some "5"]] |} []).
    reflexivity.
  - apply (Hsheet Samples.world_no_sheet). reflexivity.
  - apply (Hcols (Samples.world Samples.sheet_no_avg Samples.main)
             Samples.sheet_no_avg); [reflexivity|].
    right. right. reflexivity.
  - apply (Hmain (Samples.world_no_main Samples.sheet) Samples.lookup);
      [vm_compute|]; reflexivity.
  - apply (Hloop (Samples.world Samples.sheet_dup Samples.main_all_mapped)
             [("amt_x_5", Some "1.0"); ("amt_x_5", Some "2.0")]
             Samples.main_all_mapped "id" []
             [] (0, {| columns := ["id"; "amt_x"];
                       rows := [[Some "1"; Some "5"]; [Some "8"; Some "5"]] |})
             Chunked.initial ValueError).
    + vm_compute. reflexivity.
    + reflexivity.
    + reflexivity.
    + reflexivity.
    + reflexivity.
    + vm_compute. reflexivity.
  - apply (Hlast (Samples.world_report_refused Samples.sheet Samples.main_all_mapped)
             Samples.lookup Samples.main_all_mapped "id"
             {| Chunked.is_first_chunk := false;
                Chunked.is_first_unmapped_chunk := true;
                Chunked.output_file :=
                  Some [HeaderLine ["id"; "amt_x"];
                        DataLine [Some "1"; Some "10.2"];
                        DataLine [Some "8"; Some "10.2"]];
                Chunked.nans_file := None;
                Chunked.printed := [] |}).
    + vm_compute. reflexivity.
    + reflexivity.
    + reflexivity.
    + vm_compute. reflexivity.
    + reflexivity.
    + reflexivity.
  - destruct (Chunked.run (Samples.world Samples.sheet Samples.main))
      as [st|e] eqn:Hst; [|vm_compute in Hst; discriminate].
    exists st.
    destruct (Hok (Samples.world Samples.sheet Samples.main) st Hst)
      as (L & main & id & H1 & H2 & H3 & H4 & H5).
    exists L, main, id. split; [reflexivity|].
    split; [exact H1|]. split; [exact H2|]. split; [exact H3|].
    split; [exact H4 | exact H5].
Defined.

(** ** C9: the identifier column *)

(** [code_5.py] takes the identifier by the priority order as it stands. *)
Lemma pick_id_priority (cols : list string) :
  (Frame.mem "id" cols = true -> Resolver.pick_id cols = Ok "id")
  /\ (Frame.mem "id" cols = false -> Frame.mem "head_id" cols = true ->
        Resolver.pick_id cols = Ok "head_id")
  /\ (Frame.mem "id" cols = false -> Frame.mem "head_id" cols = false ->
        forall c rest, cols = c :: rest -> Resolver.pick_id cols = Ok c).
Proof.
  unfold Resolver.pick_id. split; [|split].
  - by intros ->.
  - by intros -> ->.
  - intros -> -> c rest ->. done.
Qed.

(** [9_code_optimized.py] cleans the label it picked once more. *)
Lemma id_column_data_cleaned (main : CsvFile) (c : string) :
  Resolver.pick_id (Chunked.all_data_cols main) = Ok c ->
  Chunked.id_column_data main = Ok (Text.sanitize c).
Proof. intros H. unfold Chunked.id_column_data. by rewrite H. Qed.

(** So the chunked script follows the priority order whenever the label it
    picks has no two underscores in a row. *)
Lemma id_column_data_priority (main : CsvFile) (c : string) :
  Resolver.pick_id (Chunked.all_data_cols main) = Ok c ->
  Text.contains "__" c = false ->
  Chunked.id_column_data main = Ok c.
Proof.
  intros Hpick Hd. rewrite (id_column_data_cleaned main c Hpick). f_equal.
  unfold Resolver.pick_id in Hpick.
  destruct (Frame.mem "id" _); [by injection Hpick as <-|].
  destruct (Frame.mem "head_id" _); [by injection Hpick as <-|].
  unfold Chunked.all_data_cols in *.
  destruct (header main) as [|h hs]; [done|].
  simpl in Hpick. injection Hpick as <-. by apply sanitize_twice.
Qed.

(** C9 fails on [9_code_optimized.py]: with the header [a___b, amt_x] the
    cleaned header is [a__b, amt_x], it holds neither [id] nor [head_id],
    its first column is [a__b], and the identifier the script goes on with
    is [a_b], which is no column at all; every batch is then skipped and
    the primary output is never written. *)
Theorem C9_identifier_not_first_column :
  Chunked.all_data_cols Samples.main_triple = ["a__b"; "amt_x"]
  /\ Resolver.pick_id (Chunked.all_data_cols Samples.main_triple) = Ok "a__b"
  /\ Chunked.id_column_data Samples.main_triple = Ok "a_b"
  /\ Frame.mem "a_b" (Chunked.all_data_cols Samples.main_triple) = false
  /\ Chunked.run (Samples.world Samples.sheet Samples.main_triple)
     = Ok {| Chunked.is_first_chunk := true;
             Chunked.is_first_unmapped_chunk := true;
             Chunked.output_file := None;
             Chunked.nans_file := Some [HeaderLine ["a_b"]];
             Chunked.printed := [Chunked.WarnIdNotInHeader "a_b";
                                 Chunked.ErrorIdNotInChunk "a_b" 1] |}.
Proof. repeat split; reflexivity. Qed.

(** ** C10: a mapping row with an absent key component *)

Lemma append_cons (x : ascii) (a b : string) :
  String x a +:+ b = String x (a +:+ b).
Proof. reflexivity. Qed.

Lemma append_assoc (a b c : string) : (a +:+ b) +:+ c = a +:+ b +:+ c.
Proof.
  induction a as [|x a IH]; [reflexivity|].
  rewrite !append_cons. by f_equal.
Qed.

Lemma append_empty_r (a : string) : a +:+ "" = a.
Proof.
  induction a as [|x a IH]; [reflexivity|].
  rewrite append_cons. by f_equal.
Qed.

(** A key whose sender code is absent begins with an underscore, and no
    composite key of a target column does. *)
Lemma absent_sender_never_matched (cat_no : cell) (col : string) (v : cell) :
  Resolver.is_amt col = true ->
  Mapping.composite_key None cat_no <> Chunked.composite_key col v.
Proof.
  unfold Resolver.is_amt, Mapping.composite_key, Chunked.composite_key.
  destruct col as [|x col]; [done|]. simpl.
  intros Ha Heq. injection Heq as Hx _. subst x. simpl in Ha. done.
Qed.

(** C10, as stated, fails for the rows without a sender code: in the
    degenerate sheet the rows (no sender, CAT1) and (no sender, no
    category) are keyed by [_CAT1] and [_], and no value of any target
    column has one of these keys in either script, the key of a value
    beginning with the name of its column. *)
Lemma C10_absent_sender_unmatched :
  Mapping.load (Some Samples.sheet_degenerate)
  = Ok [("_CAT1", Some "1.5"); ("amt_x_5_", Some "9.0"); ("_", Some "0.5")]
  /\ (forall (col : string) (v : cell),
        Resolver.is_amt col = true ->
        Chunked.composite_key col v <> "_CAT1"
        /\ Chunked.composite_key col v <> "_"
        /\ Sql.key col v <> Some "_CAT1"
        /\ Sql.key col v <> Some "_").
Proof.
  split; [reflexivity|]. intros col v Hamt.
  pose proof (absent_sender_never_matched (Some "CAT1") col v Hamt) as H1.
  pose proof (absent_sender_never_matched None col v Hamt) as H2.
  assert (Hk : forall k, Sql.key col v = Some k -> Chunked.composite_key col v = k).
  { intros k. destruct v as [s|]; [|done]. by intros [= <-]. }
  split; [by intros E; apply H1|]. split; [by intros E; apply H2|].
  split; intros E; apply Hk in E; [by apply H1 | by apply H2].
Qed.

(** C10 (amended): an absent sender code or category number reads as the
    empty string in the composite key, so the row is keyed by [_] and the
    other component, or by [_] alone, and no row of the sheet is left out
    of the lookup structure.  A key without category number can be met by
    the main data: the key of a row with sender code [col_s] and no
    category number is the key the value [s_] has in column [col], and the
    lookup of that value finds the row's average.  A key without sender
    code cannot: it begins with an underscore, and the key of a value of a
    target column begins with the name of the column. *)
Theorem C10_absent_key_component :
  (forall a c : string,
     Mapping.composite_key None (Some c) = "_" +:+ c
     /\ Mapping.composite_key (Some a) None = a +:+ "_"
     /\ Mapping.composite_key None None = "_")
  /\ (forall (sheet : DataFrame) (M : list (string * cell)),
        Mapping.load (Some sheet) = Ok M ->
        length M = length (rows sheet)
        /\ exists a c v,
             forall i r, rows sheet !! i = Some r ->
               M !! i
               = Some (Mapping.fillna (Frame.get (map Text.sanitize (columns sheet)) r a)
                       +:+ "_"
                       +:+ Mapping.fillna
                             (Frame.get (map Text.sanitize (columns sheet)) r c),
                       Frame.get (map Text.sanitize (columns sheet)) r v))
  /\ (forall (col s : string) (avg : cell),
        Mapping.composite_key (Some (col +:+ "_" +:+ s)) None
        = Chunked.composite_key col (Some (s +:+ "_"))
        /\ Chunked.lookup_rows
             [(Mapping.composite_key (Some (col +:+ "_" +:+ s)) None, avg)]
             (Chunked.composite_key col (Some (s +:+ "_")))
           = [avg]
        /\ Sql.scalar_subquery
             [(Mapping.composite_key (Some (col +:+ "_" +:+ s)) None, avg)]
             (Sql.key col (Some (s +:+ "_")))
           = avg)
  /\ (forall (cat_no : cell) (col : string) (v avg : cell),
        Resolver.is_amt col = true ->
        Chunked.composite_key col v <> Mapping.composite_key None cat_no
        /\ Chunked.lookup_rows [(Mapping.composite_key None cat_no, avg)]
             (Chunked.composite_key col v) = []
        /\ Sql.selected [(Mapping.composite_key None cat_no, avg)] (Sql.key col v)
           = []).
Proof.
  split; [|split; [|split]].
  - intros a c. unfold Mapping.composite_key. simpl.
    by rewrite append_empty_r.
  - intros sheet M Hload. apply load_Ok in Hload as (a & c & v & ->).
    split; [apply length_map|]. exists a, c, v. intros i r Hr.
    rewrite map_fmap, list_lookup_fmap, Hr. done.
  - intros col s avg.
    assert (Hkey : Mapping.composite_key (Some (col +:+ "_" +:+ s)) None
                   = Chunked.composite_key col (Some (s +:+ "_"))).
    { unfold Mapping.composite_key, Chunked.composite_key. simpl.
      apply (append_assoc col (String "_" s) "_"). }
    split; [done|]. split.
    + unfold Chunked.lookup_rows. simpl. rewrite Hkey.
      by rewrite String.eqb_refl.
    + unfold Sql.scalar_subquery, Sql.selected, Sql.key. simpl.
      unfold Chunked.composite_key in Hkey. simpl in Hkey. rewrite Hkey.
      by rewrite String.eqb_refl.
  - intros cat_no col v avg Hamt.
    pose proof (absent_sender_never_matched cat_no col v Hamt) as Hne.
    split; [by intros E; apply Hne|]. split.
    + unfold Chunked.lookup_rows. cbn [List.filter fst].
      destruct (String.eqb_spec (Mapping.composite_key None cat_no)
                  (Chunked.composite_key col v)); done.
    + destruct v as [s|]; [|done].
      unfold Sql.selected, Sql.key. cbn [fmap option_fmap option_map List.filter fst].
      change (col +:+ "_" +:+ s) with (Chunked.composite_key col (Some s)).
      destruct (String.eqb_spec (Mapping.composite_key None cat_no)
                  (Chunked.composite_key col (Some s))); done.
Qed.

(** The same on a run: the sheet row (amt_x_5, no category, 9.0) is keyed
    by [amt_x_5_], the rows with no sender code by [_CAT1] and [_], the
    value [5_] of column [amt_x] is replaced by 9.0 in both scripts, and it
    does not meet the key [_CAT1]. *)
Lemma C10_absent_key_component_witness :
  Mapping.load (Some Samples.sheet_degenerate)
  = Ok [("_CAT1", Some "1.5"); ("amt_x_5_", Some "9.0"); ("_", Some "0.5")]
  /\ (length [("_CAT1", Some "1.5"); ("amt_x_5_", Some "9.0"); ("_", Some "0.5")]
      = length (rows Samples.sheet_degenerate)
      /\ exists a c v,
           forall i r, rows Samples.sheet_degenerate !! i = Some r ->
             [("_CAT1", Some "1.5"); ("amt_x_5_", Some "9.0"); ("_", Some "0.5")] !! i
             = Some (Mapping.fillna
                       (Frame.get (map Text.sanitize (columns Samples.sheet_degenerate)) r a)
                     +:+ "_"
                     +:+ Mapping.fillna
                           (Frame.get (map Text.sanitize (columns Samples.sheet_degenerate)) r c),
                     Frame.get (map Text.sanitize (columns Samples.sheet_degenerate)) r v))
  /\ (Chunked.composite_key "amt_x" (Some "5_")
      <> Mapping.composite_key None (Some "CAT1")
      /\ Chunked.lookup_rows [(Mapping.composite_key None (Some "CAT1"), Some "1.5")]
           (Chunked.composite_key "amt_x" (Some "5_")) = []
      /\ Sql.selected [(Mapping.composite_key None (Some "CAT1"), Some "1.5")]
           (Sql.key "amt_x" (Some "5_")) = [])
  /\ (exists st,
        Chunked.run (Samples.world Samples.sheet_degenerate Samples.main_degenerate)
        = Ok st
        /\ Chunked.output_file st
           = Some [HeaderLine ["id"; "amt_x"]; DataLine [Some "1"; Some "9.0"]])
  /\ (exists o,
        Sql.run (Some Samples.sheet_degenerate) (Some Samples.main_degenerate) None
        = Ok o
        /\ rows (Sql.final_table o) = [[Some "1"; Some "9.0"]]).
Proof.
  assert (H : Mapping.load (Some Samples.sheet_degenerate)
              = Ok [("_CAT1", Some "1.5"); ("amt_x_5_", Some "9.0");
                    ("_", Some "0.5")]).
  { vm_compute. reflexivity. }
  split; [exact H|]. split; [|split].
  - apply (proj1 (proj2 C10_absent_key_component) Samples.sheet_degenerate _ H).
  - apply (proj2 (proj2 (proj2 C10_absent_key_component)) (Some "CAT1") "amt_x"
             (Some "5_") (Some "1.5")).
    reflexivity.
  - split; eexists; split; vm_compute; reflexivity.
Defined.

(** * Further properties of the two scripts *)

(** ** The cleaning of labels (lines 42-44, 99, 105, 128; [code_5.py] 49-51,
    115-117) *)

Lemma lstrip_fixed_start (s : string) :
  Text.lstrip s = s -> Text.startswith "_" s = false.
Proof.
  destruct s as [|c r]; [done|].
  change (Text.startswith "_" (String c r))
    with (Ascii.eqb "_" c && Text.startswith "" r)%bool.
  change (Text.lstrip (String c r))
    with (if Ascii.eqb c "_" then Text.lstrip r else String c r).
  rewrite (Ascii.eqb_sym "_" c).
  destruct (Ascii.eqb c "_"); [|done].
  intros H. pose proof (lstrip_length r) as Hlen. rewrite H in Hlen.
  simpl in Hlen. lia.
Qed.

(** X1: a cleaned label is made of letters, digits and underscores only,
    does not begin with an underscore and does not end with one (stripping
    its right end again changes nothing). *)
Theorem X1_sanitize_shape (s : string) :
  (forall c, In c (list_ascii_of_string (Text.sanitize s)) ->
     Text.is_word_char c = true)
  /\ Text.startswith "_" (Text.sanitize s) = false
  /\ Text.rstrip (Text.sanitize s) = Text.sanitize s.
Proof.
  split; [apply sanitize_word|]. split.
  - apply lstrip_fixed_start. unfold Text.sanitize, Text.strip.
    apply lstrip_rstrip_lstrip.
  - unfold Text.sanitize, Text.strip. apply rstrip_rstrip.
Qed.

(** X2: cleaning a label a second time leaves it as it is exactly when the
    once-cleaned label holds no two underscores in a row; the single pass of
    [str.replace('__', '_')] is what a second cleaning can still shorten. *)
Theorem X2_sanitize_twice_iff (s : string) :
  Text.sanitize (Text.sanitize s) = Text.sanitize s
  <-> Text.contains "__" (Text.sanitize s) = false.
Proof. apply sanitize_twice. Qed.

(** ** The mapping sheet (lines 46-67; [code_5.py] 53-69) *)

(** X4: the composite key does not tell where the sender code ends and the
    category number begins: moving a piece across the underscore gives the
    same key; and likewise for the key a main-data value is looked up with,
    between the column name and the value. *)
Theorem X4_composite_key_ambiguous (a b c : string) :
  Mapping.composite_key (Some (a +:+ "_" +:+ b)) (Some c)
  = Mapping.composite_key (Some a) (Some (b +:+ "_" +:+ c))
  /\ Chunked.composite_key (a +:+ "_" +:+ b) (Some c)
     = Chunked.composite_key a (Some (b +:+ "_" +:+ c))
  /\ Sql.key (a +:+ "_" +:+ b) (Some c) = Sql.key a (Some (b +:+ "_" +:+ c)).
Proof.
  unfold Mapping.composite_key, Chunked.composite_key, Sql.key, Mapping.fillna.
  simpl. rewrite !(append_assoc a _ _). rewrite !append_cons. done.
Qed.

(** ** The column loop (lines 137-210; [code_5.py] 185-230) *)

Lemma for_each_columns_other {RD : Rendering} (L : list (string * cell)) (idc : string)
    (cs : list string) :
  forall (df df' : DataFrame) (um um' : gset cell),
  for_each (Chunked.process_column L idc) (df, um) cs = Ok (df', um') ->
  forall i r, rows df !! i = Some r ->
    exists r', rows df' !! i = Some r'
      /\ forall c, c ∉ cs -> Frame.get (columns df) r' c = Frame.get (columns df) r c.
Proof.
  induction cs as [|c cs IH]; intros df df' um um' Hrun i r Hr.
  - simpl in Hrun. injection Hrun as <- <-. eauto.
  - simpl in Hrun. unfold mbind, result_bind in Hrun.
    destruct (Chunked.process_column L idc (df, um) c) as [[df1 um1]|e] eqn:Hstep;
      [|done].
    apply process_column_Ok in Hstep as (_ & Hcols1 & Hrows1 & _ & _).
    assert (Hr1 : rows df1 !! i = Some (Chunked.mapped_row L (columns df) c
                                     (Chunked.has_nan L (columns df) c (rows df)) r)).
    { rewrite Hrows1, map_fmap, list_lookup_fmap, Hr. done. }
    destruct (IH df1 df' um1 um' Hrun i _ Hr1) as (r' & Hr' & Hother).
    exists r'. split; [done|]. intros c' Hc'.
    apply not_elem_of_cons in Hc' as [Hne Hc'].
    rewrite Hcols1 in Hother. rewrite (Hother c' Hc').
    by apply mapped_row_other.
Qed.

Lemma sql_columns_other {RD : Rendering}
    (M : list (string * cell)) (idc : string) (cs : list string) :
  forall (T T' : DataFrame) (U U' : list Sql.unmapped_row),
  fold_left (Sql.update_column M idc) cs (T, U) = (T', U') ->
  columns T' = columns T
  /\ length (rows T') = length (rows T)
  /\ forall i r, rows T !! i = Some r ->
       exists r', rows T' !! i = Some r'
         /\ forall c, c ∉ cs -> Frame.get (columns T) r' c = Frame.get (columns T) r c.
Proof.
  induction cs as [|c cs IH]; intros T T' U U' Hrun.
  - simpl in Hrun. injection Hrun as <- <-. eauto.
  - simpl in Hrun. unfold Sql.update_column at 2 in Hrun. simpl in Hrun.
    apply IH in Hrun as (Hcols & Hlen & Hrow). simpl in Hcols, Hlen, Hrow.
    split; [done|]. split; [by rewrite Hlen, length_map|].
    intros i r Hr.
    assert (Hr1 : map (Sql.update_row M (columns T) c) (rows T) !! i
                  = Some (Sql.update_row M (columns T) c r)).
    { rewrite map_fmap, list_lookup_fmap, Hr. done. }
    destruct (Hrow i _ Hr1) as (r' & Hr' & Hother).
    exists r'. split; [done|]. intros c' Hc'.
    apply not_elem_of_cons in Hc' as [Hne Hc'].
    rewrite (Hother c' Hc'). by apply sql_update_row_other.
Qed.

Lemma sql_run_Ok {RD : Rendering}
    (mapping_file : option DataFrame) (main_file : option CsvFile)
    (old_report : option file) (o : Sql.Outcome) :
  Sql.run mapping_file main_file old_report = Ok o ->
  exists M main idc,
    Mapping.load mapping_file = Ok M
    /\ main_file = Some main
    /\ Resolver.pick_id (columns (Sql.import main)) = Ok idc
    /\ fold_left (Sql.update_column M idc)
         (List.filter Resolver.is_amt (columns (Sql.import main)))
         (Sql.import main, [])
       = (Sql.final_table o, Sql.unmapped_table o)
    /\ Sql.output_file o = Sql.export_final idc (Sql.final_table o)
    /\ Sql.nans_file o
       = Sql.export_unmapped
           (List.filter Resolver.is_amt (columns (Sql.import main)))
           (Sql.unmapped_table o) old_report.
Proof.
  unfold Sql.run, mbind, result_bind. intros Hrun.
  destruct (Mapping.load mapping_file) as [M|] eqn:HM; [|done].
  destruct main_file as [main|]; [|done]. cbv beta iota zeta in Hrun.
  destruct (Resolver.pick_id _) as [idc|] eqn:Hid; [|done].
  injection Hrun as <-. exists M, main, idc. simpl.
  repeat split; try done. by destruct (fold_left _ _ _).
Qed.

(** X5: neither script touches a cell outside the target columns: in a
    batch the column loop of [9_code_optimized.py] gets through, and in the
    table [code_5.py] ends with, every row is still there at its place and
    holds, in each column whose name does not begin with [amt_], the value
    it came with. *)
Theorem X5_other_columns_untouched {RD : Rendering} :
  (forall (L : list (string * cell)) (main : CsvFile) (idc : string)
          (df df' : DataFrame) (um : gset cell) (i : nat) (r : list cell),
     Chunked.process_chunk L (Chunked.amt_columns_header main) idc df
     = Ok (df', um) ->
     rows df !! i = Some r ->
     exists r', rows df' !! i = Some r'
       /\ forall c, Resolver.is_amt c = false ->
            Frame.get (columns df) r' c = Frame.get (columns df) r c)
  /\
  (forall (mapping_file : option DataFrame) (main : CsvFile)
          (old_report : option file) (o : Sql.Outcome) (i : nat) (r : list cell),
     Sql.run mapping_file (Some main) old_report = Ok o ->
     rows (Sql.import main) !! i = Some r ->
     exists r', rows (Sql.final_table o) !! i = Some r'
       /\ forall c, Resolver.is_amt c = false ->
            Frame.get (columns (Sql.import main)) r' c
            = Frame.get (columns (Sql.import main)) r c).
Proof.
  split.
  - intros L main idc df df' um i r Hrun Hr. unfold Chunked.process_chunk in Hrun.
    destruct (for_each_columns_other _ _ _ _ _ _ _ Hrun i r Hr) as (r' & Hr' & Ho).
    exists r'. split; [done|]. intros c Hc. apply Ho. intros Hin.
    apply elem_of_List_filter in Hin as [Hin _].
    unfold Chunked.amt_columns_header in Hin.
    apply elem_of_List_filter in Hin as [_ Hin]. congruence.
  - intros mf main old o i r Hrun Hr.
    apply sql_run_Ok in Hrun as (M & main' & idc & _ & [= <-] & _ & Hloop & _).
    apply sql_columns_other in Hloop as (_ & _ & Hrow).
    destruct (Hrow i r Hr) as (r' & Hr' & Ho).
    exists r'. split; [done|]. intros c Hc. apply Ho. intros Hin.
    apply elem_of_List_filter in Hin as [_ Hin]. congruence.
Qed.

Lemma X5_other_columns_untouched_witness :
  (exists r', rows Samples.batch0_after !! 1 = Some r'
     /\ forall c, Resolver.is_amt c = false ->
          Frame.get (columns Samples.batch0) r' c
          = Frame.get (columns Samples.batch0)
              [Some "7"; Some "zz"; Some "zz"; Some "b"] c)
  /\ (exists o,
        Sql.run (Some Samples.sheet) (Some Samples.main) None = Ok o
        /\ exists r', rows (Sql.final_table o) !! 0 = Some r'
             /\ forall c, Resolver.is_amt c = false ->
                  Frame.get (columns (Sql.import Samples.main)) r' c
                  = Frame.get (columns (Sql.import Samples.main))
                      [Some "1"; Some "5"; Some "5"; Some "a"] c).
Proof.
  split.
  - apply (proj1 X5_other_columns_untouched Samples.lookup Samples.main "id"
             Samples.batch0 Samples.batch0_after Samples.batch0_unmapped 1
             [Some "7"; Some "zz"; Some "zz"; Some "b"]).
    + vm_compute. reflexivity.
    + reflexivity.
  - destruct (Sql.run (Some Samples.sheet) (Some Samples.main) None)
      as [o|e] eqn:Ho; [|vm_compute in Ho; discriminate].
    exists o. split; [reflexivity|].
    apply (proj2 X5_other_columns_untouched (Some Samples.sheet) Samples.main
             None o 0 [Some "1"; Some "5"; Some "5"; Some "a"] Ho).
    reflexivity.
Defined.

Lemma is_unmapped_other {RD : Rendering} (L : list (string * cell))
    (cols : list string) (c c' : string) (nan : bool) (r : list cell) :
  c <> c' ->
  Chunked.is_unmapped L cols c' (Chunked.mapped_row L cols c nan r)
  = Chunked.is_unmapped L cols c' r.
Proof.
  intros Hne. unfold Chunked.is_unmapped. by rewrite mapped_row_other.
Qed.

Lemma for_each_columns_only {RD : Rendering} (L : list (string * cell)) (idc : string)
    (cs : list string) :
  forall (df df' : DataFrame) (um um' : gset cell),
  for_each (Chunked.process_column L idc) (df, um) cs = Ok (df', um') ->
  NoDup cs ->
  forall x, x ∈ um' ->
    x ∈ um
    \/ exists r c, r ∈ rows df /\ c ∈ cs
         /\ Chunked.is_unmapped L (columns df) c r = true
         /\ Frame.get (columns df) r idc = x.
Proof.
  induction cs as [|c cs IH]; intros df df' um um' Hrun Hnd x Hx.
  - simpl in Hrun. injection Hrun as <- <-. by left.
  - simpl in Hrun. unfold mbind, result_bind in Hrun.
    destruct (Chunked.process_column L idc (df, um) c) as [[df1 um1]|e] eqn:Hstep;
      [|done].
    apply process_column_Ok in Hstep as (Hid & Hcols1 & Hrows1 & _ & Hum1).
    apply NoDup_cons in Hnd as [Hc Hnd].
    destruct (IH df1 df' um1 um' Hrun Hnd x Hx) as [Hx1|(r1 & c' & Hr1 & Hc' & Hun & Hg)].
    + apply Hum1 in Hx1 as [?|[_ (r & Hr & Hun & Hg)]]; [by left|].
      right. exists r, c. split; [done|]. split; [left|]. done.
    + right. rewrite Hrows1, list_elem_of_In, in_map_iff in Hr1.
      destruct Hr1 as (r & <- & Hr). rewrite <- list_elem_of_In in Hr.
      assert (Hne : rows df <> []) by (intros E; rewrite E in Hr; inversion Hr).
      assert (Hcc : c <> c') by (intros ->; done).
      rewrite Hcols1 in Hun, Hg.
      rewrite is_unmapped_other in Hun by done.
      rewrite mapped_row_other in Hg by (intros ->; by apply Hid).
      exists r, c'. split; [done|]. split; [by right|]. done.
Qed.

(** X6: the set of a batch holds the identifiers of the rows with a blank
    or unmapped cell in a target column, and nothing else: an identifier is
    in the set exactly when some row of the batch carrying it has, in some
    target column of the batch, a cell that is NaN or empty, or whose key
    has no row, or only a NaN average, in the lookup frame. *)
Theorem X6_unmapped_set_exact {RD : Rendering}
    (L : list (string * cell)) (amts : list string)
    (idc : string) (df df' : DataFrame) (um : gset cell) (x : cell) :
  Chunked.process_chunk L amts idc df = Ok (df', um) ->
  NoDup amts ->
  x ∈ um
  <-> exists r c, r ∈ rows df /\ c ∈ amts
        /\ Frame.mem c (columns df) = true
        /\ Chunked.is_unmapped L (columns df) c r = true
        /\ Frame.get (columns df) r idc = x.
Proof.
  intros Hrun Hnd. split.
  - intros Hx. unfold Chunked.process_chunk in Hrun.
    apply for_each_columns_only with (x := x) in Hrun
      as [Hx0|(r & c & Hr & Hc & Hun & Hg)];
      [inversion Hx0 | | by apply NoDup_List_filter | done].
    apply elem_of_List_filter in Hc as [Hc Hm]. by exists r, c.
  - intros (r & c & Hr & Hc & Hm & Hun & <-).
    apply process_chunk_Ok in Hrun as (_ & _ & Hrow); [|done].
    apply list_elem_of_lookup in Hr as [j Hj].
    destruct (Hrow j r Hj) as (r' & _ & _ & Hin & _).
    destruct (Hin c Hc Hm) as [Hblank Hval].
    unfold Chunked.is_unmapped in Hun.
    destruct (Chunked.isna_or_empty _) eqn:Hb; [by apply Hblank|].
    simpl in Hun. apply bool_decide_eq_true in Hun. by apply Hval.
Qed.

Lemma X6_unmapped_set_exact_witness :
  Some "7" ∈ Samples.batch0_unmapped
  <-> exists r c, r ∈ rows Samples.batch0 /\ c ∈ Samples.amts
        /\ Frame.mem c (columns Samples.batch0) = true
        /\ Chunked.is_unmapped Samples.lookup (columns Samples.batch0) c r = true
        /\ Frame.get (columns Samples.batch0) r "id" = Some "7".
Proof.
  apply (X6_unmapped_set_exact Samples.lookup Samples.amts "id" Samples.batch0
           Samples.batch0_after Samples.batch0_unmapped (Some "7")).
  - vm_compute. reflexivity.
  - apply (bool_decide_unpack _). vm_compute. exact I.
Defined.

(** ** Writing a batch (lines 216-252) *)

(** X7: moving the identifier column to the front loses nothing: the
    identifier is the first column afterwards, the columns are the same
    ones, every row is still at its place, and every column of every row
    holds, under its name, the value it held before. *)
Theorem X7_id_first_keeps_cells (id : string) (df : DataFrame) :
  Frame.mem id (columns df) = true ->
  head (columns (Chunked.id_first id df)) = Some id
  /\ (forall c, c ∈ columns (Chunked.id_first id df) <-> c ∈ columns df)
  /\ length (rows (Chunked.id_first id df)) = length (rows df)
  /\ forall i r c, rows df !! i = Some r -> c ∈ columns df ->
       exists r', rows (Chunked.id_first id df) !! i = Some r'
         /\ Frame.get (columns (Chunked.id_first id df)) r' c
            = Frame.get (columns df) r c.
Proof.
  intros Hm. unfold Chunked.id_first. rewrite Hm. cbn [andb].
  case_bool_decide as Hhd; cbn [negb].
  - split; [done|]. split; [done|]. split; [done|]. intros i r c Hr _. eauto.
  - assert (Hid : id ∈ columns df) by by apply mem_true.
    assert (Hcols : forall c,
      c ∈ id :: List.filter (fun col => negb (String.eqb col id)) (columns df)
      <-> c ∈ columns df).
    { intros c. rewrite elem_of_cons, elem_of_List_filter. split.
      - intros [->|[Hc _]]; done.
      - intros Hc. destruct (String.eqb_spec c id) as [|Hne]; [by left|].
        right. by split. }
    cbn [Frame.select columns rows]. split; [|split; [|split]].
    + cbn [flat_map].
      by destruct (positions_member id (columns df) Hid) as (j & js & -> & _).
    + intros c. rewrite elem_of_select_columns, Hcols. tauto.
    + apply length_map.
    + intros i r c Hr Hc. eexists. split.
      * rewrite map_fmap, list_lookup_fmap, Hr. done.
      * apply (get_select (columns df)
                 (id :: List.filter (fun col => negb (String.eqb col id)) (columns df)));
          [by apply Hcols | done].
Qed.

Lemma X7_id_first_keeps_cells_witness :
  head (columns (Chunked.id_first "id"
                   {| columns := ["amt_x"; "id"; "note"];
                      rows := [[Some "5"; Some "1"; Some "a"]] |})) = Some "id"
  /\ (forall c,
        c ∈ columns (Chunked.id_first "id"
                       {| columns := ["amt_x"; "id"; "note"];
                          rows := [[Some "5"; Some "1"; Some "a"]] |})
        <-> c ∈ ["amt_x"; "id"; "note"])
  /\ length (rows (Chunked.id_first "id"
                     {| columns := ["amt_x"; "id"; "note"];
                        rows := [[Some "5"; Some "1"; Some "a"]] |}))
     = length [[Some "5"; Some "1"; Some "a"]]
  /\ forall i r c,
       [[Some "5"; Some "1"; Some "a"]] !! i = Some r ->
       c ∈ ["amt_x"; "id"; "note"] ->
       exists r',
         rows (Chunked.id_first "id"
                 {| columns := ["amt_x"; "id"; "note"];
                    rows := [[Some "5"; Some "1"; Some "a"]] |}) !! i = Some r'
         /\ Frame.get
              (columns (Chunked.id_first "id"
                          {| columns := ["amt_x"; "id"; "note"];
                             rows := [[Some "5"; Some "1"; Some "a"]] |})) r' c
            = Frame.get ["amt_x"; "id"; "note"] r c.
Proof.
  apply (X7_id_first_keeps_cells "id"
           {| columns := ["amt_x"; "id"; "note"];
              rows := [[Some "5"; Some "1"; Some "a"]] |}).
  reflexivity.
Defined.

Lemma id_first_columns (id : string) (df df' : DataFrame) :
  columns df' = columns df ->
  columns (Chunked.id_first id df') = columns (Chunked.id_first id df).
Proof.
  intros Hcols. unfold Chunked.id_first. rewrite Hcols.
  destruct (Frame.mem id (columns df)
            && negb (bool_decide (head (columns df) = Some id)))%bool; [|done].
  cbn [Frame.select columns]. by rewrite Hcols.
Qed.

Lemma id_first_head (id : string) (df : DataFrame) :
  Frame.mem id (columns df) = true ->
  head (columns (Chunked.id_first id df)) = Some id.
Proof.
  intros Hm. unfold Chunked.id_first. rewrite Hm. cbn [andb].
  case_bool_decide; cbn [negb]; [done|].
  cbn [Frame.select columns flat_map]. apply mem_true in Hm.
  by destruct (positions_member id (columns df) Hm) as (j & js & -> & _).
Qed.

(** The header line of the primary output through the loop: written by the
    first batch that is not skipped, and by no other. *)
Lemma loop_header {RD : Rendering} (w : Chunked.World) (L : list (string * cell))
    (amts : list string) (id : string) (ics : list (nat * DataFrame)) :
  forall st st' : Chunked.State,
  for_each (Chunked.body w L amts id) st ics = Ok st' ->
  (Chunked.is_first_chunk st = true ->
   Chunked.output_file st = None ->
   match List.filter (Chunked.kept id) (map snd ics) with
   | [] => Chunked.is_first_chunk st' = true /\ Chunked.output_file st' = None
   | chunk :: _ =>
       Chunked.is_first_chunk st' = false
       /\ exists lines,
            Chunked.output_file st'
            = Some (HeaderLine (columns (Chunked.id_first id (Frame.clean_columns chunk)))
                    :: map DataLine lines)
   end)
  /\ (Chunked.is_first_chunk st = false ->
      forall h lines,
        Chunked.output_file st = Some (HeaderLine h :: map DataLine lines) ->
        Chunked.is_first_chunk st' = false
        /\ exists lines',
             Chunked.output_file st' = Some (HeaderLine h :: map DataLine lines')).
Proof.
  induction ics as [|[i chunk] ics IH]; intros st st' Hrun.
  - simpl in Hrun. injection Hrun as <-. simpl. split; [done|].
    intros Hf h lines Ho. split; [done|]. by exists lines.
  - simpl in Hrun. unfold mbind, result_bind in Hrun.
    destruct (Chunked.body w L amts id st (i, chunk)) as [st1|e] eqn:Hbody; [|done].
    destruct (IH st1 st' Hrun) as [IHfirst IHlater]. simpl.
    apply body_Ok in Hbody as [[Hk ->]|(Hk & df & um & st0 & Hproc & Hflush & Hwrite)].
    + rewrite Hk. split; [apply IHfirst | apply IHlater].
    + rewrite Hk.
      apply flush_unmapped_Ok in Hflush as (Hfc & Hof & _ & _).
      apply write_chunk_Ok in Hwrite as (_ & Hfc1 & _ & _ & _ & Hout).
      rewrite Hfc, Hof in Hout.
      apply process_chunk_ids in Hproc as [Hcols _].
      split.
      * intros Hfirst Hnone. rewrite Hfirst in Hout.
        unfold Frame.to_csv_w in Hout.
        rewrite (id_first_columns id _ _ Hcols) in Hout.
        rewrite <- (map_map (Frame.csv_row (Chunked.id_first id df)) DataLine) in Hout.
        apply (IHlater Hfc1 _ _ Hout).
      * intros Hfirst h lines Ho. rewrite Hfirst, Ho in Hout.
        unfold Frame.to_csv_a in Hout. simpl in Hout.
        rewrite <- (map_map (Frame.csv_row (Chunked.id_first id df)) DataLine),
          <- map_app in Hout.
        apply (IHlater Hfc1 _ _ Hout).
Qed.

(** X8: the primary output of a run that returns starts with one header
    line, written for the first batch that has the identifier column, with
    the identifier as its first name; every other line is a data line; and
    there is no file at all when no batch has the identifier column. *)
Theorem X8_output_header_once {RD : Rendering} (w : Chunked.World) (st : Chunked.State)
    (main : CsvFile) (id : string) :
  Chunked.run w = Ok st ->
  Chunked.main_file w = Some main ->
  Chunked.id_column_data main = Ok id ->
  match List.filter (Chunked.kept id) (batches main) with
  | [] => Chunked.output_file st = None
  | chunk :: _ =>
      exists names lines,
        Chunked.output_file st = Some (HeaderLine (id :: names) :: map DataLine lines)
        /\ id :: names = columns (Chunked.id_first id (Frame.clean_columns chunk))
  end.
Proof.
  intros Hrun Hmain Hid.
  apply run_Ok in Hrun
    as (L & main' & id' & st0 & st1 & _ & Hmain' & Hid' & Hst0 & Hloop & Hfinal).
  rewrite Hmain in Hmain'. injection Hmain' as <-.
  rewrite Hid in Hid'. injection Hid' as <-.
  destruct (say_files (Chunked.header_warnings main id) Chunked.initial)
    as (Hf0 & _ & Hout0 & _).
  rewrite <- Hst0 in Hf0, Hout0. simpl in Hf0, Hout0.
  apply loop_header in Hloop as [Hfirst _].
  specialize (Hfirst Hf0 Hout0). rewrite snd_enumerate in Hfirst.
  apply final_check_Ok in Hfinal as (Hout & _). rewrite Hout.
  destruct (List.filter (Chunked.kept id) (batches main)) as [|chunk rest] eqn:E.
  - by destruct Hfirst.
  - destruct Hfirst as [_ [lines Hlines]].
    assert (Hk : Chunked.kept id chunk = true).
    { assert (Hin : chunk ∈ List.filter (Chunked.kept id) (batches main))
        by (rewrite E; left).
      by apply elem_of_List_filter in Hin as [_ Hin]. }
    pose proof (id_first_head id (Frame.clean_columns chunk) Hk) as Hhead.
    destruct (columns (Chunked.id_first id (Frame.clean_columns chunk)))
      as [|c names] eqn:Ec; [done|].
    simpl in Hhead. injection Hhead as ->.
    by exists names, lines.
Qed.

Lemma X8_output_header_once_witness :
  match List.filter (Chunked.kept "id") (batches Samples.main) with
  | [] =>
      Chunked.output_file
        {| Chunked.is_first_chunk := false;
           Chunked.is_first_unmapped_chunk := false;
           Chunked.output_file :=
             Some [HeaderLine ["id"; "amt_x"; "amt_y"; "note"];
                   DataLine [Some "1"; Some "10.2"; Some "3.5"; Some "a"];
                   DataLine [Some "7"; None; None; Some "b"];
                   DataLine [Some "2"; None; Some ""; Some "c"];
                   DataLine [Some "8"; Some "10.2"; Some "3.5"; Some "d"]];
           Chunked.nans_file :=
             Some [HeaderLine ["id"]; DataLine [Some "2"]; DataLine [Some "7"]];
           Chunked.printed := [] |} = None
  | chunk :: _ =>
      exists names lines,
        Chunked.output_file
          {| Chunked.is_first_chunk := false;
             Chunked.is_first_unmapped_chunk := false;
             Chunked.output_file :=
               Some [HeaderLine ["id"; "amt_x"; "amt_y"; "note"];
                     DataLine [Some "1"; Some "10.2"; Some "3.5"; Some "a"];
                     DataLine [Some "7"; None; None; Some "b"];
                     DataLine [Some "2"; None; Some ""; Some "c"];
                     DataLine [Some "8"; Some "10.2"; Some "3.5"; Some "d"]];
             Chunked.nans_file :=
               Some [HeaderLine ["id"]; DataLine [Some "2"]; DataLine [Some "7"]];
             Chunked.printed := [] |}
        = Some (HeaderLine ("id" :: names) :: map DataLine lines)
        /\ "id" :: names = columns (Chunked.id_first "id" (Frame.clean_columns chunk))
  end.
Proof.
  apply (X8_output_header_once (Samples.world Samples.sheet Samples.main) _
           Samples.main "id").
  - vm_compute. reflexivity.
  - reflexivity.
  - reflexivity.
Defined.

(** The report through the loop: the header line goes in with the first
    set that is not empty, and every set after it is appended. *)
Lemma loop_report {RD : Rendering} (w : Chunked.World) (L : list (string * cell))
    (amts : list string) (id : string) (ics : list (nat * DataFrame)) :
  forall st st' : Chunked.State,
  for_each (Chunked.body w L amts id) st ics = Ok st' ->
  (Chunked.is_first_unmapped_chunk st = true ->
   Chunked.nans_file st = None ->
   match Chunked.reported w L amts id ics with
   | [] => Chunked.is_first_unmapped_chunk st' = true
           /\ Chunked.nans_file st' = None
   | x :: ids =>
       Chunked.is_first_unmapped_chunk st' = false
       /\ Chunked.nans_file st'
          = Some (HeaderLine [id] :: map (fun x => DataLine [x]) (x :: ids))
   end)
  /\ (Chunked.is_first_unmapped_chunk st = false ->
      forall ids,
        Chunked.nans_file st
        = Some (HeaderLine [id] :: map (fun x => DataLine [x]) ids) ->
        Chunked.is_first_unmapped_chunk st' = false
        /\ Chunked.nans_file st'
           = Some (HeaderLine [id]
                   :: map (fun x => DataLine [x])
                        (ids ++ Chunked.reported w L amts id ics))).
Proof.
  induction ics as [|[i chunk] ics IH]; intros st st' Hrun.
  - simpl in Hrun. injection Hrun as <-. simpl. split; [done|].
    intros Hf ids Hn. by rewrite app_nil_r.
  - simpl in Hrun. unfold mbind, result_bind in Hrun.
    destruct (Chunked.body w L amts id st (i, chunk)) as [st1|e] eqn:Hbody; [|done].
    destruct (IH st1 st' Hrun) as [IHfirst IHlater].
    unfold Chunked.reported in *. cbn [List.filter snd].
    apply body_Ok in Hbody as [[Hk ->]|(Hk & df & um & st0 & Hproc & Hflush & Hwrite)].
    + rewrite Hk. split; [apply IHfirst | apply IHlater].
    + rewrite Hk. cbn [flat_map fst snd].
      unfold Chunked.batch_set at 1 3. rewrite Hproc. cbn [snd].
      apply write_chunk_Ok in Hwrite as (_ & _ & Hfu & Hnf & _).
      rewrite Hfu in IHfirst, IHlater. rewrite Hnf in IHfirst, IHlater.
      apply flush_unmapped_Ok in Hflush
        as (_ & _ & _ & [[-> ->]|(Hne & _ & Hfu0 & Hnans)]).
      * rewrite (proj2 (list_of_set_nil w i ∅) eq_refl). simpl.
        split; [apply IHfirst | apply IHlater].
      * assert (Hel : Chunked.list_of_set w i um <> []).
        { intros E. by apply list_of_set_nil in E. }
        split.
        -- intros Hfirst Hnone. rewrite Hfirst in Hnans. simpl in Hnans.
           destruct (IHlater Hfu0 _ Hnans) as [Hf' Hn'].
           destruct (Chunked.list_of_set w i um) as [|x ids]; [done|]. simpl. done.
        -- intros Hfirst ids Hn. rewrite Hfirst, Hn in Hnans. simpl in Hnans.
           rewrite <- map_app in Hnans.
           destruct (IHlater Hfu0 _ Hnans) as [Hf' Hn'].
           split; [done|]. by rewrite Hn', app_assoc.
Qed.

(** The identifiers reported, batch by batch: for each batch that has the
    identifier column, a list without repeats of the members of its set. *)
Lemma reported_by_batch {RD : Rendering} (w : Chunked.World)
    (L : list (string * cell)) (amts : list string) (id : string)
    (chunks : list DataFrame) :
  exists ls : list (list cell),
    Chunked.reported w L amts id (Chunked.enumerate chunks) = concat ls
    /\ Forall2 (fun chunk l =>
                  NoDup l /\ forall x, x ∈ l <-> x ∈ Chunked.batch_set L amts id chunk)
               (List.filter (Chunked.kept id) chunks) ls.
Proof.
  unfold Chunked.reported.
  assert (Hsnd : List.filter (Chunked.kept id) chunks
                 = map snd (List.filter (fun ic : nat * DataFrame => Chunked.kept id ic.2)
                              (Chunked.enumerate chunks))).
  { rewrite <- (snd_enumerate chunks) at 1. apply filter_of_map. }
  rewrite Hsnd. clear Hsnd.
  generalize (List.filter (fun ic : nat * DataFrame => Chunked.kept id ic.2)
                (Chunked.enumerate chunks)).
  intros ics. induction ics as [|[i chunk] ics IH].
  - exists []. split; [done | constructor].
  - destruct IH as (ls & Hcat & Hall).
    exists (Chunked.list_of_set w i (Chunked.batch_set L amts id chunk) :: ls).
    cbn [flat_map map concat fst snd]. split; [by rewrite Hcat|].
    constructor; [|done]. split; [apply NoDup_list_of_set|].
    intros x. apply elem_of_list_of_set.
Qed.

(** X9: after a run that returns the report is always there; it is the
    header line naming the identifier column followed, for the batches that
    have the identifier column, batch after batch in file order, by one
    single-field line for each member of the batch's set, each member once,
    in an order that is Python's; no second header line is ever written. *)
Theorem X9_report_contents {RD : Rendering} (w : Chunked.World) (st : Chunked.State)
    (L : list (string * cell)) (main : CsvFile) (id : string) :
  Chunked.run w = Ok st ->
  Mapping.load (Chunked.mapping_file w) = Ok L ->
  Chunked.main_file w = Some main ->
  Chunked.id_column_data main = Ok id ->
  exists ls : list (list cell),
    Chunked.nans_file st
    = Some (HeaderLine [id] :: map (fun x => DataLine [x]) (concat ls))
    /\ Forall2 (fun chunk l =>
                  NoDup l
                  /\ forall x, x ∈ l
                       <-> x ∈ Chunked.batch_set L (Chunked.amt_columns_header main)
                                 id chunk)
               (List.filter (Chunked.kept id) (batches main)) ls.
Proof.
  intros Hrun HL Hmain Hid.
  apply run_Ok in Hrun
    as (L' & main' & id' & st0 & st1 & HL' & Hmain' & Hid' & Hst0 & Hloop & Hfinal).
  rewrite HL in HL'. injection HL' as <-.
  rewrite Hmain in Hmain'. injection Hmain' as <-.
  rewrite Hid in Hid'. injection Hid' as <-.
  destruct (say_files (Chunked.header_warnings main id) Chunked.initial)
    as (_ & Hf0 & _ & Hn0).
  rewrite <- Hst0 in Hf0, Hn0. simpl in Hf0, Hn0.
  apply loop_report in Hloop as [Hfirst _].
  specialize (Hfirst Hf0 Hn0).
  apply final_check_Ok in Hfinal as (_ & _ & Hyes & Hno).
  destruct (reported_by_batch w L (Chunked.amt_columns_header main) id (batches main))
    as (ls & Hcat & Hall).
  exists ls. split; [|done]. rewrite <- Hcat.
  destruct (Chunked.reported w L (Chunked.amt_columns_header main) id
              (Chunked.enumerate (batches main))) as [|x ids].
  - destruct Hfirst as [Hf _]. by destruct (Hyes Hf) as [_ ->].
  - destruct Hfirst as [Hf Hn]. by rewrite (Hno Hf), Hn.
Qed.

Lemma X9_report_contents_witness :
  exists st,
    Chunked.run (Samples.world Samples.sheet Samples.main) = Ok st
    /\ exists ls : list (list cell),
         Chunked.nans_file st
         = Some (HeaderLine ["id"] :: map (fun x => DataLine [x]) (concat ls))
         /\ Forall2 (fun chunk l =>
                       NoDup l
                       /\ forall x, x ∈ l
                            <-> x ∈ Chunked.batch_set Samples.lookup
                                      (Chunked.amt_columns_header Samples.main)
                                      "id" chunk)
                    (List.filter (Chunked.kept "id") (batches Samples.main)) ls.
Proof.
  destruct (Chunked.run (Samples.world Samples.sheet Samples.main))
    as [st|e] eqn:Hst; [|vm_compute in Hst; discriminate].
  exists st. split; [reflexivity|].
  apply (X9_report_contents (Samples.world Samples.sheet Samples.main) st
           Samples.lookup Samples.main "id" Hst).
  - vm_compute. reflexivity.
  - reflexivity.
  - reflexivity.
Defined.

(** ** The run as a whole (lines 80-286) *)

Lemma say_printed (ms : list Chunked.message) (st : Chunked.State) :
  Chunked.printed (fold_left (fun s m => Chunked.say m s) ms st)
  = Chunked.printed st ++ ms.
Proof.
  revert st. induction ms as [|m ms IH]; intros st; simpl.
  - by rewrite app_nil_r.
  - rewrite IH. simpl. by rewrite <- app_assoc.
Qed.

Lemma loop_printed_only {RD : Rendering} (w : Chunked.World) (L : list (string * cell))
    (amts : list string) (id : string) (ics : list (nat * DataFrame))
    (m : Chunked.message) :
  forall st st' : Chunked.State,
  for_each (Chunked.body w L amts id) st ics = Ok st' ->
  m ∈ Chunked.printed st' ->
  m ∈ Chunked.printed st
  \/ exists i chunk, (i, chunk) ∈ ics /\ Chunked.kept id chunk = false
       /\ m = Chunked.ErrorIdNotInChunk id (i + 1).
Proof.
  induction ics as [|[i chunk] ics IH]; intros st st' Hrun Hm.
  - simpl in Hrun. injection Hrun as <-. by left.
  - simpl in Hrun. unfold mbind, result_bind in Hrun.
    destruct (Chunked.body w L amts id st (i, chunk)) as [st1|e] eqn:Hbody; [|done].
    destruct (IH st1 st' Hrun Hm) as [Hm1|(j & c & Hin & Hk & ->)].
    + apply body_Ok in Hbody
        as [[Hk ->]|(Hk & df & um & st0 & _ & Hflush & Hwrite)].
      * simpl in Hm1. apply elem_of_app in Hm1 as [?|Hm1]; [by left|].
        apply list_elem_of_singleton in Hm1. right. exists i, chunk.
        split; [left|]. done.
      * apply write_chunk_Ok in Hwrite as (_ & _ & _ & _ & Hp & _).
        apply flush_unmapped_Ok in Hflush as (_ & _ & Hp0 & _).
        left. by rewrite <- Hp0, <- Hp.
    + right. exists j, c. split; [by right|]. done.
Qed.

Lemma filter_all {X : Type} (p : X -> bool) (l : list X) :
  (forall x, x ∈ l -> p x = true) -> List.filter p l = l.
Proof.
  induction l as [|a l IH]; intros H; simpl; [done|].
  rewrite (H a) by left. f_equal. apply IH. intros x Hx. apply H. by right.
Qed.

Lemma filter_none {X : Type} (p : X -> bool) (l : list X) :
  (forall x, x ∈ l -> p x = false) -> List.filter p l = [].
Proof.
  induction l as [|a l IH]; intros H; simpl; [done|].
  rewrite (H a) by left. apply IH. intros x Hx. apply H. by right.
Qed.

Lemma pick_id_member (cols : list string) (c : string) :
  Resolver.pick_id cols = Ok c -> c ∈ cols.
Proof.
  unfold Resolver.pick_id.
  destruct (Frame.mem "id" cols) eqn:E1.
  { intros [= <-]. by apply mem_true. }
  destruct (Frame.mem "head_id" cols) eqn:E2.
  { intros [= <-]. by apply mem_true. }
  destruct cols as [|c0 cols]; [done|]. intros [= <-]. left.
Qed.

(** X10: with a sheet whose cleaned labels are distinct, that loads and
    bears no key twice, a main file whose cleaned header labels are distinct
    and hold [id] or [head_id], and every write granted, the run raises
    nothing: the identifier column is then never a target column, no label
    is borne by two columns of a batch, and no lookup returns two rows.
    (With two labels equal once cleaned the script raises: on a target
    column at line 151, on the average of the sheet at the first merge.) *)
Theorem X10_run_returns {RD : Rendering} (w : Chunked.World) (sheet : DataFrame)
    (L : list (string * cell)) (main : CsvFile) :
  Chunked.mapping_file w = Some sheet ->
  NoDup (map Text.sanitize (columns sheet)) ->
  Mapping.load (Some sheet) = Ok L ->
  (forall k, length (Chunked.lookup_rows L k) <= 1) ->
  Chunked.main_file w = Some main ->
  NoDup (Chunked.all_data_cols main) ->
  (forall chunk, chunk ∈ batches main -> columns chunk = header main) ->
  Frame.mem "id" (Chunked.all_data_cols main) = true
  \/ Frame.mem "head_id" (Chunked.all_data_cols main) = true ->
  (forall s i, Chunked.can_write w s i = true) ->
  exists st id,
    Chunked.run w = Ok st
    /\ Chunked.id_column_data main = Ok id
    /\ (id = "id" \/ id = "head_id")
    /\ id ∉ Chunked.amt_columns_header main.
Proof.
  intros Hsheet _ HL Hone Hmain Hnd Hcols Hhas Hw.
  assert (Hid : exists id, Chunked.id_column_data main = Ok id
                           /\ (id = "id" \/ id = "head_id")).
  { unfold Chunked.id_column_data, Resolver.pick_id.
    destruct (Frame.mem "id" _); [exists "id"; split; [done | by left]|].
    destruct Hhas as [?|Hh]; [done|]. rewrite Hh.
    exists "head_id". split; [done | by right]. }
  destruct Hid as (id & Hid & Hor).
  assert (Hamt : Resolver.is_amt id = false) by by destruct Hor as [-> | ->].
  rewrite <- Hsheet in HL.
  destruct (run_returns w L main id HL Hmain Hid Hamt) as [st Hst]; [|done|done|].
  { intros chunk Hc. unfold Frame.clean_columns. cbn [columns].
    by rewrite (Hcols chunk Hc). }
  exists st, id. split; [done|]. split; [done|]. split; [done|].
  intros Hin. unfold Chunked.amt_columns_header in Hin.
  apply elem_of_List_filter in Hin as [_ Hin]. congruence.
Qed.

Lemma X10_run_returns_witness :
  exists st id,
    Chunked.run (Samples.world Samples.sheet Samples.main) = Ok st
    /\ Chunked.id_column_data Samples.main = Ok id
    /\ (id = "id" \/ id = "head_id")
    /\ id ∉ Chunked.amt_columns_header Samples.main.
Proof.
  apply (X10_run_returns (Samples.world Samples.sheet Samples.main)
           Samples.sheet Samples.lookup Samples.main).
  - reflexivity.
  - apply (bool_decide_unpack _). vm_compute. exact I.
  - vm_compute. reflexivity.
  - intros k. unfold Chunked.lookup_rows, Samples.lookup, List.filter.
    cbn [fst].
    destruct (String.eqb "amt_x_5" k) eqn:E1; destruct (String.eqb "amt_y_5" k) eqn:E2;
      cbn [map length]; try lia.
    apply String.eqb_eq in E1, E2. subst k. discriminate.
  - reflexivity.
  - apply (bool_decide_unpack _). vm_compute. exact I.
  - intros chunk Hc. cbn [batches Samples.main] in Hc.
    apply elem_of_cons in Hc as [->|Hc]; [reflexivity|].
    apply list_elem_of_singleton in Hc. subst chunk. reflexivity.
  - left. reflexivity.
  - reflexivity.
Defined.

(** X11: the batches [read_csv] cuts from one file all carry the header's
    labels; when the identifier the script goes on with is one of the
    cleaned labels, no batch of a run that returns is passed over: the
    primary output has as many data lines as the file has rows, and no
    diagnostic of a missing identifier column is printed. *)
Theorem X11_no_batch_skipped {RD : Rendering} (w : Chunked.World) (st : Chunked.State)
    (main : CsvFile) (id : string) :
  Chunked.run w = Ok st ->
  Chunked.main_file w = Some main ->
  Chunked.id_column_data main = Ok id ->
  (forall chunk, chunk ∈ batches main -> columns chunk = header main) ->
  Frame.mem id (Chunked.all_data_cols main) = true ->
  length (Chunked.written (Chunked.output_file st))
  = length (flat_map rows (batches main))
  /\ forall n, Chunked.ErrorIdNotInChunk id n ∉ Chunked.printed st.
Proof.
  intros Hrun Hmain Hid Hsame Hmem.
  assert (Hkept : forall chunk, chunk ∈ batches main -> Chunked.kept id chunk = true).
  { intros chunk Hc. unfold Chunked.kept. simpl. by rewrite (Hsame chunk Hc). }
  apply run_Ok in Hrun
    as (L & main' & id' & st0 & st1 & _ & Hmain' & Hid' & Hst0 & Hloop & Hfinal).
  rewrite Hmain in Hmain'. injection Hmain' as <-.
  rewrite Hid in Hid'. injection Hid' as <-.
  apply final_check_Ok in Hfinal as (Hout & Hpr & _). rewrite Hout, Hpr.
  split.
  - destruct (say_files (Chunked.header_warnings main id) Chunked.initial)
      as (_ & _ & Hout0 & _).
    rewrite <- Hst0 in Hout0. simpl in Hout0.
    apply loop_written in Hloop; [|done].
    rewrite Hout0, snd_enumerate in Hloop. simpl in Hloop.
    rewrite <- (length_map (hd None)), Hloop, kept_ids_length.
    by rewrite (filter_all _ _ Hkept).
  - intros n Hn.
    apply (loop_printed_only _ _ _ _ _ _ _ _ Hloop) in Hn
      as [Hn|(i & chunk & Hin & Hk & _)].
    + rewrite Hst0, say_printed in Hn. simpl in Hn.
      unfold Chunked.header_warnings in Hn. rewrite Hmem, app_nil_r in Hn.
      destruct (Chunked.amt_columns_header main); [|inversion Hn].
      apply list_elem_of_singleton in Hn. discriminate.
    + assert (Hc : chunk ∈ batches main).
      { rewrite <- (snd_enumerate (batches main)).
        rewrite list_elem_of_In. apply (in_map snd _ (i, chunk)).
        by rewrite <- list_elem_of_In. }
      rewrite (Hkept chunk Hc) in Hk. done.
Qed.

Lemma X11_no_batch_skipped_witness :
  length (Chunked.written
            (Some [HeaderLine ["id"; "amt_x"; "amt_y"; "note"];
                   DataLine [Some "1"; Some "10.2"; Some "3.5"; Some "a"];
                   DataLine [Some "7"; None; None; Some "b"];
                   DataLine [Some "2"; None; Some ""; Some "c"];
                   DataLine [Some "8"; Some "10.2"; Some "3.5"; Some "d"]]))
  = length (flat_map rows (batches Samples.main))
  /\ forall n, Chunked.ErrorIdNotInChunk "id" n ∉ [].
Proof.
  apply (X11_no_batch_skipped (Samples.world Samples.sheet Samples.main)
           {| Chunked.is_first_chunk := false;
              Chunked.is_first_unmapped_chunk := false;
              Chunked.output_file :=
                Some [HeaderLine ["id"; "amt_x"; "amt_y"; "note"];
                      DataLine [Some "1"; Some "10.2"; Some "3.5"; Some "a"];
                      DataLine [Some "7"; None; None; Some "b"];
                      DataLine [Some "2"; None; Some ""; Some "c"];
                      DataLine [Some "8"; Some "10.2"; Some "3.5"; Some "d"]];
              Chunked.nans_file :=
                Some [HeaderLine ["id"]; DataLine [Some "2"]; DataLine [Some "7"]];
              Chunked.printed := [] |}
           Samples.main "id").
  - vm_compute. reflexivity.
  - reflexivity.
  - reflexivity.
  - intros chunk Hc. simpl in Hc.
    apply elem_of_cons in Hc as [->|Hc]; [reflexivity|].
    apply list_elem_of_singleton in Hc. subst chunk. reflexivity.
  - reflexivity.
Defined.

(** X12: when the batches carry the header's labels and the identifier the
    script goes on with is none of the cleaned labels, a run that returns
    passes over the whole file: the primary output is never created, the
    report holds its header line alone, the warning about the identifier
    and one diagnostic per batch are printed.  This happens only when the
    label picked by the priority order holds two underscores in a row, so
    that cleaning it once more changed it. *)
Theorem X12_whole_file_skipped {RD : Rendering} (w : Chunked.World) (st : Chunked.State)
    (main : CsvFile) (id : string) :
  Chunked.run w = Ok st ->
  Chunked.main_file w = Some main ->
  Chunked.id_column_data main = Ok id ->
  (forall chunk, chunk ∈ batches main -> columns chunk = header main) ->
  Frame.mem id (Chunked.all_data_cols main) = false ->
  Chunked.output_file st = None
  /\ Chunked.nans_file st = Some [HeaderLine [id]]
  /\ Chunked.WarnIdNotInHeader id ∈ Chunked.printed st
  /\ (forall j, j < length (batches main) ->
        Chunked.ErrorIdNotInChunk id (j + 1) ∈ Chunked.printed st)
  /\ exists c, Resolver.pick_id (Chunked.all_data_cols main) = Ok c
               /\ id = Text.sanitize c
               /\ Text.contains "__" c = true.
Proof.
  intros Hrun Hmain Hid Hsame Hmem.
  assert (Hkept : forall chunk, chunk ∈ batches main -> Chunked.kept id chunk = false).
  { intros chunk Hc. unfold Chunked.kept. simpl. by rewrite (Hsame chunk Hc). }
  apply run_Ok in Hrun
    as (L & main' & id' & st0 & st1 & _ & Hmain' & Hid' & Hst0 & Hloop & Hfinal).
  rewrite Hmain in Hmain'. injection Hmain' as <-.
  rewrite Hid in Hid'. injection Hid' as <-.
  destruct (say_files (Chunked.header_warnings main id) Chunked.initial)
    as (Hf0 & Hu0 & Hout0 & Hn0).
  rewrite <- Hst0 in Hf0, Hu0, Hout0, Hn0. simpl in Hf0, Hu0, Hout0, Hn0.
  pose proof (loop_header _ _ _ _ _ _ _ Hloop) as [Hhead _].
  specialize (Hhead Hf0 Hout0).
  pose proof (loop_report _ _ _ _ _ _ _ Hloop) as [Hrep _].
  specialize (Hrep Hu0 Hn0). unfold Chunked.reported in Hrep.
  rewrite snd_enumerate in Hhead.
  rewrite (filter_none _ _ Hkept) in Hhead.
  rewrite (filter_none (fun ic : nat * DataFrame => Chunked.kept id ic.2)) in Hrep.
  2:{ intros [i chunk] Hic. apply Hkept. apply list_elem_of_In.
      apply list_elem_of_In in Hic. unfold Chunked.enumerate in Hic.
      by apply in_combine_r in Hic. }
  simpl in Hrep.
  destruct Hhead as [_ Hnone]. destruct Hrep as [Hfirst _].
  pose proof Hfinal as Hfinal'.
  apply final_check_Ok in Hfinal as (Hout & Hpr & Hyes & _).
  destruct (Hyes Hfirst) as [_ Hnans].
  split; [by rewrite Hout|]. split; [done|]. split; [|split].
  - rewrite Hpr. apply (loop_printed _ _ _ _ _ _ _ _ Hloop).
    rewrite Hst0, say_printed. simpl. unfold Chunked.header_warnings.
    rewrite Hmem. apply elem_of_app. right. left.
  - intros j Hj. rewrite Hpr.
    destruct (lookup_lt_is_Some_2 (batches main) j Hj) as [chunk Hc].
    unfold Chunked.enumerate in Hloop.
    destruct (loop_each_batch _ _ _ _ _ 0 _ _ Hloop j chunk Hc)
      as [[_ Hp]|[Hk _]]; [done|].
    rewrite Hkept in Hk; [done|]. apply list_elem_of_lookup. eauto.
  - unfold Chunked.id_column_data in Hid.
    destruct (Resolver.pick_id (Chunked.all_data_cols main)) as [c|] eqn:Hpick;
      [|done].
    unfold mbind, result_bind in Hid. injection Hid as <-.
    exists c. split; [done|]. split; [done|].
    destruct (Text.contains "__" c) eqn:Hd; [done|]. exfalso.
    pose proof (id_column_data_priority main c Hpick Hd) as Hsame_id.
    rewrite (id_column_data_cleaned main c Hpick) in Hsame_id.
    injection Hsame_id as Heq. rewrite Heq in Hmem.
    apply pick_id_member, mem_true in Hpick. congruence.
Qed.

Lemma X12_whole_file_skipped_witness :
  Chunked.output_file
    {| Chunked.is_first_chunk := true;
       Chunked.is_first_unmapped_chunk := true;
       Chunked.output_file := None;
       Chunked.nans_file := Some [HeaderLine ["a_b"]];
       Chunked.printed := [Chunked.WarnIdNotInHeader "a_b";
                           Chunked.ErrorIdNotInChunk "a_b" 1] |} = None
  /\ Some [HeaderLine ["a_b"]] = Some [HeaderLine ["a_b"]]
  /\ Chunked.WarnIdNotInHeader "a_b"
     ∈ [Chunked.WarnIdNotInHeader "a_b"; Chunked.ErrorIdNotInChunk "a_b" 1]
  /\ (forall j, j < length (batches Samples.main_triple) ->
        Chunked.ErrorIdNotInChunk "a_b" (j + 1)
        ∈ [Chunked.WarnIdNotInHeader "a_b"; Chunked.ErrorIdNotInChunk "a_b" 1])
  /\ exists c, Resolver.pick_id (Chunked.all_data_cols Samples.main_triple) = Ok c
               /\ "a_b" = Text.sanitize c
               /\ Text.contains "__" c = true.
Proof.
  apply (X12_whole_file_skipped (Samples.world Samples.sheet Samples.main_triple)
           {| Chunked.is_first_chunk := true;
              Chunked.is_first_unmapped_chunk := true;
              Chunked.output_file := None;
              Chunked.nans_file := Some [HeaderLine ["a_b"]];
              Chunked.printed := [Chunked.WarnIdNotInHeader "a_b";
                                  Chunked.ErrorIdNotInChunk "a_b" 1] |}
           Samples.main_triple "a_b").
  - vm_compute. reflexivity.
  - reflexivity.
  - reflexivity.
  - intros chunk Hc. simpl in Hc.
    apply list_elem_of_singleton in Hc. subst chunk. reflexivity.
  - reflexivity.
Defined.

Lemma loop_as_read {RD : Rendering} (w : Chunked.World) (L : list (string * cell))
    (id : string) (ics : list (nat * DataFrame)) :
  forall st st' : Chunked.State,
  for_each (Chunked.body w L [] id) st ics = Ok st' ->
  (Chunked.is_first_chunk st = true -> Chunked.output_file st = None) ->
  Chunked.written (Chunked.output_file st')
  = Chunked.written (Chunked.output_file st)
    ++ Chunked.lines_as_read id (map snd ics).
Proof.
  induction ics as [|[i chunk] ics IH]; intros st st' Hrun Hinv.
  - simpl in Hrun. injection Hrun as <-. by rewrite app_nil_r.
  - simpl in Hrun. unfold mbind, result_bind in Hrun.
    destruct (Chunked.body w L [] id st (i, chunk)) as [st1|e] eqn:Hbody; [|done].
    unfold Chunked.lines_as_read in *. simpl.
    apply body_Ok in Hbody as [[Hk ->]|(Hk & df & um & st0 & Hproc & Hflush & Hwrite)].
    + rewrite Hk. by apply IH in Hrun.
    + rewrite Hk. simpl.
      unfold Chunked.process_chunk in Hproc. simpl in Hproc.
      injection Hproc as <- <-.
      apply flush_unmapped_Ok in Hflush as (Hfc & Hof & _ & _).
      apply write_chunk_Ok in Hwrite as (_ & Hfc1 & _ & _ & _ & Hout).
      apply IH in Hrun; [|by rewrite Hfc1].
      rewrite Hrun, Hout, app_assoc. f_equal.
      rewrite Hfc, Hof. unfold Chunked.written.
      destruct (Chunked.is_first_chunk st) eqn:Hfirst.
      * rewrite (Hinv eq_refl). simpl. apply data_lines_DataLine.
      * unfold Frame.to_csv_a. simpl. rewrite data_lines_app.
        by rewrite data_lines_DataLine.
Qed.

Lemma reported_no_targets {RD : Rendering} (w : Chunked.World)
    (L : list (string * cell)) (id : string) (ics : list (nat * DataFrame)) :
  Chunked.reported w L [] id ics = [].
Proof.
  unfold Chunked.reported.
  induction (List.filter (fun ic : nat * DataFrame => Chunked.kept id ic.2) ics)
    as [|[i c] l IH]; [done|].
  cbn [flat_map fst snd]. rewrite IH, app_nil_r.
  unfold Chunked.batch_set, Chunked.process_chunk. cbn [List.filter for_each snd].
  by apply list_of_set_nil.
Qed.

(** X13: when no label of the header begins with [amt_], a run that returns
    prints the warning, maps nothing and reports nothing: the batches that
    have the identifier column are written as they were read, identifier
    column first, and the report holds its header line alone. *)
Theorem X13_no_target_columns {RD : Rendering} (w : Chunked.World) (st : Chunked.State)
    (main : CsvFile) (id : string) :
  Chunked.run w = Ok st ->
  Chunked.main_file w = Some main ->
  Chunked.id_column_data main = Ok id ->
  Chunked.amt_columns_header main = [] ->
  Chunked.WarnNoAmtColumns ∈ Chunked.printed st
  /\ Chunked.written (Chunked.output_file st)
     = Chunked.lines_as_read id (batches main)
  /\ Chunked.nans_file st = Some [HeaderLine [id]].
Proof.
  intros Hrun Hmain Hid Hamts.
  apply run_Ok in Hrun
    as (L & main' & id' & st0 & st1 & _ & Hmain' & Hid' & Hst0 & Hloop & Hfinal).
  rewrite Hmain in Hmain'. injection Hmain' as <-.
  rewrite Hid in Hid'. injection Hid' as <-.
  rewrite Hamts in Hloop.
  destruct (say_files (Chunked.header_warnings main id) Chunked.initial)
    as (Hf0 & Hu0 & Hout0 & Hn0).
  rewrite <- Hst0 in Hf0, Hu0, Hout0, Hn0. simpl in Hf0, Hu0, Hout0, Hn0.
  pose proof (loop_report _ _ _ _ _ _ _ Hloop) as [Hrep _].
  specialize (Hrep Hu0 Hn0). rewrite reported_no_targets in Hrep.
  destruct Hrep as [Hfirst _].
  pose proof (loop_as_read _ _ _ _ _ _ Hloop) as Hlines.
  rewrite Hout0, snd_enumerate in Hlines. specialize (Hlines (fun _ => eq_refl)).
  apply final_check_Ok in Hfinal as (Hout & Hpr & Hyes & _).
  destruct (Hyes Hfirst) as [_ Hnans].
  split; [|split; [by rewrite Hout | done]].
  rewrite Hpr. apply (loop_printed _ _ _ _ _ _ _ _ Hloop).
  rewrite Hst0, say_printed. simpl. unfold Chunked.header_warnings.
  rewrite Hamts. apply elem_of_app. left. left.
Qed.

Lemma X13_no_target_columns_witness :
  exists st,
    Chunked.run (Samples.world Samples.sheet
                   {| header := ["id"; "note"];
                      batches := [ {| columns := ["id"; "note"];
                                      rows := [[Some "1"; Some "a"]] |} ] |})
    = Ok st
    /\ Chunked.WarnNoAmtColumns ∈ Chunked.printed st
    /\ Chunked.written (Chunked.output_file st)
       = Chunked.lines_as_read "id"
           [ {| columns := ["id"; "note"]; rows := [[Some "1"; Some "a"]] |} ]
    /\ Chunked.nans_file st = Some [HeaderLine ["id"]].
Proof.
  eexists. split; [vm_compute; reflexivity|].
  apply (X13_no_target_columns
           (Samples.world Samples.sheet
              {| header := ["id"; "note"];
                 batches := [ {| columns := ["id"; "note"];
                                 rows := [[Some "1"; Some "a"]] |} ] |})
           _
           {| header := ["id"; "note"];
              batches := [ {| columns := ["id"; "note"];
                              rows := [[Some "1"; Some "a"]] |} ] |}
           "id").
  - vm_compute. reflexivity.
  - reflexivity.
  - reflexivity.
  - reflexivity.
Defined.

(** ** [code_5.py] from import to export (lines 96-274) *)

(** X14: [code_5.py] drops no row and skips no batch: the primary output is
    one header line with as many names as the table has columns, followed
    by one data line per row of the main file, each with one field per
    column. *)
Theorem X14_sql_output_rows {RD : Rendering}
    (mapping_file : option DataFrame) (main : CsvFile)
    (old_report : option file) (o : Sql.Outcome) :
  Sql.run mapping_file (Some main) old_report = Ok o ->
  exists names lines,
    Sql.output_file o = HeaderLine names :: map DataLine lines
    /\ length names = length (columns (Sql.import main))
    /\ length lines = length (flat_map rows (batches main))
    /\ Forall (fun l => length l = length names) lines.
Proof.
  intros Hrun.
  apply sql_run_Ok in Hrun as (M & main' & idc & _ & [= <-] & _ & Hloop & Hout & _).
  apply sql_columns_other in Hloop as (Hcols & Hlen & _).
  assert (Hrows : length (rows (Sql.import main))
                  = length (flat_map rows (batches main))) by done.
  rewrite Hout. unfold Sql.export_final, Frame.to_csv_w.
  set (cols' := if (Frame.mem "original_id" (columns (Sql.final_table o))
                    && negb (String.eqb idc "original_id"))%bool
                then map (fun c => if String.eqb c "original_id" then idc else c)
                         (columns (Sql.final_table o))
                else columns (Sql.final_table o)).
  cbn [columns rows].
  exists cols',
    (map (Frame.csv_row {| columns := cols'; rows := rows (Sql.final_table o) |})
         (rows (Sql.final_table o))).
  split; [by rewrite map_map|].
  assert (Hnames : length cols' = length (columns (Sql.import main))).
  { rewrite <- Hcols. unfold cols'.
    destruct (_ && _)%bool; [apply length_map | done]. }
  split; [done|]. split.
  - by rewrite length_map, Hlen.
  - apply Forall_forall. intros l Hl.
    rewrite list_elem_of_In, in_map_iff in Hl. destruct Hl as (r & <- & _).
    apply csv_row_length.
Qed.

Lemma X14_sql_output_rows_witness :
  exists o,
    Sql.run (Some Samples.sheet) (Some Samples.main) None = Ok o
    /\ exists names lines,
         Sql.output_file o = HeaderLine names :: map DataLine lines
         /\ length names = length (columns (Sql.import Samples.main))
         /\ length lines = length (flat_map rows (batches Samples.main))
         /\ Forall (fun l => length l = length names) lines.
Proof.
  destruct (Sql.run (Some Samples.sheet) (Some Samples.main) None)
    as [o|e] eqn:Ho; [|vm_compute in Ho; discriminate].
  exists o. split; [reflexivity|].
  apply (X14_sql_output_rows (Some Samples.sheet) Samples.main None o Ho).
Defined.

(** ** The two scripts side by side *)

Lemma sql_columns_only {RD : Rendering}
    (M : list (string * cell)) (idc : string) (cs : list string) :
  forall (T T' : DataFrame) (U U' : list Sql.unmapped_row),
  fold_left (Sql.update_column M idc) cs (T, U) = (T', U') ->
  NoDup cs ->
  idc ∉ cs ->
  forall u, u ∈ U' ->
    u ∈ U
    \/ exists r c, r ∈ rows T /\ c ∈ cs
         /\ Sql.is_unmapped M c (Frame.get (columns T) r c) = true
         /\ u = {| Sql.original_id := Frame.get (columns T) r idc;
                   Sql.original_value := Frame.get (columns T) r c;
                   Sql.column_name := c |}.
Proof.
  induction cs as [|c cs IH]; intros T T' U U' Hrun Hnd Hid u Hu.
  - simpl in Hrun. injection Hrun as <- <-. by left.
  - simpl in Hrun. unfold Sql.update_column at 2 in Hrun. simpl in Hrun.
    apply NoDup_cons in Hnd as [Hc Hnd].
    apply not_elem_of_cons in Hid as [Hidc Hid].
    destruct (IH _ _ _ _ Hrun Hnd Hid u Hu) as [Hu1|(r1 & c' & Hr1 & Hc' & Hun & ->)].
    + apply elem_of_app in Hu1 as [?|Hu1]; [by left|].
      apply elem_of_insert_unmapped in Hu1 as (r & Hr & Hun & ->).
      right. exists r, c. split; [done|]. split; [left|]. done.
    + right. simpl in Hr1, Hun.
      rewrite list_elem_of_In, in_map_iff in Hr1.
      destruct Hr1 as (r & <- & Hr). rewrite <- list_elem_of_In in Hr.
      assert (Hcc : c <> c') by (intros ->; done).
      simpl. rewrite !(sql_update_row_other M _ c c') by done.
      rewrite (sql_update_row_other M _ c c') in Hun by done.
      rewrite (sql_update_row_other M _ c idc) by congruence.
      exists r, c'. split; [done|]. split; [by right|]. done.
Qed.

Lemma filter_mem_self (p : string -> bool) (cols : list string) :
  List.filter (fun col => Frame.mem col cols) (List.filter p cols)
  = List.filter p cols.
Proof.
  apply filter_all. intros c Hc. apply elem_of_List_filter in Hc as [Hc _].
  by apply mem_true.
Qed.

(** X16: run on the same table with the same mapping, the column loops of
    the two scripts settle every target cell from the same mapping row.  A
    cell that is NULL is left NULL by both.  For a cell with a value whose
    key has a row in the mapping, both take the average of that row:
    [9_code_optimized.py] leaves it in the cell as pandas writes it,
    [code_5.py] as SQLite stores it, and the two texts need not be the
    same.  And every identifier [code_5.py] records as unmapped is in the
    set [9_code_optimized.py] builds for the batch. *)
Theorem X16_scripts_agree {RD : Rendering} (L : list (string * cell)) (idc : string)
    (df df' T' : DataFrame) (um : gset cell) (U' : list Sql.unmapped_row) :
  NoDup (columns df) ->
  Resolver.is_amt idc = false ->
  Chunked.process_chunk L (List.filter Resolver.is_amt (columns df)) idc df
  = Ok (df', um) ->
  fold_left (Sql.update_column L idc) (List.filter Resolver.is_amt (columns df))
    (df, []) = (T', U') ->
  (forall i r c,
     rows df !! i = Some r ->
     c ∈ columns df ->
     Resolver.is_amt c = true ->
     exists r1 r2,
       rows df' !! i = Some r1 /\ rows T' !! i = Some r2
       /\ (Frame.get (columns df) r c = None ->
             Frame.get (columns df) r1 c = None
             /\ Frame.get (columns df) r2 c = None)
       /\ (forall s a,
             Frame.get (columns df) r c = Some s ->
             s <> "" ->
             a ∈ Chunked.lookup_rows L (c +:+ "_" +:+ s) ->
             Frame.get (columns df) r1 c
             = (merged_text (Chunked.has_nan L (columns df) c (rows df)) <$> a)
             /\ Frame.get (columns df) r2 c = (sqlite_text <$> a)))
  /\ (forall u, u ∈ U' -> Sql.original_id u ∈ um).
Proof.
  intros Hnd Hidc Hchunk Hsql.
  set (cs := List.filter Resolver.is_amt (columns df)) in *.
  assert (Hnd' : NoDup cs) by by apply NoDup_List_filter.
  assert (Hmem : forall c, c ∈ cs -> Frame.mem c (columns df) = true).
  { intros c Hc. apply elem_of_List_filter in Hc as [Hc _]. by rewrite mem_true. }
  assert (Hid : idc ∉ cs).
  { intros Hin. apply elem_of_List_filter in Hin as [_ Hin]. congruence. }
  pose proof (process_chunk_Ok L cs idc df df' um Hchunk Hnd') as (_ & _ & Hrow1).
  pose proof (sql_columns_loop L idc cs df T' [] U' Hsql Hnd' Hmem Hid)
    as (_ & _ & Hrow2).
  split.
  - intros i r c Hr Hc Hamt.
    assert (Hcs : c ∈ cs) by by apply elem_of_List_filter.
    destruct (Hrow1 i r Hr) as (r1 & Hr1 & _ & Hin1 & _).
    destruct (Hrow2 i r Hr) as (r2 & Hr2 & _ & Hin2).
    exists r1, r2. split; [done|]. split; [done|].
    destruct (Hin1 c Hcs (Hmem c Hcs)) as [Hblank Hval].
    destruct (Hin2 c Hcs) as (Hhit & Hmiss & _).
    split.
    + intros Hnone. rewrite Hnone in *. destruct (Hblank eq_refl) as [-> _].
      split; [done|]. by apply Hmiss.
    + intros s a Hv Hs Ha. rewrite Hv in *.
      assert (Hnb : Chunked.isna_or_empty (Some s) = false).
      { simpl. by apply String.eqb_neq. }
      destruct (Hval Hnb) as (Hone & -> & _).
      unfold Chunked.found, Chunked.composite_key in *.
      unfold Sql.exists_match, Sql.scalar_subquery, Sql.selected, Sql.key in *.
      unfold Chunked.lookup_rows in *. simpl in *.
      destruct (map snd (List.filter _ L)) as [|b [|b' l]];
        simpl in *; [inversion Ha| |lia].
      apply list_elem_of_singleton in Ha. subst b.
      split; [done|]. by apply Hhit.
  - intros u Hu.
    destruct (sql_columns_only L idc cs df T' [] U' Hsql Hnd' Hid u Hu)
      as [Hu0|(r & c & Hr & Hcs & Hun & ->)]; [inversion Hu0|].
    simpl. apply list_elem_of_lookup in Hr as [j Hj].
    destruct (Hrow1 j r Hj) as (r1 & _ & _ & Hin1 & _).
    destruct (Hin1 c Hcs (Hmem c Hcs)) as [_ Hval].
    unfold Sql.is_unmapped in Hun. apply andb_true_iff in Hun as [Hv Hno].
    destruct (Frame.get (columns df) r c) as [s|] eqn:Hg; [|done].
    assert (Hnb : Chunked.isna_or_empty (Some s) = false).
    { simpl. by apply negb_true_iff. }
    destruct (Hval Hnb) as (_ & _ & Hum). apply Hum.
    apply negb_true_iff in Hno.
    unfold Sql.exists_match, Sql.selected, Sql.key in Hno. simpl in Hno.
    unfold Chunked.found, Chunked.lookup_rows, Chunked.composite_key. simpl.
    by destruct (List.filter _ L).
Qed.

(** On the first sample batch, at the cell of identifier 1 in [amt_x],
    whose average is 10.2. *)
Lemma X16_scripts_agree_witness :
  exists T' U',
    fold_left (Sql.update_column Samples.lookup "id")
      (List.filter Resolver.is_amt (columns Samples.batch0)) (Samples.batch0, [])
    = (T', U')
    /\ (exists r1 r2,
          rows Samples.batch0_after !! 0 = Some r1 /\ rows T' !! 0 = Some r2
          /\ Frame.get (columns Samples.batch0) r1 "amt_x"
             = (merged_text true <$> Some "10.2")
          /\ Frame.get (columns Samples.batch0) r2 "amt_x"
             = (sqlite_text <$> Some "10.2"))
    /\ (forall u, u ∈ U' -> Sql.original_id u ∈ Samples.batch0_unmapped).
Proof.
  destruct (fold_left (Sql.update_column Samples.lookup "id")
              (List.filter Resolver.is_amt (columns Samples.batch0))
              (Samples.batch0, [])) as [T' U'] eqn:E.
  exists T', U'. split; [reflexivity|].
  assert (Hnd : NoDup (columns Samples.batch0)).
  { apply (bool_decide_unpack _). vm_compute. exact I. }
  assert (Hrun : Chunked.process_chunk Samples.lookup
                   (List.filter Resolver.is_amt (columns Samples.batch0)) "id"
                   Samples.batch0
                 = Ok (Samples.batch0_after, Samples.batch0_unmapped)).
  { vm_compute. reflexivity. }
  destruct (X16_scripts_agree Samples.lookup "id" Samples.batch0 Samples.batch0_after
              T' Samples.batch0_unmapped U' Hnd eq_refl Hrun E) as [Hcells Hids].
  split; [|exact Hids].
  destruct (Hcells 0 [Some "1"; Some "5"; Some "5"; Some "a"] "amt_x" eq_refl
              ltac:(right; left) eq_refl) as (r1 & r2 & Hr1 & Hr2 & _ & Hhit).
  exists r1, r2. split; [exact Hr1|]. split; [exact Hr2|].
  apply (Hhit "5" (Some "10.2") eq_refl ltac:(discriminate)). left.
Defined.

(** ** The table of unmapped values of [code_5.py] *)

(** X17: in [code_5.py], with the identifier column not a target column,
    the table of unmapped values holds a row exactly for each cell of a
    target column that, in the table as imported, is neither NULL nor empty
    and has no row in the mapping table under its key, with the row's
    identifier, the cell's value before any update and the column name;
    the updates of the columns done earlier change none of this.  When the
    table has a row, the report is the header line with the three names
    followed by one line per row of the table. *)
Theorem X17_sql_report_exact {RD : Rendering}
    (mapping_file : option DataFrame) (main : CsvFile)
    (old_report : option file) (o : Sql.Outcome) (M : list (string * cell))
    (idc : string) :
  Sql.run mapping_file (Some main) old_report = Ok o ->
  Mapping.load mapping_file = Ok M ->
  Resolver.pick_id (columns (Sql.import main)) = Ok idc ->
  NoDup (columns (Sql.import main)) ->
  Resolver.is_amt idc = false ->
  (forall u, u ∈ Sql.unmapped_table o
     <-> exists r c, r ∈ rows (Sql.import main)
           /\ c ∈ columns (Sql.import main)
           /\ Resolver.is_amt c = true
           /\ Sql.is_unmapped M c (Frame.get (columns (Sql.import main)) r c) = true
           /\ u = {| Sql.original_id := Frame.get (columns (Sql.import main)) r idc;
                     Sql.original_value := Frame.get (columns (Sql.import main)) r c;
                     Sql.column_name := c |})
  /\ (Sql.unmapped_table o <> [] ->
      Sql.nans_file o
      = Some (HeaderLine ["original_id"; "original_value"; "column_name"]
              :: map (fun u => DataLine [Sql.original_id u; Sql.original_value u;
                                         Some (Sql.column_name u)])
                     (Sql.unmapped_table o))).
Proof.
  intros Hrun HM Hpick Hnd Hidc.
  apply sql_run_Ok in Hrun
    as (M' & main' & idc' & HM' & [= <-] & Hpick' & Hloop & _ & Hrep).
  rewrite HM in HM'. injection HM' as <-.
  rewrite Hpick in Hpick'. injection Hpick' as <-.
  remember (Sql.import main) as T eqn:HT.
  set (cs := List.filter Resolver.is_amt (columns T)) in *.
  assert (Hnd' : NoDup cs) by by apply NoDup_List_filter.
  assert (Hmem : forall c, c ∈ cs -> Frame.mem c (columns T) = true).
  { intros c Hc. apply elem_of_List_filter in Hc as [Hc _]. by rewrite mem_true. }
  assert (Hid : idc ∉ cs).
  { intros Hin. apply elem_of_List_filter in Hin as [_ Hin]. congruence. }
  split.
  - intros u. split.
    + intros Hu.
      destruct (sql_columns_only M idc cs T _ [] _ Hloop Hnd' Hid u Hu)
        as [Hu0|(r & c & Hr & Hc & Hun & ->)]; [inversion Hu0|].
      apply elem_of_List_filter in Hc as [Hc Hamt].
      by exists r, c.
    + intros (r & c & Hr & Hc & Hamt & Hun & ->).
      apply list_elem_of_lookup in Hr as [i Hi].
      pose proof (sql_columns_loop M idc cs T _ [] _ Hloop Hnd' Hmem Hid)
        as (_ & _ & Hrow).
      destruct (Hrow i r Hi) as (r' & _ & _ & Hin).
      assert (Hcs : c ∈ cs) by by apply elem_of_List_filter.
      destruct (Hin c Hcs) as (_ & _ & Hrec). by apply Hrec.
  - intros Hne. rewrite Hrep. unfold Sql.export_unmapped.
    destruct cs as [|c cs'] eqn:Hcs.
    + simpl in Hloop. injection Hloop as _ HU. by rewrite <- HU in Hne.
    + by destruct (Sql.unmapped_table o).
Qed.

Lemma X17_sql_report_exact_witness :
  exists o,
    Sql.run (Some Samples.sheet) (Some Samples.main) None = Ok o
    /\ (forall u, u ∈ Sql.unmapped_table o
          <-> exists r c, r ∈ rows (Sql.import Samples.main)
                /\ c ∈ columns (Sql.import Samples.main)
                /\ Resolver.is_amt c = true
                /\ Sql.is_unmapped Samples.lookup c
                     (Frame.get (columns (Sql.import Samples.main)) r c) = true
                /\ u = {| Sql.original_id :=
                            Frame.get (columns (Sql.import Samples.main)) r "id";
                          Sql.original_value :=
                            Frame.get (columns (Sql.import Samples.main)) r c;
                          Sql.column_name := c |})
    /\ (Sql.unmapped_table o <> [] ->
        Sql.nans_file o
        = Some (HeaderLine ["original_id"; "original_value"; "column_name"]
                :: map (fun u => DataLine [Sql.original_id u; Sql.original_value u;
                                           Some (Sql.column_name u)])
                       (Sql.unmapped_table o))).
Proof.
  destruct (Sql.run (Some Samples.sheet) (Some Samples.main) None)
    as [o|e] eqn:Ho; [|vm_compute in Ho; discriminate].
  exists o. split; [reflexivity|].
  apply (X17_sql_report_exact (Some Samples.sheet) Samples.main None o
           Samples.lookup "id" Ho).
  - vm_compute. reflexivity.
  - vm_compute. reflexivity.
  - apply (bool_decide_unpack _). vm_compute. exact I.
  - reflexivity.
Defined.
